(** * DAN guesser: a shallow embedding of [dan_guesser.py]

    Part I follows the Python module: the exception model, the layers and
    the encoder ([DanModel]), the data set ([QuestionData]), batch assembly
    ([DanGuesser.batchify_*]), the losses, evaluation and persistence.
    Part II names the notions the statements use, Part III holds small
    concrete sessions, and Part IV states and proves the properties.
    Part V proves further properties of the module: batch assembly, the
    stored data and its sampling, the lookup index, the encoder, and the
    guesser's persistence and answers.

    Conventions.
    - Python [int] is [Z]; a [float] tensor entry is an exact rational [Q]
      (rounding is not modelled), compared with [==].
    - A 1-D tensor is a [list]; a 2-D tensor is a list of rows.
    - A record read as a [dict] with string keys is a [gmap string string];
      the file system is a [gmap] from paths to saved bundles; an
      insertion-ordered [Counter] is an association list, since its order is
      observable.
    - A raised exception is [inl e]; a returned value is [inr v].  The state
      an object is left in by a call that raises is not modelled.
    - Random draws (initial weights, dropout masks, sampled positives and
      negatives, the sampler's order) are arguments. *)

From Stdlib Require Import ZArith QArith Qminmax Qabs Qfield List Sorting.Sorted Sorting.Permutation.
From Stdlib Require Import Strings.String Strings.Ascii Lia.
From stdpp Require Import base option list gmap strings.

Local Open Scope string_scope.
Local Open Scope list_scope.
Local Open Scope Z_scope.

(** * Part I: the program *)

(** ** Exceptions *)

Module Py.

Inductive exn : Type :=
| AssertionError (msg : string)
| NameError (name : string)
| AttributeError (msg : string)
| KeyError (key : string)
| ValueError (msg : string)
| IndexError (msg : string)
| RuntimeError (msg : string)
| TypeError (msg : string)
| FileNotFoundError (path : string)
| ZeroDivisionError.

Definition t (A : Type) : Type := (exn + A)%type.

Definition ret {A} (a : A) : t A := inr a.
Definition raise {A} (e : exn) : t A := inl e.

Definition bind {A B} (m : t A) (k : A -> t B) : t B :=
  match m with
  | inl e => inl e
  | inr a => k a
  end.

(** [assert c, msg] *)
Definition assert (c : bool) (msg : string) : t unit :=
  if c then ret tt else raise (AssertionError msg).

(** [for x in xs: ...] with an exception-raising body, collecting results. *)
Fixpoint mapM {A B} (f : A -> t B) (xs : list A) : t (list B) :=
  match xs with
  | [] => ret []
  | x :: xs' =>
      bind (f x) (fun y => bind (mapM f xs') (fun ys => ret (y :: ys)))
  end.

End Py.

(** The exception monad uses stdpp's [x ← m; k] notation. *)
#[global] Instance py_ret : MRet Py.t := @Py.ret.
#[global] Instance py_bind : MBind Py.t := fun A B k m => Py.bind m k.
#[global] Instance py_fmap : FMap Py.t := fun A B f m => Py.bind m (fun a => Py.ret (f a)).

(** ** Python built-ins used by the module *)

Section Builtins.
Context {A : Type}.

(** [sorted(xs, key=...)] is a stable sort.  [le a b] decides
    [key(a) <= key(b)]; an element is placed in front of every later
    element that is not smaller, so equal keys keep their input order. *)
Fixpoint insert_sorted (le : A -> A -> bool) (x : A) (l : list A) : list A :=
  match l with
  | [] => [x]
  | y :: l' => if le x y then x :: y :: l' else y :: insert_sorted le x l'
  end.

Definition sorted (le : A -> A -> bool) (xs : list A) : list A :=
  fold_right (insert_sorted le) [] xs.

(** [xs[i]] with Python's negative indices. *)
Definition getitem (xs : list A) (i : Z) : Py.t A :=
  let n := Z.of_nat (length xs) in
  let j := if i <? 0 then i + n else i in
  if (j <? 0) || (n <=? j)
  then Py.raise (Py.IndexError "list index out of range")
  else match nth_error xs (Z.to_nat j) with
       | Some x => Py.ret x
       | None => Py.raise (Py.IndexError "list index out of range")
       end.

(** [max(xs)] over integers; [ValueError] on an empty sequence. *)
Definition py_max (xs : list Z) : Py.t Z :=
  match xs with
  | [] => Py.raise (Py.ValueError "max() arg is an empty sequence")
  | x :: xs' => Py.ret (fold_left Z.max xs' x)
  end.

End Builtins.

(** [xs.index(x)] on a list of strings: the first position, or [ValueError]. *)
Fixpoint index_from (i : nat) (x : string) (xs : list string) : Py.t nat :=
  match xs with
  | [] => Py.raise (Py.ValueError "is not in list")
  | y :: xs' => if String.eqb y x then Py.ret i else index_from (S i) x xs'
  end.

Definition index (xs : list string) (x : string) : Py.t nat := index_from 0 x xs.

(** [x in xs] for a list, or for the [set] built from it. *)
Definition contains (xs : list string) (x : string) : bool :=
  existsb (String.eqb x) xs.

(** ** [collections.Counter] *)

Module Counter.

(** Keys in first-insertion order, each with its count. *)
Definition t : Type := list (string * Z).

Fixpoint add (x : string) (c : t) : t :=
  match c with
  | [] => [(x, 1)]
  | (y, n) :: c' =>
      if String.eqb y x then (y, n + 1) :: c' else (y, n) :: add x c'
  end.

Definition of_list (xs : list string) : t :=
  fold_left (fun c x => add x c) xs [].

(** [most_common(n)] is [heapq.nlargest(n, items, key=count)], which is
    [sorted(items, key=count, reverse=True)[:n]]: descending count, equal
    counts in insertion order, and nothing for [n <= 0]. *)
Definition most_common (n : Z) (c : t) : list (string * Z) :=
  firstn (Z.to_nat n) (sorted (fun a b => snd b <=? snd a) c).

End Counter.

(** ** The vocabulary *)

Module Vocab.

(** Modelled from the spec: class [Vocab] of [vocab.py], which the module
    imports but which is not among the sources.  The spec describes it as a
    bounded two-way mapping between tokens and integer ids, with a reserved
    unknown-token id and a reserved padding id 0, unknown tokens mapping to
    the reserved unknown id.  The module reserves a single token, ['<unk>'],
    and its [vectorize] docstring sends an unknown first word to id 0, so the
    reserved tokens take the first ids.  After them come the distinct tokens
    whose count exceeds the cutoff, by descending count; a non-negative
    [max_tokens] bounds the number of ordinary tokens so that the total does
    not exceed it. *)
Record t : Type := mk {
  itos : list string;
  default_index : option nat
}.

Fixpoint position (i : nat) (tok : string) (l : list string) : option nat :=
  match l with
  | [] => None
  | x :: l' => if String.eqb x tok then Some i else position (S i) tok l'
  end.

Definition stoi (v : t) (tok : string) : option nat := position 0 tok (itos v).

Definition len (v : t) : nat := length (itos v).

(** [vocab[token]] *)
Definition get (v : t) (tok : string) : Py.t nat :=
  match stoi v tok with
  | Some i => Py.ret i
  | None =>
      match default_index v with
      | Some d => Py.ret d
      | None => Py.raise (Py.RuntimeError "token not found and default index is not set")
      end
  end.

Definition set_default_index (v : t) (i : nat) : t :=
  {| itos := itos v; default_index := Some i |}.

Definition build_vocab_from_iterator (iterator : list (list string))
    (specials : list string) (max_tokens : Z) (vocab_cutoff : Z) : t :=
  let counts := Counter.of_list (concat iterator) in
  let ordinary :=
    map fst (List.filter (fun e => (vocab_cutoff <? snd e) && negb (contains specials (fst e)))
                    (Counter.most_common (Z.of_nat (length counts)) counts)) in
  let kept :=
    if max_tokens <? 0 then ordinary
    else firstn (Z.to_nat max_tokens - length specials) ordinary in
  {| itos := specials ++ kept; default_index := None |}.

End Vocab.

(** ** Configuration *)

(** The fields of [parameters.Parameters] that the module reads. *)
Record Parameters : Type := {
  dan_guesser_filename : string;
  dan_guesser_vocab_size : Z;
  dan_guesser_max_classes : Z;
  dan_guesser_ans_min_freq : Z;
  dan_guesser_neg_samp : Z;
  dan_guesser_criterion : string;
  dan_guesser_embed_dim : nat;
  dan_guesser_hidden_units : nat;
  dan_guesser_nn_dropout : Q;
  dan_guesser_initialization : string
}.

(** ** Tensors *)

Module Tensor.

Definition vec : Type := list Q.
Definition mat : Type := list vec.

Definition zeros (n : nat) : vec := repeat 0%Q n.

Definition vadd (u v : vec) : vec := zip_with Qplus u v.

Definition vsub (u v : vec) : vec := zip_with Qminus u v.

Definition vdiv (u : vec) (c : Q) : vec := map (fun x => (x / c)%Q) u.

Definition vscale (c : Q) (u : vec) : vec := map (fun x => (c * x)%Q) u.

Definition dot (u v : vec) : Q := fold_right Qplus 0%Q (zip_with Qmult u v).

(** [torch.eye(n)] and [torch.zeros(n, m)] *)
Definition eye (n : nat) : mat :=
  map (fun i => map (fun j => if Nat.eqb i j then 1%Q else 0%Q) (seq 0 n)) (seq 0 n).

Definition zeros2 (n m : nat) : mat := repeat (zeros m) n.

(** [(rows, columns)], the columns read off the first row. *)
Definition shape (m : mat) : nat * nat :=
  (length m, match m with [] => 0%nat | r :: _ => length r end).

Definition rectangular (n m : nat) (x : mat) : bool :=
  Nat.eqb (length x) n && forallb (fun r => Nat.eqb (length r) m) x.

(** [torch.sum(text_embeddings, dim=1)] for one sequence of the batch: the
    sum of the vectors of its positions.  [d] is the width, which only
    matters for a sequence with no positions. *)
Definition sum_rows (d : nat) (rows : list vec) : vec :=
  match rows with
  | [] => zeros d
  | r :: rows' => fold_left vadd rows' r
  end.

(** Elementwise equality of rational vectors. *)
Definition veq (u v : vec) : Prop := Forall2 Qeq u v.

End Tensor.

(** ** [torch.nn] layers *)

Module Embedding.

(** [nn.Embedding(num_embeddings, embedding_dim, padding_idx)] *)
Record t : Type := mk {
  num_embeddings : nat;
  embedding_dim : nat;
  padding_idx : option nat;
  weight : Tensor.mat
}.

(** Construction draws the table ([init i j] is the draw for row [i], column
    [j]) and then fills the padding row with zeros. *)
Definition new (init : nat -> nat -> Q) (num dim : nat) (pad : option nat) : Py.t t :=
  _ ← Py.assert (match pad with Some p => Nat.ltb p num | None => true end)
        "Padding_idx must be within num_embeddings";
  Py.ret {| num_embeddings := num; embedding_dim := dim; padding_idx := pad;
            weight := map (fun i =>
                        if bool_decide (pad = Some i) then Tensor.zeros dim
                        else map (init i) (seq 0 dim)) (seq 0 num) |}.

(** Row lookup of one id. *)
Definition row (self : t) (id : Z) : Py.t Tensor.vec :=
  if id <? 0 then Py.raise (Py.IndexError "index out of range in self")
  else match nth_error (weight self) (Z.to_nat id) with
       | Some r => Py.ret r
       | None => Py.raise (Py.IndexError "index out of range in self")
       end.

(** [self(input)] on a batch of id rows: shape (B, S) to (B, S, D). *)
Definition call (self : t) (input : list (list Z)) : Py.t (list (list Tensor.vec)) :=
  Py.mapM (Py.mapM (row self)) input.

(** The gradient of the table for one backward pass: row [r] accumulates the
    upstream gradient of every position that holds id [r], except the padding
    row, whose gradient is zero. *)
Definition grad_row (self : t) (ids : list Z) (upstream : list Tensor.vec) (r : nat)
    : Tensor.vec :=
  if bool_decide (padding_idx self = Some r) then Tensor.zeros (embedding_dim self)
  else fold_right Tensor.vadd (Tensor.zeros (embedding_dim self))
         (map snd (List.filter (fun p => Z.eqb (fst p) (Z.of_nat r)) (zip ids upstream))).

Definition grad (self : t) (ids : list Z) (upstream : list Tensor.vec) : Tensor.mat :=
  map (grad_row self ids upstream) (seq 0 (num_embeddings self)).

(** One [torch.optim.SGD] step on the table, after an optional rescaling of
    the gradient by [clip_grad_norm_] (factor [clip]). *)
Definition sgd_step (lr clip : Q) (self : t) (g : Tensor.mat) : t :=
  {| num_embeddings := num_embeddings self; embedding_dim := embedding_dim self;
     padding_idx := padding_idx self;
     weight := zip_with (fun w gr => Tensor.vsub w (Tensor.vscale lr (Tensor.vscale clip gr)))
                        (weight self) g |}.

End Embedding.

Module Linear.

(** [nn.Linear(in_features, out_features)]: [weight] is out x in. *)
Record t : Type := mk {
  in_features : nat;
  out_features : nat;
  weight : Tensor.mat;
  bias : Tensor.vec
}.

Definition new (init_w : nat -> nat -> Q) (init_b : nat -> Q) (n_in n_out : nat) : t :=
  {| in_features := n_in; out_features := n_out;
     weight := map (fun i => map (init_w i) (seq 0 n_in)) (seq 0 n_out);
     bias := map init_b (seq 0 n_out) |}.

Definition call (self : t) (x : Tensor.mat) : Py.t Tensor.mat :=
  Py.mapM (fun r =>
    if Nat.eqb (length r) (in_features self)
    then Py.ret (zip_with (fun w b => (Tensor.dot w r + b)%Q) (weight self) (bias self))
    else Py.raise (Py.RuntimeError "mat1 and mat2 shapes cannot be multiplied")) x.

(** [dst.copy_(src)] for tensors of equal shape. *)
Definition copy_mat (dst src : Tensor.mat) : Py.t Tensor.mat :=
  if bool_decide (Tensor.shape dst = Tensor.shape src) then Py.ret src
  else Py.raise (Py.RuntimeError "The size of tensor a must match the size of tensor b").

Definition copy_vec (dst src : Tensor.vec) : Py.t Tensor.vec :=
  if Nat.eqb (length dst) (length src) then Py.ret src
  else Py.raise (Py.RuntimeError "The size of tensor a must match the size of tensor b").

End Linear.

(** [nn.ReLU()] *)
Definition ReLU (x : Tensor.mat) : Tensor.mat := map (map (Qmax 0)) x.

(** [nn.Dropout(p)]: the identity in evaluation mode; in training mode the
    sampled keep-mask is an explicit argument. *)
Definition Dropout (p : Q) (training : bool) (mask : list (list bool)) (x : Tensor.mat)
    : Tensor.mat :=
  if training
  then zip_with (zip_with (fun keep v => if keep : bool then (v / (1 - p))%Q else 0%Q)) mask x
  else x.

(** The loss objects the module obtains from [getattr(nn, name)()]. *)
Inductive Criterion : Type :=
| MarginRankingLoss (margin : Q)
| CrossEntropyLoss
| OtherLoss (name : string).

Definition criterion_name (c : Criterion) : string :=
  match c with
  | MarginRankingLoss _ => "MarginRankingLoss"
  | CrossEntropyLoss => "CrossEntropyLoss"
  | OtherLoss name => name
  end.

(** [getattr(nn, name)()]: the class is instantiated without arguments, so a
    [MarginRankingLoss] gets its default margin 0 (and mean reduction). *)
Definition make_criterion (name : string) : Criterion :=
  if String.eqb name "MarginRankingLoss" then MarginRankingLoss 0
  else if String.eqb name "CrossEntropyLoss" then CrossEntropyLoss
  else OtherLoss name.

(** ** Name resolution inside a function body

    A bare name is looked up among the locals of the running function and
    then among the names bound at module level; anything else raises
    [NameError].  Attributes of [self] are not in scope as bare names. *)

Inductive value : Type :=
| VInt (n : Z)
| VStr (s : string)
| VObj.

Definition value_eqb (a b : value) : bool :=
  match a, b with
  | VInt x, VInt y => Z.eqb x y
  | VStr x, VStr y => String.eqb x y
  | _, _ => false
  end.

(** Every name bound at the top level of [dan_guesser.py], including those of
    the [__main__] block. *)
Definition module_globals : list string :=
  [ "argparse"; "logging"; "pickle"; "json"; "time"; "os";
    "List"; "Dict"; "Iterable"; "Optional"; "Tuple"; "NamedTuple"; "Callable";
    "Counter"; "defaultdict"; "random"; "np"; "nltk"; "tqdm"; "torch"; "nn";
    "Tensor"; "Dataset"; "DataLoader"; "clip_grad_norm_"; "_Loss";
    "Guesser"; "GuesserParameters"; "rough_compare"; "Parameters";
    "DanParameters"; "Vocab"; "kUNK"; "kPAD"; "ttos"; "DanPlotter"; "Example";
    "DanModel"; "QuestionData"; "DanGuesser"; "number_errors"; "evaluate";
    "load_questions"; "add_guesser_params"; "add_general_params";
    "add_question_params"; "setup_logging"; "instantiate_guesser";
    "parser"; "guesser_params"; "flags"; "cuda"; "train_exs"; "dev_exs";
    "guesser" ].

Fixpoint assoc (locals : list (string * value)) (name : string) : option value :=
  match locals with
  | [] => None
  | (k, v) :: rest => if String.eqb k name then Some v else assoc rest name
  end.

Definition load_name (locals : list (string * value)) (name : string) : Py.t value :=
  match assoc locals name with
  | Some v => Py.ret v
  | None =>
      if contains module_globals name then Py.ret VObj
      else Py.raise (Py.NameError name)
  end.

Definition as_nat (v : value) : Py.t nat :=
  match v with
  | VInt n => if n <? 0 then Py.raise (Py.RuntimeError "negative dimension")
              else Py.ret (Z.to_nat n)
  | _ => Py.raise (Py.TypeError "an integer is required")
  end.

(** ** [class Example] *)

Module Example.

(** [tokens] is a 1-D tensor of ids; [positive] and [negative], when present,
    are the 2-D (1 x n) tensors that [QuestionData.vectorize] returns. *)
Record t : Type := mk {
  tokens : list Z;
  answer : string;
  positive : option (list (list Z));
  negative : option (list (list Z))
}.

(** [len(x)] of a tensor is the size of its first dimension: the number of
    ids for [tokens], the number of rows for [positive] and [negative]. *)
Definition longest_example_length (self : t) : Py.t Z :=
  let max_length := 0 in
  let max_length := Z.max (Z.of_nat (length (tokens self))) max_length in
  let max_length :=
    match positive self with
    | Some token_ids => Z.max (Z.of_nat (length token_ids)) max_length
    | None => max_length
    end in
  let max_length :=
    match negative self with
    | Some token_ids => Z.max (Z.of_nat (length token_ids)) max_length
    | None => max_length
    end in
  _ ← Py.assert (0 <? max_length) "";
  Py.ret max_length.

End Example.

(** ** [class DanModel] *)

Module DanModel.

(** The random draws of the layer constructors. *)
Record Init : Type := {
  emb_init : nat -> nat -> Q;
  w1_init : nat -> nat -> Q;
  b1_init : nat -> Q;
  w2_init : nat -> nat -> Q;
  b2_init : nat -> Q
}.

Record t : Type := mk {
  model_filename : string;
  vocab_size : nat;
  emb_dim : nat;
  n_hidden_units : nat;
  nn_dropout : Q;
  criterion : Criterion;
  num_answers : Z;
  embeddings : Embedding.t;
  linear1 : Linear.t;
  linear2 : Linear.t;
  training : bool
}.

Definition set_linears (self : t) (l1 l2 : Linear.t) : t :=
  {| model_filename := model_filename self; vocab_size := vocab_size self;
     emb_dim := emb_dim self; n_hidden_units := n_hidden_units self;
     nn_dropout := nn_dropout self; criterion := criterion self;
     num_answers := num_answers self; embeddings := embeddings self;
     linear1 := l1; linear2 := l2; training := training self |}.

Definition set_training (self : t) (b : bool) : t :=
  {| model_filename := model_filename self; vocab_size := vocab_size self;
     emb_dim := emb_dim self; n_hidden_units := n_hidden_units self;
     nn_dropout := nn_dropout self; criterion := criterion self;
     num_answers := num_answers self; embeddings := embeddings self;
     linear1 := linear1 self; linear2 := linear2 self; training := b |}.

(** [model.train()] and [model.eval()] *)
Definition train (self : t) : t := set_training self true.
Definition eval (self : t) : t := set_training self false.

Definition initialize_parameters (self : t) (initialization : string) : Py.t t :=
  if String.eqb initialization "identity" then
    let scope := [("self", VObj); ("initialization", VStr initialization)] in
    emb_dim ← load_name scope "emb_dim";
    n_hidden_units ← load_name scope "n_hidden_units";
    _ ← Py.assert (value_eqb emb_dim n_hidden_units)
          "Cannot initialize to identiy matrix if embedding dimension is not hidden dimension";
    loss ← load_name scope "loss";
    _ ← (if value_eqb loss (VStr "cross_entropy") then
           n_hidden_units ← load_name scope "n_hidden_units";
           n_answers ← load_name scope "n_answers";
           Py.assert (value_eqb n_hidden_units n_answers)
             "Cannot initialize to identity matrix if hidden dimension doesn't match the number of answers"
         else Py.ret tt);
    n_hidden_units ← load_name scope "n_hidden_units";
    n ← as_nat n_hidden_units;
    w1 ← Linear.copy_mat (Linear.weight (linear1 self)) (Tensor.eye n);
    w2 ← Linear.copy_mat (Linear.weight (linear2 self)) (Tensor.eye n);
    b1 ← Linear.copy_vec (Linear.bias (linear1 self)) (Tensor.zeros n);
    b2 ← Linear.copy_vec (Linear.bias (linear2 self)) (Tensor.zeros n);
    Py.ret (set_linears self
      {| Linear.in_features := Linear.in_features (linear1 self);
         Linear.out_features := Linear.out_features (linear1 self);
         Linear.weight := w1; Linear.bias := b1 |}
      {| Linear.in_features := Linear.in_features (linear2 self);
         Linear.out_features := Linear.out_features (linear2 self);
         Linear.weight := w2; Linear.bias := b2 |})
  else Py.ret self.

Definition __init__ (rng : Init) (model_filename : string) (criterion : Criterion)
    (vocab_size : nat) (n_answers : Z) (emb_dim n_hidden_units : nat) (nn_dropout : Q)
    (initialization : string) : Py.t t :=
  embeddings ← Embedding.new (emb_init rng) vocab_size emb_dim (Some 0%nat);
  let linear1 := Linear.new (w1_init rng) (b1_init rng) emb_dim n_hidden_units in
  second ← match criterion with
           | MarginRankingLoss _ =>
               Py.ret (Linear.new (w2_init rng) (b2_init rng) n_hidden_units n_hidden_units, -1)
           | CrossEntropyLoss =>
               Py.ret (Linear.new (w2_init rng) (b2_init rng) n_hidden_units (Z.to_nat n_answers),
                       n_answers)
           | OtherLoss _ =>
               Py.raise (Py.AttributeError "'DanModel' object has no attribute 'linear2'")
           end;
  initialize_parameters
    {| model_filename := model_filename; vocab_size := vocab_size; emb_dim := emb_dim;
       n_hidden_units := n_hidden_units; nn_dropout := nn_dropout; criterion := criterion;
       num_answers := snd second; embeddings := embeddings;
       linear1 := linear1; linear2 := fst second; training := true |}
    initialization.

(** [summed / lengths] with shapes (B, D) and (L, 1), broadcast as torch does. *)
Definition broadcast_div (summed : Tensor.mat) (lengths : list Q) : Py.t Tensor.mat :=
  if Nat.eqb (length summed) (length lengths)
  then Py.ret (zip_with Tensor.vdiv summed lengths)
  else match lengths, summed with
       | [l], _ => Py.ret (map (fun s => Tensor.vdiv s l) summed)
       | _, [s] => Py.ret (map (Tensor.vdiv s) lengths)
       | _, _ => Py.raise (Py.RuntimeError "The size of tensor a must match the size of tensor b")
       end.

Definition average (self : t) (text_embeddings : list (list Tensor.vec)) (text_len : list Z)
    : Py.t Tensor.mat :=
  let summed := map (Tensor.sum_rows (emb_dim self)) text_embeddings in
  let lengths := map inject_Z text_len in
  let lengths := map (fun l => Qmax l 1) lengths in
  let average := broadcast_div summed lengths in
  average.

(** [self.network]: linear1, ReLU, Dropout, linear2. *)
Definition network (self : t) (mask : list (list bool)) (x : Tensor.mat) : Py.t Tensor.mat :=
  h ← Linear.call (linear1 self) x;
  Linear.call (linear2 self) (Dropout (nn_dropout self) (training self) mask (ReLU h)).

Definition forward (self : t) (mask : list (list bool)) (input_text : list (list Z))
    (text_len : list Z) : Py.t Tensor.mat :=
  embeddings ← Embedding.call (embeddings self) input_text;
  averaged ← average self embeddings text_len;
  representation ← network self mask averaged;
  Py.ret representation.

End DanModel.

(** ** [faiss.IndexFlatL2] *)

Module IndexFlatL2.

Record t : Type := mk {
  d : nat;
  xb : Tensor.mat
}.

Definition new (d : nat) : t := {| d := d; xb := [] |}.

Definition add (self : t) (x : Tensor.mat) : Py.t t :=
  _ ← Py.assert (forallb (fun r => Nat.eqb (length r) (d self)) x) "d == self.d";
  Py.ret {| d := d self; xb := (xb self ++ x)%list |}.

(** Squared Euclidean distance. *)
Definition l2sqr (u v : Tensor.vec) : Q :=
  fold_right Qplus 0%Q (map (fun x => (x * x)%Q) (Tensor.vsub u v)).

(** The [k] nearest stored rows of one query, nearest first (equal distances
    by ascending position), padded with [-1] when fewer than [k] are stored. *)
Definition search_one (self : t) (k : nat) (q : Tensor.vec) : list Z :=
  let scored := map (fun p => (l2sqr q (snd p), Z.of_nat (fst p)))
                    (zip (seq 0 (length (xb self))) (xb self)) in
  let best := firstn k (sorted (fun a b => Qle_bool (fst a) (fst b)) scored) in
  (map snd best ++ repeat (-1) (k - length best))%list.

(** [search(x, k)]: only the index matrix is modelled, the module discards
    the distances. *)
Definition search (self : t) (x : Tensor.mat) (k : Z) : Py.t (list (list Z)) :=
  _ ← Py.assert (forallb (fun r => Nat.eqb (length r) (d self)) x) "d == self.d";
  _ ← Py.assert (0 <? k) "k > 0";
  Py.ret (map (search_one self (Z.to_nat k)) x).

End IndexFlatL2.

(** ** [class QuestionData] *)

Module QuestionData.

(** Attributes that are [None] or not yet bound are [None] here. *)
Record t : Type := mk {
  vocab_size : Z;
  answer_max_count : Z;
  answer_min_freq : Z;
  neg_samples : Z;
  use_contrastive_examples : bool;
  tokenizer : string -> list string;
  dimension : nat;
  representations : option Tensor.mat;
  vocab : option Vocab.t;
  lookup : option IndexFlatL2.t;
  answer_indices : option (list string);
  questions : option (list string);
  answers : option (list string);
  positive : option (list (list string));
  negative : option (list (list string))
}.

(** Reading an attribute that is unbound or [None] where an object is used. *)
Definition attr {A} (name : string) (o : option A) : Py.t A :=
  match o with
  | Some a => Py.ret a
  | None => Py.raise (Py.AttributeError name)
  end.

(** [word_tokenize] is nltk's tokenizer, an argument here. *)
Definition __init__ (word_tokenize : string -> list string) (parameters : Parameters) : t :=
  {| vocab_size := dan_guesser_vocab_size parameters;
     answer_max_count := dan_guesser_max_classes parameters;
     answer_min_freq := dan_guesser_ans_min_freq parameters;
     neg_samples := dan_guesser_neg_samp parameters;
     use_contrastive_examples :=
       negb (String.eqb (dan_guesser_criterion parameters) "CrossEntropyLoss");
     tokenizer := word_tokenize;
     dimension := dan_guesser_hidden_units parameters;
     representations := None;
     vocab := None;
     lookup := None;
     answer_indices := None;
     questions := None; answers := None; positive := None; negative := None |}.

Definition set_lookup (self : t) (l : option IndexFlatL2.t) : t :=
  {| vocab_size := vocab_size self; answer_max_count := answer_max_count self;
     answer_min_freq := answer_min_freq self; neg_samples := neg_samples self;
     use_contrastive_examples := use_contrastive_examples self;
     tokenizer := tokenizer self; dimension := dimension self;
     representations := representations self; vocab := vocab self;
     lookup := l; answer_indices := answer_indices self;
     questions := questions self; answers := answers self;
     positive := positive self; negative := negative self |}.

Definition set_representations (self : t) (r : option Tensor.mat) : t :=
  {| vocab_size := vocab_size self; answer_max_count := answer_max_count self;
     answer_min_freq := answer_min_freq self; neg_samples := neg_samples self;
     use_contrastive_examples := use_contrastive_examples self;
     tokenizer := tokenizer self; dimension := dimension self;
     representations := r; vocab := vocab self;
     lookup := lookup self; answer_indices := answer_indices self;
     questions := questions self; answers := answers self;
     positive := positive self; negative := negative self |}.

Definition set_vocab (self : t) (v : Vocab.t) : t :=
  {| vocab_size := vocab_size self; answer_max_count := answer_max_count self;
     answer_min_freq := answer_min_freq self; neg_samples := neg_samples self;
     use_contrastive_examples := use_contrastive_examples self;
     tokenizer := tokenizer self; dimension := dimension self;
     representations := representations self; vocab := Some v;
     lookup := lookup self; answer_indices := answer_indices self;
     questions := questions self; answers := answers self;
     positive := positive self; negative := negative self |}.

Definition get_nearest (self : t) (query_row : Tensor.vec) (n_nearest : Z) : Py.t (list Z) :=
  _ ← Py.assert (bool_decide (is_Some (lookup self)))
        "Did you not initialize the KD tree by calling refresh_index?";
  lookup ← attr "'NoneType' object has no attribute 'search'" (lookup self);
  indices ← IndexFlatL2.search lookup [query_row] n_nearest;
  getitem indices 0.

(** [get_batch_nearest] with [lookup_answer=True] and [lookup_answer_id=False],
    the flags of its only call. *)
Definition get_batch_nearest (self : t) (query_representation : Tensor.mat) (n_nearest : Z)
    : Py.t (list string) :=
  lookup ← attr "'NoneType' object has no attribute 'search'" (lookup self);
  closest ← IndexFlatL2.search lookup query_representation n_nearest;
  answers ← attr "'QuestionData' object has no attribute 'answers'" (answers self);
  Py.mapM (fun row => i ← getitem row 0; getitem answers i) closest.

Definition refresh_index (self : t) : Py.t t :=
  training ← attr "'NoneType' object has no attribute 'detach'" (representations self);
  lookup ← IndexFlatL2.add (IndexFlatL2.new (dimension self)) training;
  Py.ret (set_lookup self (Some lookup)).

Definition set_representation (self : t) (indices : list nat) (representations : Tensor.mat)
    : Py.t t :=
  _ ← Py.assert (bool_decide (is_Some (QuestionData.representations self)))
        "Did you not call initialize_lookup?";
  store ← attr "representations" (QuestionData.representations self);
  first ← getitem representations 0;
  _ ← Py.assert (Nat.eqb (dimension self) (length first)) "Dimension doesn't match tensor";
  store ← foldl (fun acc p =>
             store ← acc;
             src ← getitem representations (Z.of_nat (fst p));
             dst ← getitem store (Z.of_nat (snd p));
             row ← Linear.copy_vec dst src;
             Py.ret (<[snd p := row]> store))
           (Py.ret store) (zip (seq 0 (length indices)) indices);
  Py.ret (set_representations self (Some store)).

Definition initialize_lookup_representation (self : t) : Py.t t :=
  answers ← attr "'QuestionData' object has no attribute 'answers'" (answers self);
  Py.ret (set_representations self (Some (Tensor.zeros2 (length answers) (dimension self)))).

Definition build_vocab (self : t) (questions : list (gmap string string)) : Py.t t :=
  texts ← Py.mapM (fun x : gmap string string =>
             match x !! "text" with
             | Some s => Py.ret (tokenizer self s)
             | None => Py.raise (Py.KeyError "text")
             end) questions;
  let vocab := Vocab.build_vocab_from_iterator texts ["<unk>"] (vocab_size self) 0 in
  unk ← Vocab.get vocab "<unk>";
  let vocab := Vocab.set_default_index vocab unk in
  _ ← Py.assert ((vocab_size self <? 0) || (Z.of_nat (Vocab.len vocab) <=? vocab_size self))
        "Vocab too big";
  Py.ret (set_vocab self vocab).

Definition comparison_indices (this_idx : nat) (target_answer : string)
    (full_answer_list : list string) (answer_compare : string -> string -> bool) : list nat :=
  map fst (List.filter (fun p => answer_compare (snd p) target_answer && negb (Nat.eqb (fst p) this_idx))
                  (zip (seq 0 (length full_answer_list)) full_answer_list)).

(** The truth value of a record field read as an answer. *)
Definition truthy (s : string) : bool := negb (String.eqb s "").

(** [x[answer_field] for x in questions if answer_field in x and x[answer_field]] *)
Definition labelled (answer_field : string) (questions : list (gmap string string))
    : list string :=
  omap (fun x : gmap string string =>
          match x !! answer_field with
          | Some a => if truthy a then Some a else None
          | None => None
          end) questions.

(** The answer list chosen from the counts (the [fix_answers is None] branch). *)
Definition select_answers (self : t) (answer_counts : Counter.t) : list string :=
  let valid_answers :=
    List.filter (fun p => answer_min_freq self <=? snd p)
           (Counter.most_common (answer_max_count self) answer_counts) in
  map fst (sorted (fun a b => (- snd a <? - snd b)
                           || ((- snd a =? - snd b) && String.leb (fst a) (fst b)))
                  valid_answers).

(** The records kept by [if answer_field in x and x[answer_field] in valid_answers]. *)
Definition kept (answer_field : string) (valid_answers : list string)
    (questions : list (gmap string string)) : list (gmap string string) :=
  List.filter (fun x : gmap string string =>
            match x !! answer_field with
            | Some a => contains valid_answers a
            | None => false
            end) questions.

Definition set_data (self : t) (questions : list (gmap string string)) (answer_field : string)
    (fix_answers : option (list string)) : Py.t t :=
  let answer_counts := Counter.of_list (labelled answer_field questions) in
  let answer_indices :=
    match fix_answers with
    | None => select_answers self answer_counts
    | Some fixed => fixed
    end in
  let valid_answers := answer_indices in
  let retained := kept answer_field valid_answers questions in
  texts ← Py.mapM (fun x : gmap string string =>
             match x !! "text" with
             | Some s => Py.ret s
             | None => Py.raise (Py.KeyError "text")
             end) retained;
  let answers := omap (fun x : gmap string string => x !! answer_field) retained in
  let contrast (cmp : string -> string -> bool) :=
    map (fun idx =>
           let target_answer := nth idx answers "" in
           omap (fun i => texts !! i) (comparison_indices idx target_answer answers cmp))
        (seq 0 (length texts)) in
  Py.ret
    {| vocab_size := vocab_size self; answer_max_count := answer_max_count self;
       answer_min_freq := answer_min_freq self; neg_samples := neg_samples self;
       use_contrastive_examples := use_contrastive_examples self;
       tokenizer := tokenizer self; dimension := dimension self;
       representations := representations self; vocab := vocab self;
       lookup := lookup self; answer_indices := Some answer_indices;
       questions := Some texts; answers := Some answers;
       positive := if use_contrastive_examples self
                   then Some (contrast String.eqb) else None;
       negative := if use_contrastive_examples self
                   then Some (contrast (fun x y => negb (String.eqb x y))) else None |}.

(** [vectorize(ex, vocab, tokenizer)]: a 1 x n tensor of ids. *)
Definition vectorize (ex : string) (vocab : option Vocab.t) (tokenizer : string -> list string)
    : Py.t (list (list Z)) :=
  _ ← Py.assert (bool_decide (is_Some vocab)) "Vocab not initialized";
  vocab ← attr "vocab" vocab;
  let tokens := tokenizer ex in
  token_indices ← Py.mapM (fun token => i ← Vocab.get vocab token; Py.ret (Z.of_nat i)) tokens;
  Py.ret [token_indices].

(** [len(self)] *)
Definition __len__ (self : t) : Py.t nat :=
  questions ← attr "'QuestionData' object has no attribute 'questions'" (questions self);
  Py.ret (length questions).

(** [random.choice(seq)], the draw [pick] being an argument. *)
Definition choice {A} (pick : nat) (l : list A) : Py.t A :=
  match l with
  | [] => Py.raise (Py.IndexError "Cannot choose from an empty sequence")
  | _ => getitem l (Z.of_nat (pick mod length l))
  end.

Definition __getitem__ (self : t) (pick_pos pick_neg : nat) (index : Z) : Py.t Example.t :=
  questions ← attr "'QuestionData' object has no attribute 'questions'" (questions self);
  q_text ← getitem questions index;
  q_mat ← vectorize q_text (vocab self) (tokenizer self);
  q_vec ← getitem q_mat 0;
  contrast ←
    (if use_contrastive_examples self then
       positive ← attr "object of type 'NoneType' has no len()" (positive self);
       negative ← attr "object of type 'NoneType' has no len()" (negative self);
       _ ← Py.assert (Nat.eqb (length positive) (length questions)) "Positive examples not set";
       _ ← Py.assert (Nat.eqb (length negative) (length questions)) "Negative examples not set";
       candidates ← getitem positive index;
       _ ← Py.assert (negb (Nat.eqb (length candidates) 0)) "No positive example";
       pos_text ← choice pick_pos candidates;
       others ← getitem negative index;
       neg_text ← choice pick_neg others;
       pos_vec ← vectorize pos_text (vocab self) (tokenizer self);
       neg_vec ← vectorize neg_text (vocab self) (tokenizer self);
       Py.ret (Some pos_vec, Some neg_vec)
     else Py.ret (None, None));
  answers ← attr "'QuestionData' object has no attribute 'answers'" (answers self);
  answer ← getitem answers index;
  Py.ret {| Example.tokens := q_vec; Example.answer := answer;
            Example.positive := fst contrast; Example.negative := snd contrast |}.

(** [get_answer_integer(item_id)]: the index of the answer is looked up and
    dropped; the method has no [return] statement, so its value is [None]. *)
Definition get_answer_integer (self : t) (item_id : Z) : Py.t (option nat) :=
  answer_indices ← attr "'NoneType' object has no attribute 'index'" (answer_indices self);
  answers ← attr "'QuestionData' object has no attribute 'answers'" (answers self);
  answer ← getitem answers item_id;
  _ ← index answer_indices answer;
  Py.ret None.

(** [get_representation(idx)] *)
Definition get_representation (self : t) (idx : Z) : Py.t Tensor.vec :=
  match representations self with
  | Some representations => getitem representations idx
  | None => Py.raise (Py.TypeError "'NoneType' object is not subscriptable")
  end.

(** [number_answers()] *)
Definition number_answers (self : t) : Py.t Z :=
  match answer_indices self with
  | Some answer_indices => Py.ret (Z.of_nat (length answer_indices))
  | None => Py.raise (Py.TypeError "object of type 'NoneType' has no len()")
  end.

End QuestionData.

(** ** Batches *)

(** The dictionary that the collate functions return; the four contrastive
    entries are present only in a batch of [batchify_with_contrastive]. *)
Record Batch : Type := {
  question_text : list (list Z);
  question_len : list Z;
  batch_answers : list string;
  ex_indices : list nat;
  pos_text : option (list (list Z));
  pos_len : option (list Z);
  neg_text : option (list (list Z));
  neg_len : option (list Z)
}.

(** [row[:len(src)].copy_(src)]: the slice is cut at the end of the row; a
    source of another length cannot be copied into it, except that a single
    element broadcasts (here only into an empty slice). *)
Definition copy_slice (row src : list Z) : Py.t (list Z) :=
  if Nat.eqb (Nat.min (length src) (length row)) (length src)
  then Py.ret (src ++ drop (length src) row)%list
  else if Nat.eqb (length src) 1 then Py.ret row
  else Py.raise (Py.RuntimeError "The size of tensor a must match the size of tensor b").

(** [matrix[idx, :len(src)].copy_(src)] *)
Definition copy_into (matrix : list (list Z)) (idx : nat) (src : list Z)
    : Py.t (list (list Z)) :=
  row ← getitem matrix (Z.of_nat idx);
  row ← copy_slice row src;
  Py.ret (<[idx := row]> matrix).

(** [max(x.longest_example_length() for x in batch)] *)
Definition batch_max_length (batch : list Example.t) : Py.t Z :=
  lengths ← Py.mapM Example.longest_example_length batch;
  py_max lengths.

(** The loop of [batchify_examples_only], from position [idx] on. *)
Fixpoint fill_questions (idx : nat) (batch : list Example.t)
    (st : list Z * list (list Z) * list string * list nat)
    : Py.t (list Z * list (list Z) * list string * list nat) :=
  match batch with
  | [] => Py.ret st
  | ex :: rest =>
      let '(question_lengths, question_matrix, answers, ex_indices) := st in
      let question_lengths := <[idx := Z.of_nat (length (Example.tokens ex))]> question_lengths in
      let answers := (answers ++ [Example.answer ex])%list in
      last ← getitem answers (Z.of_nat idx);
      _ ← Py.assert (String.eqb last (Example.answer ex)) "";
      let ex_indices := (ex_indices ++ [idx])%list in
      let vector_to_copy := Example.tokens ex in
      row ← getitem question_matrix (Z.of_nat idx);
      _ ← Py.assert (Nat.eqb (Nat.min (length (Example.tokens ex)) (length row))
                             (length vector_to_copy))
            "Mismatch in copying";
      question_matrix ← copy_into question_matrix idx vector_to_copy;
      fill_questions (S idx) rest (question_lengths, question_matrix, answers, ex_indices)
  end.

Definition batchify_examples_only (batch : list Example.t) : Py.t Batch :=
  let num_examples := length batch in
  max_length ← batch_max_length batch;
  let question_lengths := repeat 0 (length batch) in
  let question_matrix := repeat (repeat 0 (Z.to_nat max_length)) num_examples in
  st ← fill_questions 0 batch (question_lengths, question_matrix, [], []);
  let '(question_lengths, question_matrix, answers, ex_indices) := st in
  Py.ret {| question_text := question_matrix; question_len := question_lengths;
            batch_answers := answers; ex_indices := ex_indices;
            pos_text := None; pos_len := None; neg_text := None; neg_len := None |}.

(** [ex.positive[0] if ex.positive is not None else []] *)
Definition first_row (t : option (list (list Z))) : Py.t (list Z) :=
  match t with
  | Some rows => getitem rows 0
  | None => Py.ret []
  end.

(** The loop of [batchify_with_contrastive], from position [idx] on. *)
Fixpoint fill_contrastive (idx : nat) (batch : list Example.t)
    (st : list Z * list Z * list (list Z) * list (list Z))
    : Py.t (list Z * list Z * list (list Z) * list (list Z)) :=
  match batch with
  | [] => Py.ret st
  | ex :: rest =>
      let '(pos_lengths, neg_lengths, positive_matrix, negative_matrix) := st in
      pos ← first_row (Example.positive ex);
      neg ← first_row (Example.negative ex);
      let pos_lengths := <[idx := Z.of_nat (length pos)]> pos_lengths in
      let neg_lengths := <[idx := Z.of_nat (length neg)]> neg_lengths in
      positive_matrix ← (if Nat.ltb 0 (length pos)
                         then copy_into positive_matrix idx pos
                         else Py.ret positive_matrix);
      negative_matrix ← (if Nat.ltb 0 (length neg)
                         then copy_into negative_matrix idx neg
                         else Py.ret negative_matrix);
      fill_contrastive (S idx) rest (pos_lengths, neg_lengths, positive_matrix, negative_matrix)
  end.

Definition batchify_with_contrastive (batch : list Example.t) : Py.t Batch :=
  q_batch ← batchify_examples_only batch;
  let num_examples := length batch in
  max_length ← batch_max_length batch;
  let pos_lengths := repeat 0 (length batch) in
  let neg_lengths := repeat 0 (length batch) in
  let positive_matrix := repeat (repeat 0 (Z.to_nat max_length)) num_examples in
  let negative_matrix := repeat (repeat 0 (Z.to_nat max_length)) num_examples in
  st ← fill_contrastive 0 batch (pos_lengths, neg_lengths, positive_matrix, negative_matrix);
  let '(pos_lengths, neg_lengths, positive_matrix, negative_matrix) := st in
  Py.ret {| question_text := question_text q_batch; question_len := question_len q_batch;
            batch_answers := batch_answers q_batch; ex_indices := ex_indices q_batch;
            pos_text := Some positive_matrix; pos_len := Some pos_lengths;
            neg_text := Some negative_matrix; neg_len := Some neg_lengths |}.

(** ** Losses *)

(** [torch.mean] of a non-empty vector (of an empty one it is NaN, which the
    rationals do not have: the division by zero gives 0 here). *)
Definition mean (l : list Q) : Q :=
  (fold_right Qplus 0 l / inject_Z (Z.of_nat (length l)))%Q.

(** One term of [nn.MarginRankingLoss]: [max(0, -y * (x1 - x2) + margin)]. *)
Definition margin_ranking_term (margin x1 x2 y : Q) : Q :=
  Qmax 0 (- y * (x1 - x2) + margin)%Q.

(** [criterion(x1, x2, target)] for [nn.MarginRankingLoss(margin)], with the
    default mean reduction. *)
Definition margin_ranking_loss (margin : Q) (x1 x2 target : list Q) : Q :=
  mean (zip_with (fun p y => margin_ranking_term margin (fst p) (snd p) y)
                 (zip x1 x2) target).

(** The numeric primitives that have no rational model are arguments:
    [torch.pairwise_distance] (a square root) and the cross entropy (a
    logarithm). *)
Record Numeric : Type := {
  pairwise_distance : Tensor.mat -> Tensor.mat -> list Q;
  cross_entropy : Tensor.mat -> list nat -> Q
}.

(** ** [number_errors] and [evaluate] *)

(** [torch.max(logits, 1)]: the position of the largest entry of a row (the
    first one among equals). *)
Fixpoint argmax_from (i best : nat) (best_v : Q) (row : list Q) : nat :=
  match row with
  | [] => best
  | x :: row' =>
      if Qle_bool x best_v then argmax_from (S i) best best_v row'
      else argmax_from (S i) i x row'
  end.

Definition argmax (row : list Q) : Py.t nat :=
  match row with
  | [] => Py.raise (Py.IndexError "max(): Expected reduction dim 1 to have non-zero size")
  | x :: row' => Py.ret (argmax_from 1 0 x row')
  end.

(** The number of positions at which two sequences differ. *)
Definition count_mismatches {A} (eqb : A -> A -> bool) (xs ys : list A) : Z :=
  Z.of_nat (length (List.filter (fun p => negb (eqb (fst p) (snd p))) (zip xs ys))).

(** [(a != b).sum().item()] on two index vectors, broadcast as torch does. *)
Definition count_ne (a b : list nat) : Py.t Z :=
  if Nat.eqb (length a) (length b) then Py.ret (count_mismatches Nat.eqb a b)
  else match a, b with
       | [x], _ => Py.ret (count_mismatches Nat.eqb (repeat x (length b)) b)
       | _, [y] => Py.ret (count_mismatches Nat.eqb a (repeat y (length a)))
       | _, _ => Py.raise (Py.RuntimeError "The size of tensor a must match the size of tensor b")
       end.

Definition number_errors (question_text : list (list Z)) (question_len : list Z)
    (labels : list string) (train_data : QuestionData.t) (model : DanModel.t) : Py.t Z :=
  let error := 0 in
  match DanModel.criterion model with
  | MarginRankingLoss _ =>
      representations ← DanModel.forward model [] question_text question_len;
      predictions ← QuestionData.get_batch_nearest train_data representations 1;
      Py.ret (error + count_mismatches String.eqb predictions labels)
  | CrossEntropyLoss =>
      logits ← DanModel.forward model [] question_text question_len;
      predicted_indices ← Py.mapM argmax logits;
      answer_indices ← QuestionData.attr "'NoneType' object has no attribute 'index'"
                         (QuestionData.answer_indices train_data);
      label_indices ← Py.mapM (index answer_indices) labels;
      differing ← count_ne predicted_indices label_indices;
      Py.ret differing
  | OtherLoss _ => Py.ret error
  end.

(** The loop of [evaluate] over the batches of the loader. *)
Fixpoint evaluate_loop (data_loader : list Batch) (model : DanModel.t)
    (train_data : QuestionData.t) (num_examples error : Z) : Py.t (Z * Z) :=
  match data_loader with
  | [] => Py.ret (num_examples, error)
  | batch :: rest =>
      let question_text := question_text batch in
      let question_len := question_len batch in
      let labels := batch_answers batch in
      e ← number_errors question_text question_len labels train_data model;
      let error := error + e in
      let num_examples := num_examples + Z.of_nat (length question_text) in
      evaluate_loop rest model train_data num_examples error
  end.

(** [error / num_examples] on two Python integers. *)
Definition true_div (a b : Z) : Py.t Q :=
  if b =? 0 then Py.raise Py.ZeroDivisionError
  else Py.ret (inject_Z a / inject_Z b)%Q.

(** [evaluate(data_loader, model, train_data, device, criterion)]: the last
    two arguments do not influence the result and are left out. *)
Definition evaluate (data_loader : list Batch) (model : DanModel.t)
    (train_data : QuestionData.t) : Py.t Q :=
  let model := DanModel.eval model in
  let num_examples := 0 in
  let error := 0 in
  totals ← evaluate_loop data_loader model train_data num_examples error;
  ratio ← true_div (snd totals) (fst totals);
  let accuracy := (1 - ratio)%Q in
  Py.ret accuracy.

(** ** [class DanGuesser] *)

Module DanGuesser.

(** The bundles written by [torch.save]. *)
Record StateDict : Type := {
  embeddings_weight : Tensor.mat;
  linear1_weight : Tensor.mat;
  linear1_bias : Tensor.vec;
  linear2_weight : Tensor.mat;
  linear2_bias : Tensor.vec
}.

Record ModelCheckpoint : Type := {
  model_state_dict : StateDict;
  ck_vocab : option Vocab.t;
  ck_answer_indices : option (list string);
  ck_dimension : nat;
  ck_criterion : string;
  ck_vocab_size : nat;
  ck_emb_dim : nat;
  ck_n_hidden_units : nat;
  ck_nn_dropout : Q;
  ck_num_answers : Z
}.

Record DataCheckpoint : Type := {
  ck_representations : option Tensor.mat;
  ck_questions : option (list string);
  ck_answers : option (list string)
}.

Inductive File : Type :=
| ModelFile (c : ModelCheckpoint)
| DataFile (c : DataCheckpoint).

Record t : Type := mk {
  params : Parameters;
  word_tokenize : string -> list string;
  training_data : option QuestionData.t;
  eval_data : option QuestionData.t;
  filename : string;
  dan_model : option DanModel.t
}.

Definition __init__ (word_tokenize : string -> list string) (parameters : Parameters) : t :=
  {| params := parameters; word_tokenize := word_tokenize;
     training_data := None; eval_data := None;
     filename := dan_guesser_filename parameters;
     dan_model := None |}.

Definition state_dict (m : DanModel.t) : StateDict :=
  {| embeddings_weight := Embedding.weight (DanModel.embeddings m);
     linear1_weight := Linear.weight (DanModel.linear1 m);
     linear1_bias := Linear.bias (DanModel.linear1 m);
     linear2_weight := Linear.weight (DanModel.linear2 m);
     linear2_bias := Linear.bias (DanModel.linear2 m) |}.

(** [model.load_state_dict(sd)]: every tensor must have the shape of the
    parameter it replaces. *)
Definition load_state_dict (m : DanModel.t) (sd : StateDict) : Py.t DanModel.t :=
  let e := DanModel.embeddings m in
  let l1 := DanModel.linear1 m in
  let l2 := DanModel.linear2 m in
  _ ← (if Tensor.rectangular (Embedding.num_embeddings e) (Embedding.embedding_dim e)
            (embeddings_weight sd)
          && Tensor.rectangular (Linear.out_features l1) (Linear.in_features l1)
               (linear1_weight sd)
          && Nat.eqb (length (linear1_bias sd)) (Linear.out_features l1)
          && Tensor.rectangular (Linear.out_features l2) (Linear.in_features l2)
               (linear2_weight sd)
          && Nat.eqb (length (linear2_bias sd)) (Linear.out_features l2)
       then Py.ret tt
       else Py.raise (Py.RuntimeError "Error(s) in loading state_dict for DanModel: size mismatch"));
  Py.ret
    {| DanModel.model_filename := DanModel.model_filename m;
       DanModel.vocab_size := DanModel.vocab_size m;
       DanModel.emb_dim := DanModel.emb_dim m;
       DanModel.n_hidden_units := DanModel.n_hidden_units m;
       DanModel.nn_dropout := DanModel.nn_dropout m;
       DanModel.criterion := DanModel.criterion m;
       DanModel.num_answers := DanModel.num_answers m;
       DanModel.embeddings :=
         {| Embedding.num_embeddings := Embedding.num_embeddings e;
            Embedding.embedding_dim := Embedding.embedding_dim e;
            Embedding.padding_idx := Embedding.padding_idx e;
            Embedding.weight := embeddings_weight sd |};
       DanModel.linear1 :=
         {| Linear.in_features := Linear.in_features l1;
            Linear.out_features := Linear.out_features l1;
            Linear.weight := linear1_weight sd; Linear.bias := linear1_bias sd |};
       DanModel.linear2 :=
         {| Linear.in_features := Linear.in_features l2;
            Linear.out_features := Linear.out_features l2;
            Linear.weight := linear2_weight sd; Linear.bias := linear2_bias sd |};
       DanModel.training := DanModel.training m |}.

(** The loss that [batch_step] computes and returns; the backward pass and
    the optimizer step that follow it are not part of the model.  The three
    keep-masks are the dropout draws of the three forward passes. *)
Definition batch_step (num : Numeric) (model : DanModel.t)
    (mask_a mask_p mask_n : list (list bool))
    (example : list (list Z)) (example_length : list Z)
    (positive : option (list (list Z))) (positive_length : option (list Z))
    (negative : option (list (list Z))) (negative_length : option (list Z))
    (answers : list string) (answer_lookup : list string) : Py.t Q :=
  let criterion := DanModel.criterion model in
  match criterion with
  | MarginRankingLoss margin =>
      anchor_rep ← DanModel.forward model mask_a example example_length;
      positive ← QuestionData.attr "positive" positive;
      positive_length ← QuestionData.attr "positive_length" positive_length;
      positive_rep ← DanModel.forward model mask_p positive positive_length;
      negative ← QuestionData.attr "negative" negative;
      negative_length ← QuestionData.attr "negative_length" negative_length;
      negative_rep ← DanModel.forward model mask_n negative negative_length;
      let pos_dist := pairwise_distance num anchor_rep positive_rep in
      let neg_dist := pairwise_distance num anchor_rep negative_rep in
      let target := repeat 1%Q (length pos_dist) in
      let loss := margin_ranking_loss margin neg_dist pos_dist target in
      Py.ret loss
  | CrossEntropyLoss =>
      logits ← DanModel.forward model mask_a example example_length;
      label_indices ← Py.mapM (index answer_lookup) answers;
      let loss := cross_entropy num logits label_indices in
      Py.ret loss
  | OtherLoss _ =>
      Py.raise (Py.NameError "loss")
  end.

(** [torch.topk(row, k)]: the positions of the [k] largest entries, largest
    first (equal entries by ascending position). *)
Definition topk (k : Z) (row : list Q) : Py.t (list Z) :=
  if (k <? 0) || (Z.of_nat (length row) <? k)
  then Py.raise (Py.RuntimeError "selected index k out of range")
  else Py.ret (map snd (firstn (Z.to_nat k)
                 (sorted (fun a b => Qle_bool (fst b) (fst a))
                         (zip row (map Z.of_nat (seq 0 (length row))))))).

Definition kUNK : string := "<unk>".

Definition __call__ (self : t) (question : string) (n_guesses : Z)
    : Py.t (list (gmap string string)) :=
  model ← match dan_model self with
          | Some m => Py.ret m
          | None => Py.raise (Py.RuntimeError
                      "Model not loaded. Call load() first or train the model.")
          end;
  let model := DanModel.eval model in
  let test_question := QuestionData.__init__ (word_tokenize self) (params self) in
  training_data ← QuestionData.attr "'NoneType' object has no attribute 'vocab'"
                    (training_data self);
  q_vec ← QuestionData.vectorize question (QuestionData.vocab training_data)
            (QuestionData.tokenizer test_question);
  row ← getitem q_vec 0;
  let question_len := [Z.of_nat (length row)] in
  representation ← DanModel.forward model [] q_vec question_len;
  raw_guesses ←
    (if QuestionData.use_contrastive_examples training_data then
       first ← getitem representation 0;
       QuestionData.get_nearest training_data first n_guesses
     else
       let num_classes := Z.of_nat (snd (Tensor.shape representation)) in
       let k := Z.min n_guesses num_classes in
       first ← getitem representation 0;
       topk k first);
  Py.mapM (fun guess_index =>
      guess ←
        (if QuestionData.use_contrastive_examples training_data then
           answers ← QuestionData.attr "'QuestionData' object has no attribute 'answers'"
                       (QuestionData.answers training_data);
           getitem answers guess_index
         else
           answer_indices ← QuestionData.attr "'NoneType' object is not subscriptable"
                              (QuestionData.answer_indices training_data);
           getitem answer_indices guess_index);
      let guess := if String.eqb guess kUNK then "" else guess in
      Py.ret ({[ "guess" := guess ]} : gmap string string))
    raw_guesses.

Definition model_path (self : t) : string := (filename self ++ ".torch.pkl")%string.
Definition data_path (self : t) : string := (filename self ++ ".data.pkl")%string.

Definition save (self : t) (fs : gmap string File) : Py.t (gmap string File) :=
  match dan_model self with
  | Some model =>
      training_data ← QuestionData.attr "'NoneType' object has no attribute 'vocab'"
                        (training_data self);
      let fs :=
        <[ model_path self :=
             ModelFile
               {| model_state_dict := state_dict model;
                  ck_vocab := QuestionData.vocab training_data;
                  ck_answer_indices := QuestionData.answer_indices training_data;
                  ck_dimension := QuestionData.dimension training_data;
                  ck_criterion := criterion_name (DanModel.criterion model);
                  ck_vocab_size := DanModel.vocab_size model;
                  ck_emb_dim := DanModel.emb_dim model;
                  ck_n_hidden_units := DanModel.n_hidden_units model;
                  ck_nn_dropout := DanModel.nn_dropout model;
                  ck_num_answers := DanModel.num_answers model |} ]> fs in
      if QuestionData.use_contrastive_examples training_data then
        questions ← QuestionData.attr "'QuestionData' object has no attribute 'questions'"
                      (QuestionData.questions training_data);
        answers ← QuestionData.attr "'QuestionData' object has no attribute 'answers'"
                    (QuestionData.answers training_data);
        Py.ret (<[ data_path self :=
                     DataFile
                       {| ck_representations := QuestionData.representations training_data;
                          ck_questions := Some questions;
                          ck_answers := Some answers |} ]> fs)
      else Py.ret fs
  | None => Py.ret fs
  end.

(** [load] rebuilds the model with fresh draws [rng] and overwrites them with
    the saved parameters. *)
Definition load (rng : DanModel.Init) (self : t) (fs : gmap string File) : Py.t t :=
  checkpoint ← match fs !! model_path self with
               | Some (ModelFile c) => Py.ret c
               | Some (DataFile _) => Py.raise (Py.KeyError "criterion")
               | None => Py.raise (Py.FileNotFoundError (model_path self))
               end;
  let criterion := make_criterion (ck_criterion checkpoint) in
  model ← DanModel.__init__ rng (dan_guesser_filename (params self)) criterion
            (ck_vocab_size checkpoint) (ck_num_answers checkpoint)
            (ck_emb_dim checkpoint) (ck_n_hidden_units checkpoint)
            (ck_nn_dropout checkpoint) "";
  model ← load_state_dict model (model_state_dict checkpoint);
  let model := DanModel.eval model in
  let training_data := QuestionData.__init__ (word_tokenize self) (params self) in
  let training_data :=
    {| QuestionData.vocab_size := QuestionData.vocab_size training_data;
       QuestionData.answer_max_count := QuestionData.answer_max_count training_data;
       QuestionData.answer_min_freq := QuestionData.answer_min_freq training_data;
       QuestionData.neg_samples := QuestionData.neg_samples training_data;
       QuestionData.use_contrastive_examples :=
         QuestionData.use_contrastive_examples training_data;
       QuestionData.tokenizer := QuestionData.tokenizer training_data;
       QuestionData.dimension := ck_dimension checkpoint;
       QuestionData.representations := QuestionData.representations training_data;
       QuestionData.vocab := ck_vocab checkpoint;
       QuestionData.lookup := QuestionData.lookup training_data;
       QuestionData.answer_indices := ck_answer_indices checkpoint;
       QuestionData.questions := QuestionData.questions training_data;
       QuestionData.answers := QuestionData.answers training_data;
       QuestionData.positive := QuestionData.positive training_data;
       QuestionData.negative := QuestionData.negative training_data |} in
  training_data ←
    match fs !! data_path self with
    | Some (DataFile data_checkpoint) =>
        QuestionData.refresh_index
          {| QuestionData.vocab_size := QuestionData.vocab_size training_data;
             QuestionData.answer_max_count := QuestionData.answer_max_count training_data;
             QuestionData.answer_min_freq := QuestionData.answer_min_freq training_data;
             QuestionData.neg_samples := QuestionData.neg_samples training_data;
             QuestionData.use_contrastive_examples :=
               QuestionData.use_contrastive_examples training_data;
             QuestionData.tokenizer := QuestionData.tokenizer training_data;
             QuestionData.dimension := QuestionData.dimension training_data;
             QuestionData.representations := ck_representations data_checkpoint;
             QuestionData.vocab := QuestionData.vocab training_data;
             QuestionData.lookup := QuestionData.lookup training_data;
             QuestionData.answer_indices := QuestionData.answer_indices training_data;
             QuestionData.questions := ck_questions data_checkpoint;
             QuestionData.answers := ck_answers data_checkpoint;
             QuestionData.positive := QuestionData.positive training_data;
             QuestionData.negative := QuestionData.negative training_data |}
    | Some (ModelFile _) => Py.raise (Py.KeyError "representations")
    | None => Py.ret training_data
    end;
  Py.ret {| params := params self; word_tokenize := word_tokenize self;
            training_data := Some training_data; eval_data := eval_data self;
            filename := filename self; dan_model := Some model |}.

End DanGuesser.

(** ** The remaining [QuestionData] method and its call protocol *)

(** The loop of [QuestionData.build_representation(model)]; [masks idx] is
    the dropout draw for document [idx]. *)
Fixpoint build_representation_from (idx : nat) (docs : list string)
    (masks : nat -> list (list bool)) (model : DanModel.t) (self : QuestionData.t)
    : Py.t QuestionData.t :=
  match docs with
  | [] => Py.ret self
  | doc :: rest =>
      q_vec ← QuestionData.vectorize doc (QuestionData.vocab self) (QuestionData.tokenizer self);
      row ← getitem q_vec 0;
      let length := Z.of_nat (length row) in
      embed ← Embedding.call (DanModel.embeddings model) q_vec;
      average ← DanModel.average model embed [length];
      representation ← DanModel.network model (masks idx) average;
      self ← QuestionData.set_representation self [idx] representation;
      build_representation_from (S idx) rest masks model self
  end.

Definition build_representation (masks : nat -> list (list bool)) (model : DanModel.t)
    (self : QuestionData.t) : Py.t QuestionData.t :=
  questions ← QuestionData.attr "'QuestionData' object has no attribute 'questions'"
                (QuestionData.questions self);
  build_representation_from 0 questions masks model self.

(** The state-changing methods of a [QuestionData] object. *)
Inductive Call : Type :=
| CallBuildVocab (questions : list (gmap string string))
| CallSetVocab (vocab : Vocab.t)
| CallSetData (questions : list (gmap string string)) (answer_field : string)
    (fix_answers : option (list string))
| CallInitializeLookupRepresentation
| CallSetRepresentation (indices : list nat) (representations : Tensor.mat)
| CallBuildRepresentation (masks : nat -> list (list bool)) (model : DanModel.t)
| CallRefreshIndex.

Definition perform (self : QuestionData.t) (c : Call) : Py.t QuestionData.t :=
  match c with
  | CallBuildVocab questions => QuestionData.build_vocab self questions
  | CallSetVocab vocab => Py.ret (QuestionData.set_vocab self vocab)
  | CallSetData questions answer_field fix_answers =>
      QuestionData.set_data self questions answer_field fix_answers
  | CallInitializeLookupRepresentation => QuestionData.initialize_lookup_representation self
  | CallSetRepresentation indices representations =>
      QuestionData.set_representation self indices representations
  | CallBuildRepresentation masks model => build_representation masks model self
  | CallRefreshIndex => QuestionData.refresh_index self
  end.

(** A history of calls on one object; a call that raises is caught by the
    caller and leaves the object as it was. *)
Definition history (self : QuestionData.t) (calls : list Call) : QuestionData.t :=
  foldl (fun s c => match perform s c with inr s' => s' | inl _ => s end) self calls.

Definition is_refresh (c : Call) : bool :=
  match c with CallRefreshIndex => true | _ => false end.

(** ** The data loader *)

(** Consecutive batches of [size] items, the last one possibly shorter. *)
Fixpoint batches_of {A} (size : nat) (cur : list A) (l : list A) : list (list A) :=
  match l with
  | [] => match cur with [] => [] | _ => [cur] end
  | x :: l' =>
      let cur := (cur ++ [x])%list in
      if Nat.eqb (length cur) size then cur :: batches_of size [] l'
      else batches_of size cur l'
  end.

(** [DataLoader(dataset, batch_size, sampler, collate_fn)] read to the end:
    [order] is the sampler's order of the indices and [picks i] the two random
    draws of [__getitem__] at index [i]. *)
Definition DataLoader (dataset : QuestionData.t) (batch_size : nat) (order : list nat)
    (picks : nat -> nat * nat) (collate_fn : list Example.t -> Py.t Batch)
    : Py.t (list Batch) :=
  Py.mapM (fun indices =>
      examples ← Py.mapM (fun i =>
                   QuestionData.__getitem__ dataset (fst (picks i)) (snd (picks i)) (Z.of_nat i))
                 indices;
      collate_fn examples)
    (batches_of batch_size [] order).

(** Loading an evaluation set against a frozen index and evaluating on it. *)
Definition evaluate_set (eval_data : QuestionData.t) (raw_eval : list (gmap string string))
    (answer_field : string) (fix_answers : list string)
    (batch_size : nat) (order : list nat) (picks : nat -> nat * nat)
    (collate_fn : list Example.t -> Py.t Batch)
    (model : DanModel.t) (train_data : QuestionData.t) : Py.t Q :=
  eval_data ← QuestionData.set_data eval_data raw_eval answer_field (Some fix_answers);
  dev_loader ← DataLoader eval_data batch_size order picks collate_fn;
  evaluate dev_loader model train_data.

(** * Part II: vocabulary of the statements *)

(** ** The answer index *)

(** How often a label occurs among the labelled training records. *)
Definition frequency (answer_field : string) (questions : list (gmap string string))
    (a : string) : Z :=
  Z.of_nat (count_occ string_dec (QuestionData.labelled answer_field questions) a).

(** Descending frequency, equal frequencies by ascending label. *)
Definition answer_order (freq : string -> Z) (a b : string) : Prop :=
  freq b < freq a \/ (freq a = freq b /\ String.ltb a b = true).

(** The invariant of the counting loop: [c] counts exactly the elements of [ys]. *)
Definition counts_of (c : Counter.t) (ys : list string) : Prop :=
  NoDup (map fst c) /\
  (forall a, In a ys -> In a (map fst c)) /\
  (forall a n, In (a, n) c -> n = Z.of_nat (count_occ string_dec ys a) /\ 0 < n).

(** The sort key [(-count, label)] of [set_data], as a comparison. *)
Definition answer_key_le (a b : string * Z) : bool :=
  (- snd a <? - snd b) || ((- snd a =? - snd b) && String.leb (fst a) (fst b)).

(** A record whose gold label is missing, or is not in the answer list. *)
Definition out_of_index (answer_field : string) (idx : list string)
    (x : gmap string string) : Prop :=
  match x !! answer_field with
  | Some a => ~ In a idx
  | None => True
  end.

(** ** The encoder *)

(** A row of a batch matrix: the ids, then padding up to [width] columns. *)
Definition padded (width : nat) (ids : list Z) : list Z :=
  (ids ++ repeat 0 (width - length ids))%list.

(** The shape of an embedding table and its padding row: every row has the
    embedding width, and row 0, the padding row, is zero. *)
Definition table_ok (e : Embedding.t) : Prop :=
  Embedding.padding_idx e = Some 0%nat /\
  length (Embedding.weight e) = Embedding.num_embeddings e /\
  Forall (fun r => length r = Embedding.embedding_dim e) (Embedding.weight e) /\
  exists r, nth_error (Embedding.weight e) 0 = Some r /\
            Tensor.veq r (Tensor.zeros (Embedding.embedding_dim e)).

Definition encoder_ok (m : DanModel.t) : Prop :=
  Embedding.embedding_dim (DanModel.embeddings m) = DanModel.emb_dim m /\
  table_ok (DanModel.embeddings m).

(** The elementwise mean of a non-empty list of vectors of width [d]. *)
Definition vmean (d : nat) (X : list Tensor.vec) : Tensor.vec :=
  Tensor.vdiv (Tensor.sum_rows d X) (inject_Z (Z.of_nat (length X))).

(** The sum of the vectors [X] over the length of [X] floored at 1. *)
Definition pooled_row (d : nat) (X : list Tensor.vec) : Tensor.vec :=
  Tensor.vdiv (Tensor.sum_rows d X) (Qmax (inject_Z (Z.of_nat (length X))) 1).

(** One padded batch run through the embedding layer and the pooling step. *)
Definition pooled (model : DanModel.t) (seqs : list (list Z)) (width : nat) : Py.t Tensor.mat :=
  embeddings ← Embedding.call (DanModel.embeddings model) (map (padded width) seqs);
  DanModel.average model embeddings (map (fun ids => Z.of_nat (length ids)) seqs).

(** The ids of a sequence that are not the unknown-token id. *)
Definition known (ids : list Z) : list Z := List.filter (fun id => negb (id =? 0)) ids.

(** ** Evaluation *)

(** [e] is the number of prediction errors of the model (in evaluation mode)
    on batch [b]: in classification mode the rows whose arg-max logit index
    differs from the index of the gold label in the frozen answer list, in
    ranking mode the rows whose nearest stored representation carries a label
    other than the gold label. *)
Definition errors_of (model : DanModel.t) (train_data : QuestionData.t) (b : Batch) (e : Z)
    : Prop :=
  match DanModel.criterion model with
  | CrossEntropyLoss =>
      exists logits predicted idx gold,
        DanModel.forward model [] (question_text b) (question_len b) = inr logits /\
        Py.mapM argmax logits = inr predicted /\
        QuestionData.answer_indices train_data = Some idx /\
        Py.mapM (index idx) (batch_answers b) = inr gold /\
        length predicted = length gold /\
        e = count_mismatches Nat.eqb predicted gold
  | MarginRankingLoss _ =>
      exists representations nearest,
        DanModel.forward model [] (question_text b) (question_len b) = inr representations /\
        QuestionData.get_batch_nearest train_data representations 1 = inr nearest /\
        e = count_mismatches String.eqb nearest (batch_answers b)
  | OtherLoss _ => e = 0
  end.

Definition sum_Z (l : list Z) : Z := fold_right Z.add 0 l.

(** The number of examples of a loader. *)
Definition total_examples (data_loader : list Batch) : Z :=
  sum_Z (map (fun b => Z.of_nat (length (question_text b))) data_loader).

(** ** Persistence *)

(** [initialize_model(num_classes, vocab_size)] of [DanGuesser]. *)
Definition initialize_model (rng : DanModel.Init) (parameters : Parameters)
    (num_classes : Z) (vocab_size : nat) : Py.t DanModel.t :=
  let criterion := make_criterion (dan_guesser_criterion parameters) in
  DanModel.__init__ rng (dan_guesser_filename parameters) criterion vocab_size num_classes
    (dan_guesser_embed_dim parameters) (dan_guesser_hidden_units parameters)
    (dan_guesser_nn_dropout parameters) (dan_guesser_initialization parameters).

(** The parameter tensors of [m] have the shapes of its layers. *)
Definition shapes_ok (m : DanModel.t) : Prop :=
  Tensor.rectangular (Embedding.num_embeddings (DanModel.embeddings m))
    (Embedding.embedding_dim (DanModel.embeddings m))
    (Embedding.weight (DanModel.embeddings m)) = true /\
  Tensor.rectangular (Linear.out_features (DanModel.linear1 m))
    (Linear.in_features (DanModel.linear1 m)) (Linear.weight (DanModel.linear1 m)) = true /\
  length (Linear.bias (DanModel.linear1 m)) = Linear.out_features (DanModel.linear1 m) /\
  Tensor.rectangular (Linear.out_features (DanModel.linear2 m))
    (Linear.in_features (DanModel.linear2 m)) (Linear.weight (DanModel.linear2 m)) = true /\
  length (Linear.bias (DanModel.linear2 m)) = Linear.out_features (DanModel.linear2 m).

(** [m] is [m0] after training: the optimizer has changed the values of the
    parameter tensors and nothing else. *)
Definition trained_from (m0 m : DanModel.t) : Prop :=
  DanModel.model_filename m = DanModel.model_filename m0 /\
  DanModel.vocab_size m = DanModel.vocab_size m0 /\
  DanModel.emb_dim m = DanModel.emb_dim m0 /\
  DanModel.n_hidden_units m = DanModel.n_hidden_units m0 /\
  DanModel.nn_dropout m = DanModel.nn_dropout m0 /\
  DanModel.criterion m = DanModel.criterion m0 /\
  DanModel.num_answers m = DanModel.num_answers m0 /\
  Embedding.num_embeddings (DanModel.embeddings m) =
    Embedding.num_embeddings (DanModel.embeddings m0) /\
  Embedding.embedding_dim (DanModel.embeddings m) =
    Embedding.embedding_dim (DanModel.embeddings m0) /\
  Embedding.padding_idx (DanModel.embeddings m) =
    Embedding.padding_idx (DanModel.embeddings m0) /\
  Linear.in_features (DanModel.linear1 m) = Linear.in_features (DanModel.linear1 m0) /\
  Linear.out_features (DanModel.linear1 m) = Linear.out_features (DanModel.linear1 m0) /\
  Linear.in_features (DanModel.linear2 m) = Linear.in_features (DanModel.linear2 m0) /\
  Linear.out_features (DanModel.linear2 m) = Linear.out_features (DanModel.linear2 m0) /\
  shapes_ok m.

(** The state in which [train_dan] leaves a guesser: the model is the one of
    [initialize_model] after training, the training data is the object made
    by [QuestionData(self.params)], and in ranking mode the last thing done
    to it is [refresh_index]. *)
Record trained (g : DanGuesser.t) (m : DanModel.t) (td : QuestionData.t) : Prop := {
  trained_model : DanGuesser.dan_model g = Some m;
  trained_data : DanGuesser.training_data g = Some td;
  trained_filename : DanGuesser.filename g = dan_guesser_filename (DanGuesser.params g);
  trained_init :
    exists rng num_classes vocab_size m0,
      initialize_model rng (DanGuesser.params g) num_classes vocab_size = inr m0 /\
      trained_from m0 m;
  trained_contrastive :
    QuestionData.use_contrastive_examples td =
    QuestionData.use_contrastive_examples
      (QuestionData.__init__ (DanGuesser.word_tokenize g) (DanGuesser.params g));
  trained_dimension :
    QuestionData.dimension td = dan_guesser_hidden_units (DanGuesser.params g);
  trained_index :
    QuestionData.use_contrastive_examples td = true ->
    (exists td0, QuestionData.refresh_index td0 = inr td) /\
    is_Some (QuestionData.questions td) /\ is_Some (QuestionData.answers td)
}.

(** [save()] on a guesser, then [load()] on a fresh instance with the same
    configuration, then a prediction. *)
Definition predict_after_reload (rng : DanModel.Init) (g : DanGuesser.t)
    (fs : gmap string DanGuesser.File) (question : string) (n_guesses : Z)
    : Py.t (list (gmap string string)) :=
  fs ← DanGuesser.save g fs;
  fresh ← DanGuesser.load rng
             (DanGuesser.__init__ (DanGuesser.word_tokenize g) (DanGuesser.params g)) fs;
  DanGuesser.__call__ fresh question n_guesses.

(** What [DanModel.__init__] returns when it returns: [out] is the width of
    the second layer and [num_answers] the recorded class count. *)
Definition constructed (rng : DanModel.Init) (model_filename : string) (criterion : Criterion)
    (vocab_size : nat) (num_answers : Z) (emb_dim n_hidden_units out : nat) (nn_dropout : Q)
    : DanModel.t :=
  {| DanModel.model_filename := model_filename;
     DanModel.vocab_size := vocab_size;
     DanModel.emb_dim := emb_dim;
     DanModel.n_hidden_units := n_hidden_units;
     DanModel.nn_dropout := nn_dropout;
     DanModel.criterion := criterion;
     DanModel.num_answers := num_answers;
     DanModel.embeddings :=
       {| Embedding.num_embeddings := vocab_size; Embedding.embedding_dim := emb_dim;
          Embedding.padding_idx := Some 0%nat;
          Embedding.weight :=
            map (fun i => if bool_decide (Some 0%nat = Some i) then Tensor.zeros emb_dim
                          else map (DanModel.emb_init rng i) (seq 0 emb_dim))
                (seq 0 vocab_size) |};
     DanModel.linear1 :=
       Linear.new (DanModel.w1_init rng) (DanModel.b1_init rng) emb_dim n_hidden_units;
     DanModel.linear2 :=
       Linear.new (DanModel.w2_init rng) (DanModel.b2_init rng) n_hidden_units out;
     DanModel.training := true |}.

(** The width of the second layer and the recorded class count, by criterion. *)
Definition second_layer (criterion : Criterion) (n_answers : Z) (n_hidden_units : nat)
    : option (nat * Z) :=
  match criterion with
  | MarginRankingLoss _ => Some (n_hidden_units, -1)
  | CrossEntropyLoss => Some (Z.to_nat n_answers, n_answers)
  | OtherLoss _ => None
  end.

(** ** Batches of vectorized examples *)

(** A contrastive tensor as [vectorize] returns it: absent, or a single row
    of ids. *)
Definition one_row (t : option (list (list Z))) : Prop :=
  match t with
  | Some rows => length rows = 1%nat
  | None => True
  end.

(** The ids of such a tensor, none when it is absent. *)
Definition row_of (t : option (list (list Z))) : list Z :=
  match t with
  | Some (r :: _) => r
  | _ => []
  end.

(** The number of tokens of the longest question of a batch. *)
Definition longest_question (batch : list Example.t) : nat :=
  fold_right Nat.max 0%nat (map (fun ex => length (Example.tokens ex)) batch).

(** ** The stored data set *)

(** The answer list that [set_data] works with: the list passed as
    [fix_answers], or the one it selects from the label counts. *)
Definition answer_list (self : QuestionData.t) (questions : list (gmap string string))
    (answer_field : string) (fix_answers : option (list string)) : list string :=
  match fix_answers with
  | None => QuestionData.select_answers self
              (Counter.of_list (QuestionData.labelled answer_field questions))
  | Some fixed => fixed
  end.

(** ** The stored representations *)

(** One step of the copy loop of [set_representation]: row [p.1] of the
    batch is written to row [p.2] of the store. *)
Definition write_row (representations store : list Tensor.vec) (p : nat * nat)
    : list Tensor.vec :=
  match representations !! fst p with
  | Some r => <[snd p := r]> store
  | None => store
  end.

(** [self'] is [self] with other stored representations. *)
Definition same_but_representations (self self' : QuestionData.t) : Prop :=
  self' = QuestionData.set_representations self (QuestionData.representations self').

(** ** Nearest neighbours *)

(** The squared distance from a query to the stored row at position [i] of
    an index (0 where there is no such row). *)
Definition distance_to (ix : IndexFlatL2.t) (q : Tensor.vec) (i : Z) : Q :=
  match nth_error (IndexFlatL2.xb ix) (Z.to_nat i) with
  | Some r => IndexFlatL2.l2sqr q r
  | None => 0%Q
  end.

(** Position [i] holds a stored row that is at least as close to [q] as every
    stored row. *)
Definition nearest_row (ix : IndexFlatL2.t) (q : Tensor.vec) (i : nat) : Prop :=
  exists r,
    IndexFlatL2.xb ix !! i = Some r /\
    forall j r', IndexFlatL2.xb ix !! j = Some r' ->
                 (IndexFlatL2.l2sqr q r <= IndexFlatL2.l2sqr q r')%Q.

(** ** The shape of a model *)

(** The layers of [m] fit together: the parameter tensors have the shapes of
    their layers, the table has one row per id and the width that the first
    layer reads, and the second layer reads what the first one writes. *)
Definition well_shaped (m : DanModel.t) : Prop :=
  shapes_ok m /\
  Embedding.num_embeddings (DanModel.embeddings m) = DanModel.vocab_size m /\
  Embedding.embedding_dim (DanModel.embeddings m) = DanModel.emb_dim m /\
  Linear.in_features (DanModel.linear1 m) = DanModel.emb_dim m /\
  Linear.in_features (DanModel.linear2 m) = Linear.out_features (DanModel.linear1 m).

(** The criteria for which [DanModel.__init__] creates a second layer. *)
Definition supported (criterion : Criterion) : Prop :=
  (exists margin, criterion = MarginRankingLoss margin) \/ criterion = CrossEntropyLoss.

(** ** Guesses *)

(** The labels that a guess is drawn from: the stored answers in ranking
    mode, the answer list in classification mode. *)
Definition guess_pool (td : QuestionData.t) : list string :=
  default [] (if QuestionData.use_contrastive_examples td
              then QuestionData.answers td
              else QuestionData.answer_indices td).

(** A guess as [__call__] reports it: the unknown-answer label is blanked. *)
Definition reported (guess : string) : string :=
  if String.eqb guess DanGuesser.kUNK then "" else guess.

(** ** Batches of a loader *)

(** A batch as the collate functions assemble it: one true length and one
    answer per row of the question matrix. *)
Definition coherent (b : Batch) : Prop :=
  length (question_len b) = length (question_text b) /\
  length (batch_answers b) = length (question_text b).

(** ** The set-up of a training session *)

(** The statements of [train_dan] that come before the samplers and the
    epoch loop: the two data sets, the vocabulary, the stored questions, the
    two checks, the model and the zero representations.  [build_vocab]
    returns the vocabulary that it has stored. *)
Definition train_dan_setup (rng : DanModel.Init) (self : DanGuesser.t)
    (raw_train raw_eval : list (gmap string string)) : Py.t DanGuesser.t :=
  let params := DanGuesser.params self in
  let training_data := QuestionData.__init__ (DanGuesser.word_tokenize self) params in
  let eval_data := QuestionData.__init__ (DanGuesser.word_tokenize self) params in
  training_data ← QuestionData.build_vocab training_data raw_train;
  vocab ← QuestionData.attr "vocab" (QuestionData.vocab training_data);
  let eval_data := QuestionData.set_vocab eval_data vocab in
  training_data ← QuestionData.set_data training_data raw_train "page" None;
  eval_data ← QuestionData.set_data eval_data raw_eval "page"
                (QuestionData.answer_indices training_data);
  num_answers ← QuestionData.number_answers training_data;
  _ ← Py.assert (num_answers <=? dan_guesser_max_classes params) "";
  _ ← Py.assert (Z.of_nat (Vocab.len vocab) <=? dan_guesser_vocab_size params) "";
  dan_model ← initialize_model rng params num_answers (Vocab.len vocab);
  training_data ← QuestionData.initialize_lookup_representation training_data;
  Py.ret {| DanGuesser.params := params;
            DanGuesser.word_tokenize := DanGuesser.word_tokenize self;
            DanGuesser.training_data := Some training_data;
            DanGuesser.eval_data := Some eval_data;
            DanGuesser.filename := DanGuesser.filename self;
            DanGuesser.dan_model := Some dan_model |}.

(** * Part III: sample data *)

(** ** Questions and configuration *)

Module Sample.

(** A whitespace tokenizer standing in for nltk's [word_tokenize]. *)
Fixpoint split_words (acc : string) (s : string) : list string :=
  match s with
  | EmptyString => if String.eqb acc "" then [] else [acc]
  | String c s' =>
      if Ascii.eqb c " "%char
      then (if String.eqb acc "" then split_words "" s' else acc :: split_words "" s')
      else split_words (acc ++ String c EmptyString)%string s'
  end.

Definition word_tokenize (s : string) : list string := split_words "" s.

Definition parameters (criterion : string) : Parameters :=
  {| dan_guesser_filename := "dan";
     dan_guesser_vocab_size := 100;
     dan_guesser_max_classes := 2;
     dan_guesser_ans_min_freq := 1;
     dan_guesser_neg_samp := 0;
     dan_guesser_criterion := criterion;
     dan_guesser_embed_dim := 2;
     dan_guesser_hidden_units := 2;
     dan_guesser_nn_dropout := 1 # 2;
     dan_guesser_initialization := "" |}.

Definition question (text page : string) : gmap string string :=
  {[ "text" := text; "page" := page ]}.

Definition train_questions : list (gmap string string) :=
  [ question "capital of england" "London";
    question "city of light" "Paris";
    question "home of big ben" "London";
    question "capital of france" "Paris";
    question "eternal city" "Rome" ].

Definition eval_questions : list (gmap string string) :=
  [ question "city on the thames" "London";
    question "capital of germany" "Berlin";
    question "city on the seine" "Paris" ].

Definition data (criterion : string) : QuestionData.t :=
  QuestionData.__init__ word_tokenize (parameters criterion).

End Sample.

(** ** A tiny model and a ranking session *)

Module Scenario.

Definition table (rows : list (list Z)) (i j : nat) : Q :=
  inject_Z (nth j (nth i rows []) 0).

(** Draws for a model with 4 ids, width 2 and 2 hidden units. *)
Definition rng : DanModel.Init :=
  {| DanModel.emb_init := table [[5; 5]; [1; 2]; [3; 4]; [-1; 1]];
     DanModel.w1_init := table [[1; 0]; [0; 1]];
     DanModel.b1_init := fun _ => 0%Q;
     DanModel.w2_init := table [[1; 1]; [0; 1]];
     DanModel.b2_init := fun _ => 0%Q |}.

(** [DanModel(..., CrossEntropyLoss(), vocab_size=4, n_answers=2, emb_dim=2,
    n_hidden_units=2)], spelled out. *)
Definition classifier : DanModel.t :=
  {| DanModel.model_filename := "dan";
     DanModel.vocab_size := 4;
     DanModel.emb_dim := 2;
     DanModel.n_hidden_units := 2;
     DanModel.nn_dropout := 1 # 2;
     DanModel.criterion := CrossEntropyLoss;
     DanModel.num_answers := 2;
     DanModel.embeddings :=
       {| Embedding.num_embeddings := 4; Embedding.embedding_dim := 2;
          Embedding.padding_idx := Some 0%nat;
          Embedding.weight := [[0; 0]; [1; 2]; [3; 4]; [-1; 1]]%Q |};
     DanModel.linear1 :=
       {| Linear.in_features := 2; Linear.out_features := 2;
          Linear.weight := [[1; 0]; [0; 1]]%Q; Linear.bias := [0; 0]%Q |};
     DanModel.linear2 :=
       {| Linear.in_features := 2; Linear.out_features := 2;
          Linear.weight := [[1; 1]; [0; 1]]%Q; Linear.bias := [0; 0]%Q |};
     DanModel.training := true |}.

(** The same network with the ranking criterion. *)
Definition ranker : DanModel.t :=
  {| DanModel.model_filename := "dan";
     DanModel.vocab_size := 4;
     DanModel.emb_dim := 2;
     DanModel.n_hidden_units := 2;
     DanModel.nn_dropout := 1 # 2;
     DanModel.criterion := MarginRankingLoss 0;
     DanModel.num_answers := -1;
     DanModel.embeddings := DanModel.embeddings classifier;
     DanModel.linear1 := DanModel.linear1 classifier;
     DanModel.linear2 := DanModel.linear2 classifier;
     DanModel.training := true |}.

(** An example as [QuestionData.__getitem__] builds it in ranking mode: a
    two-token question, a three-token positive and a one-token negative. *)
Definition longer_positive : Example.t :=
  {| Example.tokens := [5; 6];
     Example.answer := "London";
     Example.positive := Some [[7; 8; 9]];
     Example.negative := Some [[1]] |}.

(** The ranking data set of the sample questions, and its first example with
    the first positive and the first negative candidate drawn. *)
Definition ranking_data : Py.t QuestionData.t :=
  data ← QuestionData.build_vocab (Sample.data "MarginRankingLoss") Sample.train_questions;
  QuestionData.set_data data Sample.train_questions "page" None.

Definition first_example : Py.t Example.t :=
  data ← ranking_data;
  QuestionData.__getitem__ data 0 0 0.

End Scenario.

(** ** A ranking step on the tiny model *)

Module Step.

(** A stand-in for [torch.pairwise_distance]: the row-wise sum of absolute
    differences, which is the Euclidean distance of two rows that differ in
    one coordinate. *)
Definition l1_distance (a b : Tensor.mat) : list Q :=
  zip_with (fun u v => fold_right Qplus 0%Q (map Qabs (Tensor.vsub u v))) a b.

Definition numeric : Numeric :=
  {| pairwise_distance := l1_distance; cross_entropy := fun _ _ => 0%Q |}.

(** A dropout draw for a two-row batch that keeps the first hidden unit and
    drops the second, so that the representations differ in their first
    coordinate only. *)
Definition keep : list (list bool) := [[true; false]; [true; false]].

(** Two questions; the positive of the first differs from it, every other
    positive and negative equals its question. *)
Definition loss : Py.t Q :=
  DanGuesser.batch_step numeric Scenario.ranker keep keep keep
    [[1]; [2]] [1; 1] (Some [[2]; [2]]) (Some [1; 1]) (Some [[1]; [2]]) (Some [1; 1])
    ["London"; "Paris"] ["London"; "Paris"].

(** The positive and the negative distances of the rows of that step. *)
Definition distances : Py.t (list Q * list Q) :=
  anchor_rep ← DanModel.forward Scenario.ranker keep [[1]; [2]] [1; 1];
  positive_rep ← DanModel.forward Scenario.ranker keep [[2]; [2]] [1; 1];
  negative_rep ← DanModel.forward Scenario.ranker keep [[1]; [2]] [1; 1];
  Py.ret (pairwise_distance numeric anchor_rep positive_rep,
          pairwise_distance numeric anchor_rep negative_rep).

(** The same questions with every positive and negative equal to its question. *)
Definition loss_equal_distances : Py.t Q :=
  DanGuesser.batch_step numeric Scenario.ranker keep keep keep
    [[1]; [2]] [1; 1] (Some [[1]; [2]]) (Some [1; 1]) (Some [[1]; [2]]) (Some [1; 1])
    ["London"; "Paris"] ["London"; "Paris"].

End Step.

(** ** Two trained sessions on the tiny model *)

Module Session.

Definition vocab : Vocab.t :=
  {| Vocab.itos := ["<unk>"; "of"; "capital"; "city"]; Vocab.default_index := Some 0%nat |}.

(** The training data of a ranking session, two stored questions, before and
    after the final [refresh_index]. *)
Definition store_before_refresh : QuestionData.t :=
  {| QuestionData.vocab_size := 100;
     QuestionData.answer_max_count := 2;
     QuestionData.answer_min_freq := 1;
     QuestionData.neg_samples := 0;
     QuestionData.use_contrastive_examples := true;
     QuestionData.tokenizer := Sample.word_tokenize;
     QuestionData.dimension := 2;
     QuestionData.representations := Some [[6; 4]; [14; 8]]%Q;
     QuestionData.vocab := Some vocab;
     QuestionData.lookup := None;
     QuestionData.answer_indices := Some ["London"; "Paris"];
     QuestionData.questions := Some ["capital of england"; "city of light"];
     QuestionData.answers := Some ["London"; "Paris"];
     QuestionData.positive := Some [[]; []];
     QuestionData.negative := Some [["city of light"]; ["capital of england"]] |}.

Definition store : QuestionData.t :=
  QuestionData.set_lookup store_before_refresh
    (Some {| IndexFlatL2.d := 2; IndexFlatL2.xb := [[6; 4]; [14; 8]]%Q |}).

Definition ranking_guesser : DanGuesser.t :=
  {| DanGuesser.params := Sample.parameters "MarginRankingLoss";
     DanGuesser.word_tokenize := Sample.word_tokenize;
     DanGuesser.training_data := Some store;
     DanGuesser.eval_data := None;
     DanGuesser.filename := "dan";
     DanGuesser.dan_model := Some Scenario.ranker |}.

(** The training data of a classification session. *)
Definition labels : QuestionData.t :=
  {| QuestionData.vocab_size := 100;
     QuestionData.answer_max_count := 2;
     QuestionData.answer_min_freq := 1;
     QuestionData.neg_samples := 0;
     QuestionData.use_contrastive_examples := false;
     QuestionData.tokenizer := Sample.word_tokenize;
     QuestionData.dimension := 2;
     QuestionData.representations := Some [[0; 0]; [0; 0]]%Q;
     QuestionData.vocab := Some vocab;
     QuestionData.lookup := None;
     QuestionData.answer_indices := Some ["London"; "Paris"];
     QuestionData.questions := Some ["capital of england"; "city of light"];
     QuestionData.answers := Some ["London"; "Paris"];
     QuestionData.positive := None;
     QuestionData.negative := None |}.

Definition classification_guesser : DanGuesser.t :=
  {| DanGuesser.params := Sample.parameters "CrossEntropyLoss";
     DanGuesser.word_tokenize := Sample.word_tokenize;
     DanGuesser.training_data := Some labels;
     DanGuesser.eval_data := None;
     DanGuesser.filename := "dan";
     DanGuesser.dan_model := Some Scenario.classifier |}.

(** An evaluation batch of two questions, the second one padded. *)
Definition dev_batch : Batch :=
  {| question_text := [[1; 2]; [3; 0]]; question_len := [2; 1];
     batch_answers := ["London"; "Paris"]; ex_indices := [0; 1]%nat;
     pos_text := None; pos_len := None; neg_text := None; neg_len := None |}.

End Session.

(** ** Batches for the collate functions *)

Module Collate.

(** Two classification examples. *)
Definition plain : list Example.t :=
  [ {| Example.tokens := [2; 1; 4]; Example.answer := "London";
       Example.positive := None; Example.negative := None |};
    {| Example.tokens := [3; 1]; Example.answer := "Paris";
       Example.positive := None; Example.negative := None |} ].

(** Two ranking examples whose positives and negatives are no longer than
    the longest question. *)
Definition ranking : list Example.t :=
  [ {| Example.tokens := [2; 1; 4]; Example.answer := "London";
       Example.positive := Some [[6; 1]]; Example.negative := Some [[3; 1; 5]] |};
    {| Example.tokens := [3; 1]; Example.answer := "Paris";
       Example.positive := Some [[3]]; Example.negative := Some [[2; 1; 4]] |} ].

(** A classification example whose question has no token. *)
Definition empty_question : Example.t :=
  {| Example.tokens := []; Example.answer := "Rome";
     Example.positive := None; Example.negative := None |}.

End Collate.

(** ** A ranking data set *)

Module Contrast.

(** The vocabulary of the sample training questions. *)
Definition vocab : Vocab.t :=
  {| Vocab.itos := ["<unk>"; "of"; "capital"; "city"; "england"; "light";
                    "home"; "big"; "ben"; "france"; "eternal"];
     Vocab.default_index := Some 0%nat |}.

(** A data set in ranking mode that holds this vocabulary. *)
Definition data : QuestionData.t :=
  QuestionData.set_vocab (Sample.data "MarginRankingLoss") vocab.

End Contrast.

(** ** Guessers about to be trained *)

Module Setup.

(** A fresh classification guesser with the sample configuration. *)
Definition guesser : DanGuesser.t :=
  DanGuesser.__init__ Sample.word_tokenize (Sample.parameters "CrossEntropyLoss").

(** The sample configuration with no bound on the vocabulary. *)
Definition unbounded : Parameters :=
  {| dan_guesser_filename := "dan";
     dan_guesser_vocab_size := -1;
     dan_guesser_max_classes := 2;
     dan_guesser_ans_min_freq := 1;
     dan_guesser_neg_samp := 0;
     dan_guesser_criterion := "CrossEntropyLoss";
     dan_guesser_embed_dim := 2;
     dan_guesser_hidden_units := 2;
     dan_guesser_nn_dropout := 1 # 2;
     dan_guesser_initialization := "" |}.

End Setup.

(** * Part IV: properties *)

(** ** The exception monad *)

Lemma bind_inr {A B} (m : Py.t A) (k : A -> Py.t B) (b : B) :
  (m ≫= k) = inr b -> exists a, m = inr a /\ k a = inr b.
Proof.
  destruct m as [e | a]; cbn; intros H; [discriminate | eauto].
Qed.

Lemma bind_inr_l {A B} (a : A) (k : A -> Py.t B) : ((inr a : Py.t A) ≫= k) = k a.
Proof. reflexivity. Qed.

Lemma bind_ret_l {A B} (a : A) (k : A -> Py.t B) : (Py.ret a ≫= k) = k a.
Proof. reflexivity. Qed.

Lemma assert_true_bind {B} (msg : string) (k : unit -> Py.t B) :
  (Py.assert true msg ≫= k) = k tt.
Proof. reflexivity. Qed.

Lemma mapM_inr_length {A B} (f : A -> Py.t B) (xs : list A) (ys : list B) :
  Py.mapM f xs = inr ys -> length ys = length xs.
Proof.
  revert ys; induction xs as [| x xs IH]; intros ys; cbn.
  - intros [= <-]; reflexivity.
  - destruct (f x) as [e | y]; cbn; [discriminate |].
    destruct (Py.mapM f xs) as [e | ys']; cbn; [discriminate |].
    intros [= <-]; cbn; f_equal; eauto.
Qed.

Lemma mapM_ext_in {A B} (f g : A -> Py.t B) (xs : list A) :
  (forall x, In x xs -> f x = g x) -> Py.mapM f xs = Py.mapM g xs.
Proof.
  induction xs as [| x xs IH]; intros H; cbn; [reflexivity |].
  rewrite (H x) by (left; reflexivity).
  rewrite IH by (intros; apply H; right; assumption).
  reflexivity.
Qed.

(** ** [sorted] *)

Section Sorted.
Context {A : Type} (le : A -> A -> bool).

Lemma insert_sorted_perm (x : A) (l : list A) :
  Permutation (insert_sorted le x l) (x :: l).
Proof.
  induction l as [| y l IH]; cbn; [reflexivity |].
  destruct (le x y); [reflexivity |].
  rewrite IH. apply perm_swap.
Qed.

Lemma sorted_perm (l : list A) : Permutation (sorted le l) l.
Proof.
  induction l as [| x l IH]; cbn; [reflexivity |].
  rewrite insert_sorted_perm. constructor. exact IH.
Qed.

Hypothesis le_total : forall a b, le a b = true \/ le b a = true.
Hypothesis le_trans : forall a b c, le a b = true -> le b c = true -> le a c = true.

Lemma insert_sorted_StronglySorted (x : A) (l : list A) :
  StronglySorted (fun a b => le a b = true) l ->
  StronglySorted (fun a b => le a b = true) (insert_sorted le x l).
Proof.
  induction 1 as [| y l Hl IH Hy]; cbn.
  - repeat constructor.
  - destruct (le x y) eqn:Hxy.
    + constructor; [constructor; assumption |].
      constructor; [assumption |].
      eapply Forall_impl; [exact Hy |]. intros z Hz; cbn in Hz. eauto.
    + constructor; [exact IH |].
      eapply Permutation_Forall; [symmetry; apply insert_sorted_perm |].
      constructor; [| exact Hy].
      destruct (le_total x y) as [H | H]; [congruence | exact H].
Qed.

Lemma sorted_StronglySorted (l : list A) :
  StronglySorted (fun a b => le a b = true) (sorted le l).
Proof.
  induction l as [| x l IH]; cbn; [constructor |].
  apply insert_sorted_StronglySorted, IH.
Qed.

End Sorted.

(** ** [Counter] *)

Lemma counter_add_keys_in (x : string) (c : Counter.t) :
  In x (map fst c) -> map fst (Counter.add x c) = map fst c.
Proof.
  induction c as [| [y n] c IH]; cbn; [tauto |].
  intros H. destruct (String.eqb_spec y x) as [-> | Hne]; cbn; [reflexivity |].
  f_equal. apply IH. destruct H; [congruence | assumption].
Qed.

Lemma counter_add_keys_notin (x : string) (c : Counter.t) :
  ~ In x (map fst c) -> map fst (Counter.add x c) = (map fst c ++ [x])%list.
Proof.
  induction c as [| [y n] c IH]; cbn; [reflexivity |].
  intros H. destruct (String.eqb_spec y x) as [-> | Hne]; cbn; [tauto |].
  f_equal. apply IH. tauto.
Qed.

Lemma counter_add_NoDup (x : string) (c : Counter.t) :
  NoDup (map fst c) -> NoDup (map fst (Counter.add x c)).
Proof.
  intros H. destruct (in_dec string_dec x (map fst c)) as [Hin | Hout].
  - rewrite counter_add_keys_in; assumption.
  - rewrite counter_add_keys_notin by assumption.
    apply NoDup_app; repeat split; [assumption | | apply NoDup_singleton].
    intros y Hy Hx. apply list_elem_of_In in Hx, Hy.
    cbn in Hx. destruct Hx as [<- | []]. tauto.
Qed.

Lemma counter_add_In (x : string) (c : Counter.t) (a : string) (n : Z) :
  NoDup (map fst c) ->
  In (a, n) (Counter.add x c) ->
  (a <> x /\ In (a, n) c) \/
  (a = x /\ ((exists m, In (x, m) c /\ n = m + 1) \/ (~ In x (map fst c) /\ n = 1))).
Proof.
  induction c as [| [y k] c IH]; cbn; intros Hnd Hin.
  - destruct Hin as [[= <- <-] | []]. right; split; [reflexivity | right; tauto].
  - apply NoDup_cons in Hnd as [Hy Hnd].
    rewrite list_elem_of_In in Hy.
    destruct (String.eqb_spec y x) as [-> | Hne]; cbn in Hin.
    + destruct Hin as [[= <- <-] | Hin].
      * right; split; [reflexivity | left; exists k; tauto].
      * left; split; [| tauto]. intros ->.
        apply Hy. change x with (fst (x, n)). apply in_map, Hin.
    + destruct Hin as [[= <- <-] | Hin]; [left; split; [assumption | tauto] |].
      destruct (IH Hnd Hin) as [[H1 H2] | [-> [[m [H1 H2]] | [H1 H2]]]].
      * left; tauto.
      * right; split; [reflexivity | left; exists m; tauto].
      * right; split; [reflexivity | right; split; [| assumption]].
        intros [H | H]; [congruence | tauto].
Qed.

Lemma count_occ_snoc (ys : list string) (x a : string) :
  count_occ string_dec (ys ++ [x]) a =
  (count_occ string_dec ys a + if string_dec x a then 1 else 0)%nat.
Proof. rewrite count_occ_app; cbn. destruct (string_dec x a); reflexivity. Qed.

Lemma counter_add_counts (x : string) (c : Counter.t) (ys : list string) :
  counts_of c ys -> counts_of (Counter.add x c) (ys ++ [x]).
Proof.
  intros (Hnd & Hkeys & Hcnt). split; [| split].
  - apply counter_add_NoDup, Hnd.
  - intros a Ha. apply in_app_or in Ha.
    destruct (in_dec string_dec x (map fst c)) as [Hin | Hout].
    + rewrite counter_add_keys_in by assumption.
      destruct Ha as [Ha | [<- | []]]; auto.
    + rewrite counter_add_keys_notin by assumption. apply in_or_app.
      destruct Ha as [Ha | [<- | []]]; [left; auto | right; left; reflexivity].
  - intros a n Hin. rewrite count_occ_snoc.
    destruct (counter_add_In _ _ _ _ Hnd Hin) as [[H1 H2] | [-> [[m [H1 H2]] | [H1 H2]]]].
    + destruct (Hcnt _ _ H2) as [-> Hpos].
      destruct (string_dec x a); [congruence |]. split; [f_equal; lia | lia].
    + destruct (Hcnt _ _ H1) as [-> Hpos].
      destruct (string_dec x x); [| congruence]. split; lia.
    + destruct (string_dec x x); [| congruence].
      assert (count_occ string_dec ys x = 0%nat) as ->.
      { apply count_occ_not_In. intros Hx. apply H1, Hkeys, Hx. }
      split; lia.
Qed.

Lemma counter_fold_counts (xs : list string) (c : Counter.t) (ys : list string) :
  counts_of c ys ->
  counts_of (fold_left (fun c x => Counter.add x c) xs c) (ys ++ xs).
Proof.
  revert c ys; induction xs as [| x xs IH]; intros c ys H; cbn.
  - rewrite app_nil_r. exact H.
  - replace (ys ++ x :: xs)%list with ((ys ++ [x]) ++ xs)%list
      by (rewrite <- app_assoc; reflexivity).
    apply IH, counter_add_counts, H.
Qed.

Lemma counter_of_list_counts (xs : list string) : counts_of (Counter.of_list xs) xs.
Proof.
  apply (counter_fold_counts xs [] []).
  split; [constructor | split]; cbn; [tauto | tauto].
Qed.

(** ** Lexical order of labels *)

Lemma string_compare_lt_trans (a b c : string) :
  String.compare a b = Lt -> String.compare b c = Lt -> String.compare a c = Lt.
Proof.
  revert b c; induction a as [| x a IH]; intros [| y b] [| z c]; cbn; try congruence.
  destruct (Ascii.compare x y) eqn:Hxy; destruct (Ascii.compare y z) eqn:Hyz;
    try discriminate.
  - apply Ascii.compare_eq_iff in Hxy as ->. rewrite Hyz. apply IH.
  - apply Ascii.compare_eq_iff in Hxy as ->. rewrite Hyz. reflexivity.
  - apply Ascii.compare_eq_iff in Hyz as <-. rewrite Hxy. reflexivity.
  - intros _ _. unfold Ascii.compare in *.
    rewrite N.compare_lt_iff in Hxy, Hyz.
    assert (N.compare (N_of_ascii x) (N_of_ascii z) = Lt) as ->
      by (apply N.compare_lt_iff; lia).
    reflexivity.
Qed.

Lemma string_leb_trans (a b c : string) :
  String.leb a b = true -> String.leb b c = true -> String.leb a c = true.
Proof.
  unfold String.leb.
  destruct (String.compare a b) eqn:Hab; [| | discriminate];
    destruct (String.compare b c) eqn:Hbc; try discriminate; intros _ _.
  - apply String.compare_eq_iff in Hab as ->. rewrite Hbc. reflexivity.
  - apply String.compare_eq_iff in Hab as ->. rewrite Hbc. reflexivity.
  - apply String.compare_eq_iff in Hbc as <-. rewrite Hab. reflexivity.
  - rewrite (string_compare_lt_trans a b c Hab Hbc). reflexivity.
Qed.

Lemma string_leb_ltb (a b : string) :
  String.leb a b = true -> a <> b -> String.ltb a b = true.
Proof.
  unfold String.leb, String.ltb.
  destruct (String.compare a b) eqn:Hab; try congruence.
  apply String.compare_eq_iff in Hab. congruence.
Qed.

(** ** Lists of keyed pairs *)

Section Keys.
Context {A B : Type} (f : A -> B).

Lemma in_firstn (n : nat) (l : list A) (x : A) : In x (firstn n l) -> In x l.
Proof.
  intros H. rewrite <- (firstn_skipn n l). apply in_or_app. left. exact H.
Qed.

Lemma in_map_firstn (n : nat) (l : list A) (y : B) :
  In y (map f (firstn n l)) -> In y (map f l).
Proof.
  intros H. apply in_map_iff in H as (x & <- & Hx).
  apply in_map. eapply in_firstn. exact Hx.
Qed.

Lemma NoDup_map_firstn (n : nat) (l : list A) :
  NoDup (map f l) -> NoDup (map f (firstn n l)).
Proof.
  revert n; induction l as [| x l IH]; intros [| n] H; cbn; try constructor.
  - cbn in H. apply NoDup_cons in H as [Hx H].
    rewrite list_elem_of_In in *. intros Hin. apply Hx.
    eapply in_map_firstn. exact Hin.
  - apply IH. cbn in H. apply NoDup_cons in H. tauto.
Qed.

Lemma NoDup_map_filter (p : A -> bool) (l : list A) :
  NoDup (map f l) -> NoDup (map f (List.filter p l)).
Proof.
  induction l as [| x l IH]; cbn; intros H; [constructor |].
  apply NoDup_cons in H as [Hx H].
  destruct (p x); cbn; [| auto].
  constructor; [| auto].
  rewrite list_elem_of_In in *. intros Hin. apply Hx.
  apply in_map_iff in Hin as (z & <- & Hz). apply in_map.
  apply filter_In in Hz. tauto.
Qed.

Lemma filter_length_le (p : A -> bool) (l : list A) :
  (length (List.filter p l) <= length l)%nat.
Proof. induction l as [| x l IH]; cbn; [lia |]. destruct (p x); cbn; lia. Qed.

End Keys.

(** ** The answer index ([QuestionData.set_data]) *)

Lemma answer_key_le_total (a b : string * Z) :
  answer_key_le a b = true \/ answer_key_le b a = true.
Proof.
  unfold answer_key_le.
  destruct (String.leb_total (fst a) (fst b)) as [H | H]; rewrite H;
    destruct (Z.ltb_spec (- snd a) (- snd b)), (Z.ltb_spec (- snd b) (- snd a)),
      (Z.eqb_spec (- snd a) (- snd b)), (Z.eqb_spec (- snd b) (- snd a));
    cbn; auto; lia.
Qed.

Lemma answer_key_le_trans (a b c : string * Z) :
  answer_key_le a b = true -> answer_key_le b c = true -> answer_key_le a c = true.
Proof.
  unfold answer_key_le. intros Hab Hbc.
  apply orb_true_iff in Hab, Hbc. apply orb_true_iff.
  rewrite !andb_true_iff, !Z.ltb_lt, !Z.eqb_eq in *.
  destruct Hab as [Hab | [Hab Lab]], Hbc as [Hbc | [Hbc Lbc]]; try (left; lia).
  right; split; [lia | eapply string_leb_trans; eassumption].
Qed.

Lemma select_answers_sorted_eq (self : QuestionData.t) (c : Counter.t) :
  QuestionData.select_answers self c =
  map fst (sorted answer_key_le
             (List.filter (fun p => QuestionData.answer_min_freq self <=? snd p)
                          (Counter.most_common (QuestionData.answer_max_count self) c))).
Proof. reflexivity. Qed.

Lemma keyed_order (freq : string -> Z) (l : list (string * Z)) :
  StronglySorted (fun a b => answer_key_le a b = true) l ->
  NoDup (map fst l) ->
  (forall p, In p l -> snd p = freq (fst p)) ->
  StronglySorted (answer_order freq) (map fst l).
Proof.
  induction 1 as [| p l Hl IH Hp]; cbn; intros Hnd Hfreq; [constructor |].
  apply NoDup_cons in Hnd as [Hfresh Hnd].
  constructor; [apply IH; auto |].
  apply Forall_forall. intros b Hb.
  apply list_elem_of_In, in_map_iff in Hb as (q & <- & Hq).
  rewrite Forall_forall in Hp. specialize (Hp q (proj2 (list_elem_of_In _ _) Hq)).
  cbn in Hp. unfold answer_key_le in Hp. unfold answer_order.
  rewrite <- (Hfreq p) by (left; reflexivity).
  rewrite <- (Hfreq q) by (right; exact Hq).
  apply orb_true_iff in Hp as [Hp | Hp].
  - left. apply Z.ltb_lt in Hp. lia.
  - apply andb_true_iff in Hp as [Hp Hle]. apply Z.eqb_eq in Hp.
    right; split; [lia |].
    apply string_leb_ltb; [exact Hle |].
    intros Heq. apply Hfresh. apply list_elem_of_In. rewrite Heq.
    apply in_map, Hq.
Qed.

Section AnswerIndex.
Variable self : QuestionData.t.
Variable answer_field : string.
Variable questions : list (gmap string string).

Let counts : Counter.t := Counter.of_list (QuestionData.labelled answer_field questions).
Let chosen : list (string * Z) :=
  sorted answer_key_le
    (List.filter (fun p => QuestionData.answer_min_freq self <=? snd p)
                 (Counter.most_common (QuestionData.answer_max_count self) counts)).

Lemma chosen_entry (p : string * Z) :
  In p chosen ->
  In p counts /\ QuestionData.answer_min_freq self <= snd p.
Proof.
  unfold chosen. intros H.
  apply (Permutation_in _ (sorted_perm answer_key_le _)) in H.
  apply filter_In in H as [H Hmin]. apply Z.leb_le in Hmin.
  split; [| exact Hmin].
  unfold Counter.most_common in H. apply in_firstn in H.
  apply (Permutation_in _ (sorted_perm _ _)) in H. exact H.
Qed.

Lemma chosen_frequency (p : string * Z) :
  In p chosen -> snd p = frequency answer_field questions (fst p).
Proof.
  intros H. apply chosen_entry in H as [H _].
  destruct (counter_of_list_counts (QuestionData.labelled answer_field questions))
    as (_ & _ & Hcnt).
  destruct p as [a n]. apply Hcnt in H as [-> _]. reflexivity.
Qed.

Lemma chosen_NoDup : NoDup (map fst chosen).
Proof.
  unfold chosen.
  rewrite (Permutation_map fst (sorted_perm answer_key_le _)).
  apply NoDup_map_filter. unfold Counter.most_common. apply NoDup_map_firstn.
  rewrite (Permutation_map fst (sorted_perm _ _)).
  apply (counter_of_list_counts (QuestionData.labelled answer_field questions)).
Qed.

Lemma chosen_length :
  Z.of_nat (length chosen) <= Z.max 0 (QuestionData.answer_max_count self).
Proof.
  unfold chosen. rewrite (Permutation_length (sorted_perm _ _)).
  pose proof (filter_length_le (fun p : string * Z => QuestionData.answer_min_freq self <=? snd p)
                (Counter.most_common (QuestionData.answer_max_count self) counts)) as H1.
  pose proof (firstn_le_length (Z.to_nat (QuestionData.answer_max_count self))
                (sorted (fun a b : string * Z => snd b <=? snd a) counts)) as H2.
  unfold Counter.most_common in *. lia.
Qed.

Lemma select_answers_spec :
  let idx := QuestionData.select_answers self counts in
  NoDup idx /\
  (forall a, In a idx ->
     QuestionData.answer_min_freq self <= frequency answer_field questions a) /\
  Z.of_nat (length idx) <= Z.max 0 (QuestionData.answer_max_count self) /\
  StronglySorted (answer_order (frequency answer_field questions)) idx.
Proof.
  cbn zeta. rewrite select_answers_sorted_eq. fold chosen.
  split; [apply chosen_NoDup | split; [| split]].
  - intros a Ha. apply in_map_iff in Ha as (p & <- & Hp).
    rewrite <- (chosen_frequency p Hp). apply chosen_entry, Hp.
  - rewrite length_map. apply chosen_length.
  - apply keyed_order.
    + apply sorted_StronglySorted;
        [apply answer_key_le_total | apply answer_key_le_trans].
    + apply chosen_NoDup.
    + apply chosen_frequency.
Qed.

End AnswerIndex.

Lemma set_data_answer_indices (self self' : QuestionData.t)
    (questions : list (gmap string string)) (answer_field : string)
    (fix_answers : option (list string)) :
  QuestionData.set_data self questions answer_field fix_answers = inr self' ->
  QuestionData.answer_indices self' =
  Some match fix_answers with
       | None => QuestionData.select_answers self
                   (Counter.of_list (QuestionData.labelled answer_field questions))
       | Some fixed => fixed
       end.
Proof.
  unfold QuestionData.set_data. intros H.
  apply bind_inr in H as (texts & _ & H). injection H as <-. reflexivity.
Qed.

(** C5: the answer index that [set_data] builds from a training set has no
    duplicates, holds only labels whose frequency reaches the minimum
    frequency, is no longer than the maximum class count, and is ordered by
    descending frequency, equal frequencies by ascending label. *)
Theorem set_data_answer_index (self self' : QuestionData.t)
    (questions : list (gmap string string)) (answer_field : string) :
  QuestionData.set_data self questions answer_field None = inr self' ->
  exists idx,
    QuestionData.answer_indices self' = Some idx /\
    NoDup idx /\
    (forall a, In a idx ->
       QuestionData.answer_min_freq self <= frequency answer_field questions a) /\
    Z.of_nat (length idx) <= Z.max 0 (QuestionData.answer_max_count self) /\
    StronglySorted (answer_order (frequency answer_field questions)) idx.
Proof.
  intros H. apply set_data_answer_indices in H.
  eexists; split; [exact H |].
  apply select_answers_spec.
Qed.

Example sample_answer_index :
  (QuestionData.answer_indices <$>
     QuestionData.set_data (Sample.data "CrossEntropyLoss") Sample.train_questions "page" None)
  = inr (Some ["London"; "Paris"]).
Proof. vm_compute. reflexivity. Qed.

Lemma set_data_answer_index_witness :
  exists self',
    QuestionData.set_data (Sample.data "CrossEntropyLoss") Sample.train_questions "page" None
      = inr self' /\
    exists idx,
      QuestionData.answer_indices self' = Some idx /\
      NoDup idx /\
      (forall a, In a idx ->
         QuestionData.answer_min_freq (Sample.data "CrossEntropyLoss")
           <= frequency "page" Sample.train_questions a) /\
      Z.of_nat (length idx)
        <= Z.max 0 (QuestionData.answer_max_count (Sample.data "CrossEntropyLoss")) /\
      StronglySorted (answer_order (frequency "page" Sample.train_questions)) idx.
Proof.
  eexists; split; [vm_compute; reflexivity |].
  apply (set_data_answer_index (Sample.data "CrossEntropyLoss") _ Sample.train_questions "page").
  vm_compute; reflexivity.
Defined.

(** ** Loading a data set against a frozen answer index *)

Lemma contains_In (l : list string) (x : string) : contains l x = true <-> In x l.
Proof.
  unfold contains. rewrite existsb_exists. split.
  - intros (y & Hy & Heq). apply String.eqb_eq in Heq as ->. exact Hy.
  - intros H. exists x. split; [exact H | apply String.eqb_refl].
Qed.

Lemma index_from_In (l : list string) (x : string) (i : nat) :
  In x l -> exists j, index_from i x l = inr j.
Proof.
  revert i; induction l as [| y l IH]; intros i; cbn; [tauto |].
  intros H. destruct (String.eqb_spec y x) as [-> | Hne]; [eauto |].
  apply IH. destruct H; [congruence | assumption].
Qed.

Lemma index_from_not_In (l : list string) (x : string) (i : nat) :
  ~ In x l -> index_from i x l = inl (Py.ValueError "is not in list").
Proof.
  revert i; induction l as [| y l IH]; intros i; cbn; [reflexivity |].
  intros H. destruct (String.eqb_spec y x) as [-> | Hne]; [tauto |].
  apply IH. tauto.
Qed.

Lemma kept_out_of_index (answer_field : string) (idx : list string)
    (l1 l2 : list (gmap string string)) (x : gmap string string) :
  out_of_index answer_field idx x ->
  QuestionData.kept answer_field idx (l1 ++ x :: l2) =
  QuestionData.kept answer_field idx (l1 ++ l2).
Proof.
  unfold out_of_index, QuestionData.kept. intros H.
  rewrite !List.filter_app. cbn.
  destruct (x !! answer_field) as [a |]; [| reflexivity].
  destruct (contains idx a) eqn:Hc; [| reflexivity].
  apply contains_In in Hc. tauto.
Qed.

Lemma kept_answers_in_index (answer_field : string) (idx : list string)
    (qs : list (gmap string string)) :
  Forall (fun a => In a idx)
    (omap (fun x : gmap string string => x !! answer_field)
          (QuestionData.kept answer_field idx qs)).
Proof.
  unfold QuestionData.kept.
  induction qs as [| x qs IH]; cbn; [constructor |].
  destruct (x !! answer_field) as [a |] eqn:Hx; [| exact IH].
  destruct (contains idx a) eqn:Hc; [| exact IH].
  cbn. rewrite Hx. constructor; [apply contains_In, Hc | exact IH].
Qed.

Lemma kept_answers_length (answer_field : string) (idx : list string)
    (qs : list (gmap string string)) :
  length (omap (fun x : gmap string string => x !! answer_field)
               (QuestionData.kept answer_field idx qs))
  = length (QuestionData.kept answer_field idx qs).
Proof.
  unfold QuestionData.kept.
  induction qs as [| x qs IH]; cbn; [reflexivity |].
  destruct (x !! answer_field) as [a |] eqn:Hx; [| exact IH].
  destruct (contains idx a); [| exact IH].
  cbn. rewrite Hx. cbn. f_equal. exact IH.
Qed.

Lemma set_data_fixed_kept (self : QuestionData.t) (answer_field : string)
    (idx : list string) (qs qs' : list (gmap string string)) :
  QuestionData.kept answer_field idx qs = QuestionData.kept answer_field idx qs' ->
  QuestionData.set_data self qs answer_field (Some idx) =
  QuestionData.set_data self qs' answer_field (Some idx).
Proof.
  intros H. unfold QuestionData.set_data. cbv zeta. rewrite H. reflexivity.
Qed.

Lemma set_data_fixed_fields (self self' : QuestionData.t) (answer_field : string)
    (idx : list string) (qs : list (gmap string string)) :
  QuestionData.set_data self qs answer_field (Some idx) = inr self' ->
  exists texts answers,
    QuestionData.answer_indices self' = Some idx /\
    QuestionData.questions self' = Some texts /\
    QuestionData.answers self' = Some answers /\
    length texts = length answers /\
    Forall (fun a => In a idx) answers.
Proof.
  unfold QuestionData.set_data. cbv zeta. intros H.
  apply bind_inr in H as (texts & Htexts & H). injection H as <-. cbn.
  exists texts, (omap (fun x : gmap string string => x !! answer_field)
                      (QuestionData.kept answer_field idx qs)).
  repeat split.
  - rewrite (mapM_inr_length _ _ _ Htexts), kept_answers_length. reflexivity.
  - apply kept_answers_in_index.
Qed.

(** C6: against the frozen answer index, a record whose gold label is absent
    from the index (or missing) leaves no trace: the data set (or the
    exception) obtained with the record is the one obtained without it, so is
    the outcome of evaluating on it, accuracy or exception; and every gold
    label that remains is found by the index lookup of the error count. *)
Theorem set_data_excludes_unknown (self : QuestionData.t) (answer_field : string)
    (idx : list string) (l1 l2 : list (gmap string string)) (x : gmap string string) :
  out_of_index answer_field idx x ->
  QuestionData.set_data self (l1 ++ x :: l2) answer_field (Some idx) =
  QuestionData.set_data self (l1 ++ l2) answer_field (Some idx) /\
  (forall batch_size order picks collate_fn model train_data,
     evaluate_set self (l1 ++ x :: l2) answer_field idx batch_size order picks collate_fn
       model train_data =
     evaluate_set self (l1 ++ l2) answer_field idx batch_size order picks collate_fn
       model train_data) /\
  forall self',
    QuestionData.set_data self (l1 ++ x :: l2) answer_field (Some idx) = inr self' ->
    exists texts answers,
      QuestionData.answer_indices self' = Some idx /\
      QuestionData.questions self' = Some texts /\
      QuestionData.answers self' = Some answers /\
      length texts = length answers /\
      Forall (fun a => exists i, index idx a = inr i) answers.
Proof.
  intros Hx.
  assert (QuestionData.set_data self (l1 ++ x :: l2) answer_field (Some idx) =
          QuestionData.set_data self (l1 ++ l2) answer_field (Some idx)) as Heq
    by (apply set_data_fixed_kept, kept_out_of_index, Hx).
  split; [exact Heq | split].
  - intros. unfold evaluate_set. rewrite Heq. reflexivity.
  - intros self' H.
    destruct (set_data_fixed_fields _ _ _ _ _ H) as (texts & answers & H1 & H2 & H3 & H4 & H5).
    exists texts, answers. repeat split; try assumption.
    eapply Forall_impl; [exact H5 |]. intros a Ha. apply index_from_In, Ha.
Qed.

Example eval_set_drops_unknown_label :
  (QuestionData.answers <$>
     QuestionData.set_data (Sample.data "CrossEntropyLoss") Sample.eval_questions "page"
       (Some ["London"; "Paris"]))
  = inr (Some ["London"; "Paris"]).
Proof. vm_compute. reflexivity. Qed.

Lemma set_data_excludes_unknown_witness :
  let self := Sample.data "CrossEntropyLoss" in
  let idx := ["London"; "Paris"] in
  let l1 := [Sample.question "city on the thames" "London"] in
  let x := Sample.question "capital of germany" "Berlin" in
  let l2 := [Sample.question "city on the seine" "Paris"] in
  out_of_index "page" idx x /\
  (QuestionData.set_data self (l1 ++ x :: l2) "page" (Some idx) =
   QuestionData.set_data self (l1 ++ l2) "page" (Some idx) /\
   (forall batch_size order picks collate_fn model train_data,
      evaluate_set self (l1 ++ x :: l2) "page" idx batch_size order picks collate_fn
        model train_data =
      evaluate_set self (l1 ++ l2) "page" idx batch_size order picks collate_fn
        model train_data) /\
   forall self',
     QuestionData.set_data self (l1 ++ x :: l2) "page" (Some idx) = inr self' ->
     exists texts answers,
       QuestionData.answer_indices self' = Some idx /\
       QuestionData.questions self' = Some texts /\
       QuestionData.answers self' = Some answers /\
       length texts = length answers /\
       Forall (fun a => exists i, index idx a = inr i) answers).
Proof.
  intros self idx l1 x l2.
  assert (out_of_index "page" idx x) as Hx
    by (vm_compute; intros [H | [H | []]]; discriminate H).
  split; [exact Hx |].
  apply (set_data_excludes_unknown self "page" idx l1 l2 x Hx).
Defined.

(** ** Queries before the first [refresh_index] *)

Lemma set_representation_lookup (self self' : QuestionData.t) (indices : list nat)
    (representations : Tensor.mat) :
  QuestionData.set_representation self indices representations = inr self' ->
  QuestionData.lookup self' = QuestionData.lookup self.
Proof.
  unfold QuestionData.set_representation. intros H.
  apply bind_inr in H as (? & _ & H). apply bind_inr in H as (? & _ & H).
  apply bind_inr in H as (? & _ & H). apply bind_inr in H as (? & _ & H).
  apply bind_inr in H as (? & _ & H). injection H as <-. reflexivity.
Qed.

Lemma build_representation_from_lookup (docs : list string) (idx : nat)
    (masks : nat -> list (list bool)) (model : DanModel.t) (self self' : QuestionData.t) :
  build_representation_from idx docs masks model self = inr self' ->
  QuestionData.lookup self' = QuestionData.lookup self.
Proof.
  revert idx self; induction docs as [| doc docs IH]; intros idx self; cbn.
  - intros [= <-]. reflexivity.
  - intros H.
    apply bind_inr in H as (? & _ & H). apply bind_inr in H as (? & _ & H).
    apply bind_inr in H as (? & _ & H). apply bind_inr in H as (? & _ & H).
    apply bind_inr in H as (? & _ & H). apply bind_inr in H as (s1 & H1 & H).
    apply IH in H. apply set_representation_lookup in H1. congruence.
Qed.

Lemma perform_lookup (self self' : QuestionData.t) (c : Call) :
  is_refresh c = false ->
  perform self c = inr self' ->
  QuestionData.lookup self' = QuestionData.lookup self.
Proof.
  destruct c; cbn; intros Hc H; try discriminate.
  - unfold QuestionData.build_vocab in H.
    apply bind_inr in H as (? & _ & H). apply bind_inr in H as (? & _ & H).
    apply bind_inr in H as (? & _ & H). injection H as <-. reflexivity.
  - injection H as <-. reflexivity.
  - unfold QuestionData.set_data in H.
    apply bind_inr in H as (? & _ & H). injection H as <-. reflexivity.
  - unfold QuestionData.initialize_lookup_representation in H.
    apply bind_inr in H as (? & _ & H). injection H as <-. reflexivity.
  - eapply set_representation_lookup, H.
  - unfold build_representation in H.
    apply bind_inr in H as (? & _ & H).
    eapply build_representation_from_lookup, H.
Qed.

Lemma history_lookup (calls : list Call) (self : QuestionData.t) :
  forallb (fun c => negb (is_refresh c)) calls = true ->
  QuestionData.lookup (history self calls) = QuestionData.lookup self.
Proof.
  unfold history.
  revert self; induction calls as [| c calls IH]; intros self; cbn; [reflexivity |].
  intros H. apply andb_true_iff in H as [Hc H]. apply negb_true_iff in Hc.
  rewrite IH by exact H.
  destruct (perform self c) as [e | s'] eqn:Hp; [reflexivity |].
  eapply perform_lookup; eassumption.
Qed.

(** C7: on a [QuestionData] object on which [refresh_index] has not been
    called yet, whatever else has been called, a single query raises the
    assertion error that names [refresh_index], and a batch query raises an
    attribute error on the missing index; neither returns a result. *)
Theorem query_before_refresh_index (word_tokenize : string -> list string)
    (parameters : Parameters) (calls : list Call)
    (query_row : Tensor.vec) (query_representation : Tensor.mat) (n_nearest : Z) :
  forallb (fun c => negb (is_refresh c)) calls = true ->
  let data := history (QuestionData.__init__ word_tokenize parameters) calls in
  QuestionData.get_nearest data query_row n_nearest =
    inl (Py.AssertionError "Did you not initialize the KD tree by calling refresh_index?") /\
  QuestionData.get_batch_nearest data query_representation n_nearest =
    inl (Py.AttributeError "'NoneType' object has no attribute 'search'").
Proof.
  intros H data.
  assert (QuestionData.lookup data = None) as Hnone
    by (unfold data; rewrite history_lookup by exact H; reflexivity).
  unfold QuestionData.get_nearest, QuestionData.get_batch_nearest.
  rewrite Hnone. split; reflexivity.
Qed.

Lemma query_before_refresh_index_witness :
  let calls := [ CallSetData Sample.train_questions "page" None;
                 CallInitializeLookupRepresentation ] in
  forallb (fun c => negb (is_refresh c)) calls = true /\
  let data := history (Sample.data "MarginRankingLoss") calls in
  QuestionData.get_nearest data [0%Q; 0%Q] 1 =
    inl (Py.AssertionError "Did you not initialize the KD tree by calling refresh_index?") /\
  QuestionData.get_batch_nearest data [[0%Q; 0%Q]] 1 =
    inl (Py.AttributeError "'NoneType' object has no attribute 'search'").
Proof.
  split; [reflexivity |].
  apply (query_before_refresh_index Sample.word_tokenize
           (Sample.parameters "MarginRankingLoss")).
  reflexivity.
Defined.

Example query_after_refresh_index :
  let data := history (Sample.data "MarginRankingLoss")
                [ CallSetData Sample.train_questions "page" None;
                  CallInitializeLookupRepresentation;
                  CallSetRepresentation [1%nat] [[3; 4]]%Q;
                  CallRefreshIndex ] in
  QuestionData.get_nearest data [3; 3]%Q 2 = inr [1; 0] /\
  QuestionData.get_batch_nearest data [[3; 3]; [0; 1]]%Q 1 = inr ["Paris"; "London"].
Proof. vm_compute. split; reflexivity. Qed.

(** ** Identity initialization *)

(** C4: with identity initialization requested, [initialize_parameters] stops
    at its first assertion, whose operand [emb_dim] is not a name of the
    method's scope: it raises [NameError] whatever the dimensions are, and
    never sets the layers. *)
Theorem initialize_parameters_identity_raises (self : DanModel.t) :
  DanModel.initialize_parameters self "identity" = inl (Py.NameError "emb_dim").
Proof. reflexivity. Qed.

Example identity_initialization_matching_dimensions (rng : DanModel.Init) :
  DanModel.__init__ rng "dan" CrossEntropyLoss 3 2 2 2 (1 # 2) "identity"
  = inl (Py.NameError "emb_dim").
Proof. reflexivity. Qed.

Example default_initialization_returns (rng : DanModel.Init) :
  exists m, DanModel.__init__ rng "dan" CrossEntropyLoss 3 2 2 2 (1 # 2) "" = inr m.
Proof. eexists. reflexivity. Qed.

(** ** Indexing *)

Lemma getitem_middle {A} (l0 l1 : list A) (x : A) :
  getitem (l0 ++ x :: l1) (Z.of_nat (length l0)) = inr x.
Proof.
  unfold getitem. rewrite length_app. cbn [length].
  assert ((Z.of_nat (length l0) <? 0) = false) as E1 by (apply Z.ltb_ge; lia).
  cbv zeta. rewrite !E1.
  assert ((Z.of_nat (length l0 + S (length l1)) <=? Z.of_nat (length l0)) = false) as E2
    by (apply Z.leb_gt; lia).
  rewrite E2. cbn [orb]. rewrite Nat2Z.id.
  rewrite nth_error_app2 by lia. rewrite Nat.sub_diag. reflexivity.
Qed.

Lemma insert_middle {A} (l0 l1 : list A) (x y : A) :
  <[length l0 := y]> (l0 ++ x :: l1) = (l0 ++ y :: l1)%list.
Proof.
  rewrite insert_app_r_alt by lia. rewrite Nat.sub_diag. reflexivity.
Qed.

Lemma getitem_at {A} (l0 l1 : list A) (x : A) (n : nat) :
  length l0 = n -> getitem (l0 ++ x :: l1) (Z.of_nat n) = inr x.
Proof. intros <-. apply getitem_middle. Qed.

Lemma insert_at {A} (l0 l1 : list A) (x y : A) (n : nat) :
  length l0 = n -> <[n := y]> (l0 ++ x :: l1) = l0 ++ y :: l1.
Proof. intros <-. apply insert_middle. Qed.

Lemma drop_repeat {A} (x : A) (n m : nat) : drop n (repeat x m) = repeat x (m - n).
Proof.
  revert m; induction n as [| n IH]; intros [| m]; cbn; try reflexivity.
  apply IH.
Qed.

Lemma app_snoc_assoc {A} (l0 l1 : list A) (x : A) :
  (l0 ++ x :: l1)%list = ((l0 ++ [x]) ++ l1)%list.
Proof. rewrite <- app_assoc. reflexivity. Qed.

(** ** Batch assembly: the anchor matrix *)

Lemma fill_questions_spec (width : nat) (rest : list Example.t) :
  forall (l0 : list Z) (m0 : list (list Z)) (answers : list string)
         (indices : list nat) st',
    length m0 = length l0 ->
    length answers = length l0 ->
    fill_questions (length l0) rest
      ((l0 ++ repeat 0 (length rest))%list,
       (m0 ++ repeat (repeat 0 width) (length rest))%list, answers, indices) = inr st' ->
    st' = ((l0 ++ map (fun ex => Z.of_nat (length (Example.tokens ex))) rest)%list,
           (m0 ++ map (fun ex => padded width (Example.tokens ex)) rest)%list,
           (answers ++ map Example.answer rest)%list,
           (indices ++ seq (length l0) (length rest))%list) /\
    Forall (fun ex => (length (Example.tokens ex) <= width)%nat) rest.
Proof.
  induction rest as [| ex rest IH]; intros l0 m0 answers indices st' Hm Ha; cbn.
  - intros [= <-]. rewrite !app_nil_r. split; [reflexivity | constructor].
  - rewrite (getitem_at answers [] _ (length l0)) by exact Ha.
    rewrite bind_inr_l, String.eqb_refl, assert_true_bind.
    rewrite (getitem_at m0 _ _ (length l0)) by exact Hm.
    rewrite bind_inr_l, repeat_length.
    destruct (Nat.eqb_spec (Nat.min (length (Example.tokens ex)) width)
                           (length (Example.tokens ex))) as [Hmin | Hmin];
      [| intros H; discriminate H].
    rewrite assert_true_bind.
    unfold copy_into.
    rewrite (getitem_at m0 _ _ (length l0)) by exact Hm.
    rewrite bind_inr_l. unfold copy_slice. rewrite repeat_length.
    rewrite (proj2 (Nat.eqb_eq _ _) Hmin). rewrite !bind_inr_l.
    rewrite (insert_at m0) by exact Hm.
    rewrite (insert_at l0) by reflexivity. rewrite drop_repeat.
    fold (padded width (Example.tokens ex)).
    rewrite (app_snoc_assoc l0), (app_snoc_assoc m0).
    replace (S (length l0)) with (length (l0 ++ [Z.of_nat (length (Example.tokens ex))]))
      by (rewrite length_app; cbn; lia).
    intros H. apply IH in H as [-> Hall].
    + split.
      * rewrite length_app. cbn [length].
        rewrite <- !app_assoc. cbn [app].
        replace (length l0 + 1)%nat with (S (length l0)) by lia. reflexivity.
      * constructor; [lia | exact Hall].
    + rewrite !length_app. cbn. lia.
    + rewrite !length_app. cbn. lia.
Qed.

Lemma batchify_examples_only_spec (batch : list Example.t) (b : Batch) :
  batchify_examples_only batch = inr b ->
  exists width,
    batch_max_length batch = inr (Z.of_nat width) /\
    question_text b = map (fun ex => padded width (Example.tokens ex)) batch /\
    question_len b = map (fun ex => Z.of_nat (length (Example.tokens ex))) batch /\
    batch_answers b = map Example.answer batch /\
    ex_indices b = seq 0 (length batch) /\
    Forall (fun ex => (length (Example.tokens ex) <= width)%nat) batch.
Proof.
  unfold batchify_examples_only. intros H.
  apply bind_inr in H as (max_length & Hmax & H).
  apply bind_inr in H as (st & Hst & H).
  assert (0 <= max_length) as Hpos.
  { unfold batch_max_length in Hmax.
    apply bind_inr in Hmax as (lengths & Hl & Hmax).
    destruct lengths as [| x lengths]; [discriminate |]. injection Hmax as <-.
    destruct batch as [| ex batch]; [discriminate |]. cbn in Hl.
    apply bind_inr in Hl as (y & Hy & Hl).
    apply bind_inr in Hl as (ys & _ & Hl). injection Hl as <- <-.
    unfold Example.longest_example_length in Hy.
    apply bind_inr in Hy as (? & Hassert & Hy). injection Hy as <-.
    unfold Py.assert in Hassert.
    match type of Hassert with (if ?c then _ else _) = _ =>
      destruct c eqn:Hc; [| discriminate] end.
    apply Z.ltb_lt in Hc.
    assert (forall l a, a <= fold_left Z.max l a) as Hfold.
    { induction l as [| z l IHl]; intros a; cbn; [lia |].
      etransitivity; [| apply IHl]. lia. }
    etransitivity; [| apply Hfold]. lia. }
  exists (Z.to_nat max_length). rewrite Z2Nat.id by exact Hpos.
  split; [exact Hmax |].
  apply (fill_questions_spec (Z.to_nat max_length) batch [] [] [] []) in Hst;
    [| reflexivity | reflexivity].
  destruct Hst as [-> Hall]. injection H as <-. cbn.
  repeat split; try reflexivity. exact Hall.
Qed.

Lemma fold_left_max_ge (l : list Z) (a : Z) : a <= fold_left Z.max l a.
Proof.
  revert a; induction l as [| z l IH]; intros a; cbn; [lia |].
  etransitivity; [| apply IH]. lia.
Qed.

Lemma fold_left_max_In (l : list Z) (a x : Z) : In x l -> x <= fold_left Z.max l a.
Proof.
  revert a; induction l as [| z l IH]; intros a; cbn; [tauto |].
  intros [-> | H]; [| apply IH, H].
  etransitivity; [| apply fold_left_max_ge]. lia.
Qed.

Lemma py_max_ge (l : list Z) (m x : Z) : py_max l = inr m -> In x l -> x <= m.
Proof.
  destruct l as [| a l]; cbn; [discriminate |]. intros [= <-] [-> | H].
  - apply fold_left_max_ge.
  - apply fold_left_max_In, H.
Qed.

Lemma longest_example_length_tokens (ex : Example.t) :
  (0 < length (Example.tokens ex))%nat ->
  exists n, Example.longest_example_length ex = inr n /\
            Z.of_nat (length (Example.tokens ex)) <= n.
Proof.
  intros H. unfold Example.longest_example_length.
  set (n := match Example.negative ex with
            | Some _ => _
            | None => _
            end).
  assert (Z.of_nat (length (Example.tokens ex)) <= n) as Hn
    by (unfold n; destruct (Example.negative ex), (Example.positive ex); lia).
  exists n. split; [| exact Hn].
  assert ((0 <? n) = true) as -> by (apply Z.ltb_lt; lia).
  reflexivity.
Qed.

Lemma batch_lengths_return (batch : list Example.t) :
  Forall (fun ex => (0 < length (Example.tokens ex))%nat) batch ->
  exists lengths,
    Py.mapM Example.longest_example_length batch = inr lengths /\
    Forall2 (fun ex n => Z.of_nat (length (Example.tokens ex)) <= n) batch lengths.
Proof.
  induction 1 as [| ex batch Hex _ IH]; cbn.
  - exists []. split; [reflexivity | constructor].
  - destruct (longest_example_length_tokens ex Hex) as (n & -> & Hn).
    destruct IH as (lengths & -> & Hall).
    exists (n :: lengths). split; [reflexivity | constructor; assumption].
Qed.

Lemma fill_questions_returns (width : nat) (rest : list Example.t) :
  forall (l0 : list Z) (m0 : list (list Z)) (answers : list string) (indices : list nat),
    length m0 = length l0 ->
    length answers = length l0 ->
    Forall (fun ex => (length (Example.tokens ex) <= width)%nat) rest ->
    exists st',
      fill_questions (length l0) rest
        (l0 ++ repeat 0 (length rest),
         m0 ++ repeat (repeat 0 width) (length rest), answers, indices) = inr st'.
Proof.
  induction rest as [| ex rest IH]; intros l0 m0 answers indices Hm Ha Hall; cbn.
  - eauto.
  - apply Forall_cons in Hall as [Hex Hall].
    rewrite (getitem_at answers [] _ (length l0)) by exact Ha.
    rewrite bind_inr_l, String.eqb_refl, assert_true_bind.
    rewrite (getitem_at m0 _ _ (length l0)) by exact Hm.
    rewrite bind_inr_l, repeat_length.
    assert (Nat.min (length (Example.tokens ex)) width = length (Example.tokens ex))
      as Hmin by lia.
    rewrite Hmin, Nat.eqb_refl, assert_true_bind.
    unfold copy_into.
    rewrite (getitem_at m0 _ _ (length l0)) by exact Hm.
    rewrite bind_inr_l. unfold copy_slice. rewrite repeat_length.
    rewrite Hmin, Nat.eqb_refl. rewrite !bind_inr_l.
    rewrite (insert_at m0) by exact Hm.
    rewrite (insert_at l0) by reflexivity.
    rewrite (app_snoc_assoc l0), (app_snoc_assoc m0).
    replace (S (length l0)) with (length (l0 ++ [Z.of_nat (length (Example.tokens ex))]))
      by (rewrite length_app; cbn; lia).
    apply IH; [| | exact Hall]; rewrite !length_app; cbn; lia.
Qed.

Lemma batchify_examples_only_returns (batch : list Example.t) :
  batch <> [] ->
  Forall (fun ex => (0 < length (Example.tokens ex))%nat) batch ->
  exists b, batchify_examples_only batch = inr b.
Proof.
  intros Hne Hall. unfold batchify_examples_only, batch_max_length.
  destruct (batch_lengths_return batch Hall) as (lengths & -> & Hlen).
  rewrite bind_inr_l.
  destruct (py_max lengths) as [e | m] eqn:Hmax.
  { destruct lengths; [| discriminate].
    apply Forall2_length in Hlen. destruct batch; [congruence | discriminate]. }
  rewrite bind_inr_l.
  assert (Forall (fun ex => (length (Example.tokens ex) <= Z.to_nat m)%nat) batch) as Hw.
  { assert (forall x, In x lengths -> x <= m) as Hm
      by (intros x Hx; eapply py_max_ge; eassumption).
    clear - Hlen Hm.
    induction Hlen as [| ex n batch lengths Hx Hl IH]; constructor.
    - specialize (Hm n (or_introl eq_refl)). lia.
    - apply IH. intros x Hx'. apply Hm. right. exact Hx'. }
  destruct (fill_questions_returns (Z.to_nat m) batch [] [] [] [] eq_refl eq_refl Hw)
    as ([[[a b] c] d] & Hst).
  cbn in Hst. cbn. rewrite Hst. rewrite bind_inr_l. eauto.
Qed.

(** ** Rational vectors *)

Lemma veq_refl (u : Tensor.vec) : Tensor.veq u u.
Proof. induction u; constructor; [reflexivity | assumption]. Qed.

Lemma veq_trans (u v w : Tensor.vec) : Tensor.veq u v -> Tensor.veq v w -> Tensor.veq u w.
Proof.
  unfold Tensor.veq. intros H; revert w.
  induction H as [| x y u v Hxy _ IH]; intros w Hw; inversion Hw; subst; constructor.
  - etransitivity; eassumption.
  - apply IH. assumption.
Qed.

Lemma vadd_zeros_r (v : Tensor.vec) : Tensor.veq (Tensor.vadd v (Tensor.zeros (length v))) v.
Proof.
  induction v as [| x v IH]; cbn; constructor; [apply Qplus_0_r | exact IH].
Qed.

Lemma vadd_length (u v : Tensor.vec) :
  length u = length v -> length (Tensor.vadd u v) = length u.
Proof. intros H. unfold Tensor.vadd. rewrite length_zip_with. lia. Qed.

Lemma zeros_length (d : nat) : length (Tensor.zeros d) = d.
Proof. apply repeat_length. Qed.

Lemma vadd_veq (u u' v : Tensor.vec) :
  Tensor.veq u u' -> Tensor.veq (Tensor.vadd u v) (Tensor.vadd u' v).
Proof.
  intros H; revert v. induction H as [| x y u u' Hxy _ IH]; intros [| z v]; cbn;
    constructor; [rewrite Hxy; reflexivity | apply IH].
Qed.

Lemma fold_vadd_veq (rows : list Tensor.vec) (u u' : Tensor.vec) :
  Tensor.veq u u' -> Tensor.veq (fold_left Tensor.vadd rows u) (fold_left Tensor.vadd rows u').
Proof.
  revert u u'; induction rows as [| r rows IH]; intros u u' H; cbn; [exact H |].
  apply IH, vadd_veq, H.
Qed.

Lemma fold_vadd_length (d : nat) (rows : list Tensor.vec) (u : Tensor.vec) :
  length u = d -> Forall (fun r => length r = d) rows ->
  length (fold_left Tensor.vadd rows u) = d.
Proof.
  revert u; induction rows as [| r rows IH]; intros u Hu Hall; cbn; [exact Hu |].
  apply Forall_cons in Hall as [Hr Hall].
  apply IH; [| exact Hall]. rewrite vadd_length; congruence.
Qed.

Lemma veq_length (u v : Tensor.vec) : Tensor.veq u v -> length u = length v.
Proof. apply Forall2_length. Qed.

Lemma vadd_zero_r (u z : Tensor.vec) :
  Tensor.veq z (Tensor.zeros (length u)) -> Tensor.veq (Tensor.vadd u z) u.
Proof.
  revert z; induction u as [| x u IH]; intros z Hz; cbn in *.
  - destruct z; constructor.
  - inversion Hz as [| y ? z' ? Hy Hz']; subst. cbn.
    constructor; [rewrite Hy; apply Qplus_0_r | apply IH, Hz'].
Qed.

Lemma vadd_zero_l (u z : Tensor.vec) :
  Tensor.veq z (Tensor.zeros (length u)) -> Tensor.veq (Tensor.vadd z u) u.
Proof.
  revert z; induction u as [| x u IH]; intros z Hz; cbn in *.
  - inversion Hz; subst. constructor.
  - inversion Hz as [| y ? z' ? Hy Hz']; subst. cbn.
    constructor; [rewrite Hy; apply Qplus_0_l | apply IH, Hz'].
Qed.

Lemma fold_vadd_zeros (d : nat) (pads : list Tensor.vec) (u : Tensor.vec) :
  length u = d ->
  Forall (fun z => Tensor.veq z (Tensor.zeros d)) pads ->
  Tensor.veq (fold_left Tensor.vadd pads u) u.
Proof.
  intros <- Hall. induction Hall as [| z pads Hz _ IH]; cbn; [apply veq_refl |].
  eapply veq_trans; [apply fold_vadd_veq, vadd_zero_r, Hz | exact IH].
Qed.

Lemma sum_rows_padding (d : nat) (X pads : list Tensor.vec) :
  Forall (fun r => length r = d) X ->
  Forall (fun z => Tensor.veq z (Tensor.zeros d)) pads ->
  Tensor.veq (Tensor.sum_rows d (X ++ pads)) (Tensor.sum_rows d X).
Proof.
  destruct X as [| r X]; cbn; intros Hall Hpads.
  - destruct Hpads as [| z pads Hz Hpads]; cbn; [apply veq_refl |].
    eapply veq_trans; [| exact Hz].
    apply (fold_vadd_zeros d); [| exact Hpads].
    rewrite (veq_length _ _ Hz). apply zeros_length.
  - apply Forall_cons in Hall as [Hr Hall].
    rewrite fold_left_app. apply (fold_vadd_zeros d); [| exact Hpads].
    apply fold_vadd_length; assumption.
Qed.

Lemma vdiv_veq (u v : Tensor.vec) (c c' : Q) :
  Tensor.veq u v -> (c == c')%Q -> Tensor.veq (Tensor.vdiv u c) (Tensor.vdiv v c').
Proof.
  intros H Hc. induction H as [| x y u v Hxy _ IH]; cbn; constructor;
    [rewrite Hxy, Hc; reflexivity | exact IH].
Qed.

(** ** The embedding layer on padded rows *)

Lemma mapM_app_inr {A B} (f : A -> Py.t B) (l1 l2 : list A) (r1 r2 : list B) :
  Py.mapM f l1 = inr r1 -> Py.mapM f l2 = inr r2 ->
  Py.mapM f (l1 ++ l2) = inr (r1 ++ r2).
Proof.
  revert r1; induction l1 as [| x l1 IH]; intros r1; cbn.
  - intros [= <-] H. exact H.
  - destruct (f x) as [e | y]; cbn; [discriminate |].
    destruct (Py.mapM f l1) as [e | ys]; cbn; [discriminate |].
    intros [= <-] H2. rewrite (IH ys eq_refl H2). reflexivity.
Qed.

Lemma mapM_repeat_inr {A B} (f : A -> Py.t B) (x : A) (y : B) (n : nat) :
  f x = inr y -> Py.mapM f (repeat x n) = inr (repeat y n).
Proof.
  intros H. induction n as [| n IH]; cbn; [reflexivity |].
  rewrite H, IH. reflexivity.
Qed.

Lemma mapM_Forall {A B} (P : B -> Prop) (f : A -> Py.t B) (l : list A) (r : list B) :
  (forall x y, f x = inr y -> P y) -> Py.mapM f l = inr r -> Forall P r.
Proof.
  intros Hf. revert r; induction l as [| x l IH]; intros r; cbn.
  - intros [= <-]. constructor.
  - destruct (f x) as [e | y] eqn:Hx; cbn; [discriminate |].
    destruct (Py.mapM f l) as [e | ys]; cbn; [discriminate |].
    intros [= <-]. constructor; [eapply Hf, Hx | apply IH; reflexivity].
Qed.

Section Pooling.
Variable model : DanModel.t.
Hypothesis Hok : encoder_ok model.

Let table := DanModel.embeddings model.
Let d := DanModel.emb_dim model.

Lemma padding_row :
  exists r0, Embedding.row table 0 = inr r0 /\ Tensor.veq r0 (Tensor.zeros d).
Proof.
  destruct Hok as (Hd & _ & _ & _ & r0 & H0 & Hz). exists r0.
  unfold Embedding.row, table. cbn. change (Z.to_nat 0) with 0%nat.
  rewrite H0. split; [reflexivity |]. unfold d. rewrite <- Hd. exact Hz.
Qed.

Lemma row_width (id : Z) (r : Tensor.vec) : Embedding.row table id = inr r -> length r = d.
Proof.
  destruct Hok as (Hd & _ & _ & Hall & _). unfold Embedding.row.
  destruct (id <? 0); [discriminate |].
  destruct (nth_error (Embedding.weight table) (Z.to_nat id)) as [r' |] eqn:Hn;
    [| discriminate].
  intros [= <-]. rewrite Forall_forall in Hall. unfold d. rewrite <- Hd. apply Hall.
  apply list_elem_of_In. eapply nth_error_In, Hn.
Qed.

Lemma rows_padded (ids : list Z) (X : list Tensor.vec) (width : nat) :
  Py.mapM (Embedding.row table) ids = inr X ->
  exists pads,
    Py.mapM (Embedding.row table) (padded width ids) = inr (X ++ pads) /\
    Forall (fun z => Tensor.veq z (Tensor.zeros d)) pads.
Proof.
  intros H. destruct padding_row as (r0 & Hr0 & Hz).
  exists (repeat r0 (width - length ids)). split.
  - unfold padded. apply mapM_app_inr; [exact H |].
    apply mapM_repeat_inr, Hr0.
  - apply Forall_forall. intros z Hin.
    apply list_elem_of_In, repeat_spec in Hin as ->. exact Hz.
Qed.

Lemma call_padded (width : nat) (seqs : list (list Z)) (Xs : list (list Tensor.vec)) :
  Embedding.call table seqs = inr Xs ->
  exists Ps,
    Embedding.call table (map (padded width) seqs) = inr Ps /\
    Forall2 (fun X P => exists pads,
               P = X ++ pads /\ Forall (fun z => Tensor.veq z (Tensor.zeros d)) pads)
            Xs Ps /\
    map (fun ids => Z.of_nat (length ids)) seqs = map (fun X => Z.of_nat (length X)) Xs.
Proof.
  unfold Embedding.call.
  revert Xs; induction seqs as [| ids seqs IH]; intros Xs; cbn.
  - intros [= <-]. exists []. repeat split; constructor.
  - destruct (Py.mapM (Embedding.row table) ids) as [e | X] eqn:HX; cbn; [discriminate |].
    destruct (Py.mapM (Py.mapM (Embedding.row table)) seqs) as [e | Xs'] eqn:HXs; cbn;
      [discriminate |].
    intros [= <-]. destruct (IH Xs' eq_refl) as (Ps & -> & Hall & ->).
    destruct (rows_padded ids X width HX) as (pads & -> & Hpads). cbn.
    exists ((X ++ pads) :: Ps). repeat split.
    + constructor; [exists pads; split; [reflexivity | exact Hpads] | exact Hall].
    + rewrite (mapM_inr_length _ _ _ HX). reflexivity.
Qed.

Lemma average_rows (embs : list (list Tensor.vec)) (lens : list Z) :
  length embs = length lens ->
  DanModel.average model embs lens =
    inr (zip_with Tensor.vdiv (map (Tensor.sum_rows d) embs)
                  (map (fun l => Qmax (inject_Z l) 1) lens)).
Proof.
  intros H. unfold DanModel.average, DanModel.broadcast_div.
  rewrite !length_map, H, Nat.eqb_refl. rewrite map_map. reflexivity.
Qed.

Lemma pooled_batch (width : nat) (seqs : list (list Z)) (Xs : list (list Tensor.vec)) :
  Embedding.call table seqs = inr Xs ->
  exists out,
    pooled model seqs width = inr out /\
    Forall2 (fun X avg => Tensor.veq avg (pooled_row d X)) Xs out.
Proof.
  intros HXs. unfold pooled. fold table.
  assert (Forall (Forall (fun r => length r = d)) Xs) as Hw.
  { eapply mapM_Forall; [| exact HXs]. intros ids X HX.
    eapply mapM_Forall; [| exact HX]. intros id r. apply row_width. }
  destruct (call_padded width seqs Xs HXs) as (Ps & -> & HPs & ->).
  rewrite bind_inr_l, average_rows
    by (rewrite length_map; symmetry; eapply Forall2_length, HPs).
  eexists; split; [reflexivity |].
  clear HXs. revert Hw.
  induction HPs as [| X P Xs Ps (pads & -> & Hpads) _ IH]; intros Hw; cbn;
    constructor.
  - unfold pooled_row. apply vdiv_veq; [| reflexivity].
    apply sum_rows_padding; [| exact Hpads]. apply Forall_cons in Hw. tauto.
  - apply IH. apply Forall_cons in Hw. tauto.
Qed.

End Pooling.

Lemma pooled_row_mean (d : nat) (X : list Tensor.vec) :
  (1 <= length X)%nat -> Tensor.veq (pooled_row d X) (vmean d X).
Proof.
  intros H. unfold pooled_row, vmean. apply vdiv_veq; [apply veq_refl |].
  apply Q.max_l. change 1%Q with (inject_Z 1). rewrite <- Zle_Qle. lia.
Qed.

Lemma pooled_row_empty (d : nat) :
  pooled_row d [] = Tensor.vdiv (Tensor.zeros d) 1.
Proof. reflexivity. Qed.


(** ** The padding row of the embedding table *)

Lemma embedding_new_ok (init : nat -> nat -> Q) (num dim : nat) (e : Embedding.t) :
  Embedding.new init num dim (Some 0%nat) = inr e ->
  Embedding.embedding_dim e = dim /\ Embedding.num_embeddings e = num /\
  nth_error (Embedding.weight e) 0 = Some (Tensor.zeros dim) /\
  table_ok e.
Proof.
  unfold Embedding.new. intros H.
  apply bind_inr in H as ([] & Hassert & H). injection H as <-. cbn.
  unfold Py.assert in Hassert. destruct (Nat.ltb_spec 0 num) as [Hnum | ]; [| discriminate].
  destruct num as [| num]; [lia |].
  assert (Forall (fun r => length r = dim)
            (map (fun i => if bool_decide (Some 0%nat = Some i) then Tensor.zeros dim
                           else map (init i) (seq 0 dim)) (seq 0 (S num)))) as Hrows.
  { apply Forall_forall. intros r Hr.
    apply list_elem_of_In, in_map_iff in Hr as (i & <- & _).
    destruct (bool_decide (Some 0%nat = Some i));
      [apply zeros_length | rewrite length_map, length_seq; reflexivity]. }
  unfold table_ok.
  cbn [Embedding.weight Embedding.num_embeddings Embedding.embedding_dim
       Embedding.padding_idx].
  repeat split; try assumption.
  - rewrite length_map, length_seq. reflexivity.
  - exists (Tensor.zeros dim). split; [reflexivity | apply veq_refl].
Qed.

Lemma initialize_parameters_inr (self m : DanModel.t) (initialization : string) :
  DanModel.initialize_parameters self initialization = inr m -> m = self.
Proof.
  unfold DanModel.initialize_parameters.
  destruct (String.eqb initialization "identity"); [discriminate |].
  intros [= <-]. reflexivity.
Qed.

Lemma init_encoder_ok (rng : DanModel.Init) (model_filename : string) (criterion : Criterion)
    (vocab_size : nat) (n_answers : Z) (emb_dim n_hidden_units : nat) (nn_dropout : Q)
    (initialization : string) (m : DanModel.t) :
  DanModel.__init__ rng model_filename criterion vocab_size n_answers emb_dim
    n_hidden_units nn_dropout initialization = inr m ->
  encoder_ok m.
Proof.
  unfold DanModel.__init__. intros H.
  apply bind_inr in H as (e & He & H). apply bind_inr in H as (second & _ & H).
  apply initialize_parameters_inr in H as ->. cbn.
  apply embedding_new_ok in He as (Hd & _ & _ & Hok).
  split; [exact Hd | exact Hok].
Qed.

Lemma zero_row_step (d : nat) (lr clip : Q) (r : Tensor.vec) :
  Tensor.veq r (Tensor.zeros d) ->
  Tensor.veq (Tensor.vsub r (Tensor.vscale lr (Tensor.vscale clip (Tensor.zeros d))))
             (Tensor.zeros d).
Proof.
  revert r; induction d as [| d IH]; intros r Hr; inversion Hr as [| x ? r' ? Hx Hr']; subst;
    cbn; constructor.
  - rewrite Hx. ring.
  - apply IH, Hr'.
Qed.

Lemma grad_padding_row (e : Embedding.t) (ids : list Z) (upstream : list Tensor.vec) :
  Embedding.padding_idx e = Some 0%nat ->
  (0 < Embedding.num_embeddings e)%nat ->
  nth_error (Embedding.grad e ids upstream) 0 =
    Some (Tensor.zeros (Embedding.embedding_dim e)).
Proof.
  intros Hp Hn. unfold Embedding.grad.
  destruct (Embedding.num_embeddings e) as [| n]; [lia |]. cbn.
  unfold Embedding.grad_row. rewrite Hp.
  rewrite bool_decide_eq_true_2 by reflexivity. reflexivity.
Qed.

(** The padding row stays zero under any optimizer step whose gradient is
    the one of the embedding layer. *)
Lemma sgd_step_padding_row (lr clip : Q) (e : Embedding.t) (ids : list Z)
    (upstream : list Tensor.vec) :
  table_ok e ->
  exists r,
    nth_error (Embedding.weight (Embedding.sgd_step lr clip e (Embedding.grad e ids upstream))) 0
      = Some r /\
    Tensor.veq r (Tensor.zeros (Embedding.embedding_dim e)).
Proof.
  intros (Hp & Hlen & _ & r0 & H0 & Hz).
  assert (0 < Embedding.num_embeddings e)%nat as Hn.
  { rewrite <- Hlen. destruct (Embedding.weight e); [discriminate | cbn; lia]. }
  pose proof (grad_padding_row e ids upstream Hp Hn) as Hg.
  cbn. destruct (Embedding.weight e) as [| w ws]; [discriminate |].
  destruct (Embedding.grad e ids upstream) as [| g gs]; [discriminate |].
  cbn in *. injection H0 as ->. injection Hg as ->.
  eexists; split; [reflexivity |]. apply zero_row_step, Hz.
Qed.

(** ** Batch assembly with positive and negative sequences *)

Example scenario_models_are_constructed :
  DanModel.__init__ Scenario.rng "dan" CrossEntropyLoss 4 2 2 2 (1 # 2) ""
    = inr Scenario.classifier /\
  DanModel.__init__ Scenario.rng "dan" (make_criterion "MarginRankingLoss") 4 7 2 2 (1 # 2) ""
    = inr Scenario.ranker.
Proof. split; reflexivity. Qed.

Example first_example_shape :
  Scenario.first_example =
    inr {| Example.tokens := [2; 1; 4];
           Example.answer := "London";
           Example.positive := Some [[6; 1; 7; 8]];
           Example.negative := Some [[3; 1; 5]] |}.
Proof. vm_compute. reflexivity. Qed.

Example first_example_batch_fails :
  (Scenario.first_example ≫= fun ex => batchify_with_contrastive [ex]) =
    inl (Py.RuntimeError "The size of tensor a must match the size of tensor b").
Proof. vm_compute. reflexivity. Qed.

(** C3: a ranking example whose positive sequence is longer than its
    question.  [longest_example_length] takes the length of the 2-D positive
    tensor, which is its number of rows, so the batch width is 2, the width
    of the question; copying the three positive ids into a row of that width
    raises, and no batch is assembled. *)
Theorem batchify_with_contrastive_longer_positive :
  batch_max_length [Scenario.longer_positive] = inr 2 /\
  batchify_with_contrastive [Scenario.longer_positive] =
    inl (Py.RuntimeError "The size of tensor a must match the size of tensor b").
Proof. split; reflexivity. Qed.

Example batchify_with_contrastive_shorter_positive :
  batchify_with_contrastive
    [ {| Example.tokens := [5; 6; 7]; Example.answer := "London";
         Example.positive := Some [[8; 9]]; Example.negative := Some [[1]] |} ] =
  inr {| question_text := [[5; 6; 7]]; question_len := [3];
         batch_answers := ["London"]; ex_indices := [0%nat];
         pos_text := Some [[8; 9; 0]]; pos_len := Some [2];
         neg_text := Some [[1; 0; 0]]; neg_len := Some [1] |}.
Proof. reflexivity. Qed.

Example pooled_sample :
  pooled Scenario.classifier [[1; 2]; [3]; []] 3
  = inr [[(1 + 3 + 0) / 2; (2 + 4 + 0) / 2]; [(-1 + 0 + 0) / 1; (1 + 0 + 0) / 1];
         [(0 + 0 + 0) / 1; (0 + 0 + 0) / 1]]%Q.
Proof. reflexivity. Qed.

(** Without the zero padding row the pooling step would not be a masked
    mean: on vectors that are not zero beyond the true length, [average]
    sums every position. *)
Example average_sums_every_position :
  DanModel.average Scenario.classifier [[[1]; [2]; [5]]]%Q [2] = inr [[(1 + 2 + 5) / 2]]%Q.
Proof. reflexivity. Qed.


(** ** The ranking loss *)

Lemma sum_Qeq (l l' : list Q) :
  Forall2 Qeq l l' -> (fold_right Qplus 0 l == fold_right Qplus 0 l')%Q.
Proof.
  induction 1 as [| x y l l' Hxy _ IH]; cbn; [reflexivity |].
  rewrite Hxy, IH. reflexivity.
Qed.

Lemma mean_Qeq (l l' : list Q) : Forall2 Qeq l l' -> (mean l == mean l')%Q.
Proof.
  intros H. unfold mean. rewrite (sum_Qeq l l' H), (Forall2_length _ _ _ H). reflexivity.
Qed.

Lemma sum_zero (l : list Q) : Forall (fun x => x == 0)%Q l -> (fold_right Qplus 0 l == 0)%Q.
Proof.
  induction 1 as [| x l Hx _ IH]; cbn; [reflexivity |].
  rewrite Hx, IH. reflexivity.
Qed.

Lemma mean_zero (l : list Q) : Forall (fun x => x == 0)%Q l -> (mean l == 0)%Q.
Proof.
  intros H. unfold mean. rewrite (sum_zero l H). unfold Qdiv. ring.
Qed.

(** The criterion called as [criterion(neg_dist, pos_dist, ones)] is the mean
    of the rows' hinge terms [max(0, margin + pos - neg)]. *)
Lemma margin_ranking_terms (margin : Q) (pos_dist neg_dist : list Q) :
  Forall2 Qeq
    (zip_with (fun p y => margin_ranking_term margin (fst p) (snd p) y)
              (zip neg_dist pos_dist) (repeat 1%Q (length pos_dist)))
    (zip_with (fun dp dn => Qmax 0 (margin + dp - dn)%Q) pos_dist neg_dist).
Proof.
  revert neg_dist; induction pos_dist as [| dp pos_dist IH]; intros [| dn neg_dist]; cbn;
    try constructor.
  - unfold margin_ranking_term. cbn.
    apply Q.max_compat; [reflexivity | ring].
  - apply IH.
Qed.

Lemma hinge_zero (margin : Q) (pos_dist neg_dist : list Q) :
  Forall2 (fun dp dn => margin + dp <= dn)%Q pos_dist neg_dist ->
  Forall (fun x => x == 0)%Q
    (zip_with (fun dp dn => Qmax 0 (margin + dp - dn)%Q) pos_dist neg_dist).
Proof.
  induction 1 as [| dp dn pos_dist neg_dist H _ IH]; cbn; constructor; [| exact IH].
  apply Q.max_l. apply (Qplus_le_l _ _ dn). ring_simplify. exact H.
Qed.

Section RankingLoss.
Variable num : Numeric.
Variable model : DanModel.t.
Variable parameters : Parameters.
Variables mask_a mask_p mask_n : list (list bool).
Variables example positive negative : list (list Z).
Variables example_length positive_length negative_length : list Z.
Variables answers answer_lookup : list string.
Variables anchor_rep positive_rep negative_rep : Tensor.mat.

Hypothesis ranking_mode : dan_guesser_criterion parameters = "MarginRankingLoss".
Hypothesis built : DanModel.criterion model = make_criterion (dan_guesser_criterion parameters).
Hypothesis anchor_pass :
  DanModel.forward model mask_a example example_length = inr anchor_rep.
Hypothesis positive_pass :
  DanModel.forward model mask_p positive positive_length = inr positive_rep.
Hypothesis negative_pass :
  DanModel.forward model mask_n negative negative_length = inr negative_rep.

Let pos_dist := pairwise_distance num anchor_rep positive_rep.
Let neg_dist := pairwise_distance num anchor_rep negative_rep.

Lemma batch_step_ranking_value :
  DanGuesser.batch_step num model mask_a mask_p mask_n example example_length
    (Some positive) (Some positive_length) (Some negative) (Some negative_length)
    answers answer_lookup
  = inr (margin_ranking_loss 0 neg_dist pos_dist (repeat 1%Q (length pos_dist))).
Proof.
  unfold DanGuesser.batch_step. rewrite built, ranking_mode. cbn [make_criterion String.eqb].
  change (make_criterion "MarginRankingLoss") with (MarginRankingLoss 0).
  cbv iota beta.
  rewrite anchor_pass, bind_inr_l. cbn [QuestionData.attr]. rewrite !bind_ret_l.
  rewrite positive_pass, bind_inr_l, !bind_ret_l.
  rewrite negative_pass, bind_inr_l. reflexivity.
Qed.

End RankingLoss.


(** With a margin above 0, which the module never configures, equal positive
    and negative distances in every row of a non-empty batch give a loss equal
    to the margin. *)
Lemma margin_ranking_loss_equal_distances (margin : Q) (pos_dist neg_dist : list Q) :
  pos_dist <> [] ->
  Forall2 Qeq pos_dist neg_dist ->
  (0 <= margin)%Q ->
  (margin_ranking_loss margin neg_dist pos_dist (repeat 1%Q (length pos_dist)) == margin)%Q.
Proof.
  intros Hne Heq Hm.
  rewrite (mean_Qeq _ _ (margin_ranking_terms margin pos_dist neg_dist)).
  assert (Forall (fun x => x == margin)%Q
            (zip_with (fun dp dn => Qmax 0 (margin + dp - dn)%Q) pos_dist neg_dist)) as Hall.
  { clear Hne. induction Heq as [| dp dn pos_dist neg_dist H _ IH]; cbn; constructor;
      [| exact IH].
    rewrite H. assert (margin + dn - dn == margin)%Q as -> by ring.
    apply Q.max_r, Hm. }
  assert (length (zip_with (fun dp dn => Qmax 0 (margin + dp - dn)%Q) pos_dist neg_dist)
          <> 0%nat) as Hlen.
  { rewrite length_zip_with, <- (Forall2_length _ _ _ Heq).
    destruct pos_dist; [congruence | cbn; lia]. }
  revert Hall Hlen.
  generalize (zip_with (fun dp dn => Qmax 0 (margin + dp - dn)%Q) pos_dist neg_dist).
  intros l Hall Hlen. unfold mean.
  assert (fold_right Qplus 0 l == inject_Z (Z.of_nat (length l)) * margin)%Q as ->.
  { clear Hlen. induction Hall as [| x l Hx _ IH]; [cbn; ring |].
    cbn [fold_right length]. rewrite Hx, IH, Nat2Z.inj_succ. unfold Z.succ.
    rewrite inject_Z_plus. ring. }
  field. intros H0. apply Hlen.
  unfold Qeq in H0. cbn in H0. lia.
Qed.


Example step_loss_equal_distances :
  exists loss, Step.loss_equal_distances = inr loss /\ (loss == 0)%Q.
Proof. eexists. split; [vm_compute; reflexivity | reflexivity]. Qed.


(** ** Evaluation *)

Lemma number_errors_spec (model : DanModel.t) (train_data : QuestionData.t) (b : Batch) (e : Z) :
  errors_of model train_data b e ->
  number_errors (question_text b) (question_len b) (batch_answers b) train_data model = inr e.
Proof.
  unfold errors_of, number_errors.
  destruct (DanModel.criterion model) as [margin | | name].
  - intros (reps & nearest & Hf & Hn & ->).
    rewrite Hf, bind_inr_l, Hn, bind_inr_l. reflexivity.
  - intros (logits & predicted & idx & gold & Hf & Hp & Hi & Hg & Hlen & ->).
    rewrite Hf, bind_inr_l, Hp, bind_inr_l, Hi. cbn [QuestionData.attr].
    rewrite bind_ret_l, Hg, bind_inr_l.
    unfold count_ne. rewrite Hlen, Nat.eqb_refl. reflexivity.
  - intros ->. reflexivity.
Qed.

Lemma evaluate_loop_spec (model : DanModel.t) (train_data : QuestionData.t)
    (data_loader : list Batch) (errs : list Z) :
  Forall2 (errors_of model train_data) data_loader errs ->
  forall num_examples error,
    evaluate_loop data_loader model train_data num_examples error =
      inr (num_examples + total_examples data_loader, error + sum_Z errs).
Proof.
  induction 1 as [| b e data_loader errs Hb _ IH]; intros n err; cbn.
  - unfold total_examples, sum_Z. cbn. rewrite !Z.add_0_r. reflexivity.
  - rewrite (number_errors_spec _ _ _ _ Hb), bind_inr_l, IH.
    unfold total_examples, sum_Z. cbn [map fold_right]. do 2 f_equal; lia.
Qed.

(** C8: when the error count of every batch is defined, [evaluate] returns
    [1 - errors / total_examples] on a loader with at least one example,
    errors being the classification or ranking mismatches of [errors_of]; on
    a loader without examples, and on no loader at all, it raises
    [ZeroDivisionError]. *)
Theorem evaluate_accuracy (model : DanModel.t) (train_data : QuestionData.t)
    (data_loader : list Batch) (errs : list Z) :
  Forall2 (errors_of (DanModel.eval model) train_data) data_loader errs ->
  (total_examples data_loader <> 0 ->
   evaluate data_loader model train_data =
     inr (1 - inject_Z (sum_Z errs) / inject_Z (total_examples data_loader))%Q) /\
  (total_examples data_loader = 0 ->
   evaluate data_loader model train_data = inl Py.ZeroDivisionError) /\
  evaluate [] model train_data = inl Py.ZeroDivisionError.
Proof.
  intros H. unfold evaluate.
  rewrite (evaluate_loop_spec _ _ _ _ H), bind_inr_l. cbn [fst snd].
  rewrite !Z.add_0_l. unfold true_div.
  split; [| split].
  - intros Hne. rewrite (proj2 (Z.eqb_neq _ _) Hne). reflexivity.
  - intros ->. reflexivity.
  - reflexivity.
Qed.

(** ** Construction of the model *)

Lemma init_inr (rng : DanModel.Init) (model_filename : string) (criterion : Criterion)
    (vocab_size : nat) (n_answers : Z) (emb_dim n_hidden_units : nat) (nn_dropout : Q)
    (initialization : string) (m : DanModel.t) :
  DanModel.__init__ rng model_filename criterion vocab_size n_answers emb_dim
    n_hidden_units nn_dropout initialization = inr m ->
  (0 < vocab_size)%nat /\
  exists out num_answers,
    second_layer criterion n_answers n_hidden_units = Some (out, num_answers) /\
    m = constructed rng model_filename criterion vocab_size num_answers emb_dim
          n_hidden_units out nn_dropout.
Proof.
  unfold DanModel.__init__, Embedding.new. intros H.
  apply bind_inr in H as (e & He & H).
  apply bind_inr in He as ([] & Hassert & He). injection He as <-.
  unfold Py.assert in Hassert.
  destruct (Nat.ltb_spec 0 vocab_size) as [Hv | ]; [| discriminate].
  split; [exact Hv |].
  apply bind_inr in H as (second & Hsecond & H).
  apply initialize_parameters_inr in H as ->.
  destruct criterion as [margin | | name]; cbn in Hsecond; [| | discriminate];
    injection Hsecond as <-; eexists _, _; split; reflexivity.
Qed.

Lemma init_returns (rng : DanModel.Init) (model_filename : string) (criterion : Criterion)
    (vocab_size : nat) (n_answers num_answers : Z) (emb_dim n_hidden_units out : nat)
    (nn_dropout : Q) :
  (0 < vocab_size)%nat ->
  second_layer criterion n_answers n_hidden_units = Some (out, num_answers) ->
  DanModel.__init__ rng model_filename criterion vocab_size n_answers emb_dim
    n_hidden_units nn_dropout ""
  = inr (constructed rng model_filename criterion vocab_size num_answers emb_dim
           n_hidden_units out nn_dropout).
Proof.
  intros Hv Hs. unfold DanModel.__init__, Embedding.new.
  rewrite (proj2 (Nat.ltb_lt _ _) Hv). rewrite assert_true_bind, bind_ret_l.
  destruct criterion as [margin | | name]; cbn in Hs; [| | discriminate];
    injection Hs as <- <-; reflexivity.
Qed.

Lemma make_criterion_name (c : Criterion) (n_answers num_answers : Z) (n_hidden_units out : nat)
    (name : string) :
  c = make_criterion name ->
  second_layer c n_answers n_hidden_units = Some (out, num_answers) ->
  make_criterion (criterion_name c) = c.
Proof.
  intros -> Hs. unfold make_criterion in *.
  destruct (String.eqb name "MarginRankingLoss"); [reflexivity |].
  destruct (String.eqb name "CrossEntropyLoss"); [reflexivity | discriminate].
Qed.

Lemma second_layer_reload (c : Criterion) (n_answers num_answers : Z) (n_hidden_units out : nat) :
  second_layer c n_answers n_hidden_units = Some (out, num_answers) ->
  second_layer c num_answers n_hidden_units = Some (out, num_answers).
Proof.
  destruct c; cbn; intros [= <- <-]; reflexivity.
Qed.

(** ** Reloading the saved parameters *)

Lemma reload_model (rng rng' : DanModel.Init) (parameters : Parameters) (num_classes : Z)
    (vocab_size : nat) (m0 m : DanModel.t) :
  initialize_model rng parameters num_classes vocab_size = inr m0 ->
  trained_from m0 m ->
  exists m1 m2,
    DanModel.__init__ rng' (dan_guesser_filename parameters)
      (make_criterion (criterion_name (DanModel.criterion m)))
      (DanModel.vocab_size m) (DanModel.num_answers m) (DanModel.emb_dim m)
      (DanModel.n_hidden_units m) (DanModel.nn_dropout m) "" = inr m1 /\
    DanGuesser.load_state_dict m1 (DanGuesser.state_dict m) = inr m2 /\
    DanModel.eval m2 = DanModel.eval m.
Proof.
  unfold initialize_model. intros Hinit Htf.
  apply init_inr in Hinit as (Hv & out & na & Hsecond & ->).
  destruct Htf as (H1 & H2 & H3 & H4 & H5 & H6 & H7 & H8 & H9 & H10 & H11 & H12 & H13
                   & H14 & S1 & S2 & S3 & S4 & S5).
  cbn in H1, H2, H3, H4, H5, H6, H7, H8, H9, H10, H11, H12, H13, H14.
  rewrite H6, H2, H3, H4, H5, H7.
  rewrite (make_criterion_name _ _ _ _ _ _ eq_refl Hsecond).
  eexists _, _. split; [| split].
  - apply init_returns; [exact Hv | eapply second_layer_reload, Hsecond].
  - unfold DanGuesser.load_state_dict, DanGuesser.state_dict.
    cbn [constructed DanModel.embeddings DanModel.linear1 DanModel.linear2
         Embedding.num_embeddings Embedding.embedding_dim Linear.new Linear.in_features
         Linear.out_features DanGuesser.embeddings_weight DanGuesser.linear1_weight
         DanGuesser.linear1_bias DanGuesser.linear2_weight DanGuesser.linear2_bias].
    rewrite H8, H9 in S1. rewrite H11, H12 in S2. rewrite H12 in S3.
    rewrite H13, H14 in S4. rewrite H14 in S5.
    rewrite S1, S2, S4, S3, S5, !Nat.eqb_refl. cbn [andb].
    rewrite bind_ret_l. reflexivity.
  - destruct m as [f vs ed nh dr c nans [en edim ep ew] [l1i l1o l1w l1b] [l2i l2o l2w l2b] tr].
    cbn in *. subst. reflexivity.
Qed.

Lemma paths_differ (g : DanGuesser.t) : DanGuesser.model_path g <> DanGuesser.data_path g.
Proof.
  unfold DanGuesser.model_path, DanGuesser.data_path.
  induction (DanGuesser.filename g) as [| c f IH]; cbn; [discriminate |].
  intros [= H]. exact (IH H).
Qed.

Lemma fresh_paths (g : DanGuesser.t) :
  DanGuesser.filename g = dan_guesser_filename (DanGuesser.params g) ->
  DanGuesser.model_path
    (DanGuesser.__init__ (DanGuesser.word_tokenize g) (DanGuesser.params g))
    = DanGuesser.model_path g /\
  DanGuesser.data_path
    (DanGuesser.__init__ (DanGuesser.word_tokenize g) (DanGuesser.params g))
    = DanGuesser.data_path g.
Proof.
  intros H. unfold DanGuesser.model_path, DanGuesser.data_path. cbn. rewrite H.
  split; reflexivity.
Qed.

Lemma refresh_index_inr (td0 td : QuestionData.t) :
  QuestionData.refresh_index td0 = inr td ->
  exists R,
    QuestionData.representations td0 = Some R /\
    forallb (fun r => Nat.eqb (length r) (QuestionData.dimension td0)) R = true /\
    td = QuestionData.set_lookup td0
           (Some {| IndexFlatL2.d := QuestionData.dimension td0; IndexFlatL2.xb := R |}).
Proof.
  unfold QuestionData.refresh_index, IndexFlatL2.add. intros H.
  apply bind_inr in H as (R & HR & H).
  destruct (QuestionData.representations td0) as [R' |]; [| discriminate].
  injection HR as ->.
  apply bind_inr in H as (l & Hl & H). injection H as <-.
  apply bind_inr in Hl as ([] & Hassert & Hl). injection Hl as <-.
  unfold Py.assert in Hassert. cbn in Hassert.
  destruct (forallb (fun r : list Q => Nat.eqb (length r) (QuestionData.dimension td0)) R)
    eqn:Hw; [| discriminate].
  exists R. split; [reflexivity | split; [exact Hw | reflexivity]].
Qed.

Lemma refresh_index_returns (td : QuestionData.t) (R : Tensor.mat) :
  QuestionData.representations td = Some R ->
  forallb (fun r => Nat.eqb (length r) (QuestionData.dimension td)) R = true ->
  QuestionData.refresh_index td =
    inr (QuestionData.set_lookup td
           (Some {| IndexFlatL2.d := QuestionData.dimension td; IndexFlatL2.xb := R |})).
Proof.
  intros HR Hw. unfold QuestionData.refresh_index, IndexFlatL2.add. rewrite HR.
  cbn [QuestionData.attr IndexFlatL2.new IndexFlatL2.d IndexFlatL2.xb].
  rewrite bind_ret_l, Hw, assert_true_bind, !bind_ret_l. reflexivity.
Qed.

(** Two guessers that agree on what [__call__] reads give the same guesses. *)
Lemma call_congr (g1 g2 : DanGuesser.t) (m1 m2 : DanModel.t) (td1 td2 : QuestionData.t) :
  DanGuesser.dan_model g1 = Some m1 -> DanGuesser.dan_model g2 = Some m2 ->
  DanModel.eval m1 = DanModel.eval m2 ->
  DanGuesser.word_tokenize g1 = DanGuesser.word_tokenize g2 ->
  DanGuesser.params g1 = DanGuesser.params g2 ->
  DanGuesser.training_data g1 = Some td1 -> DanGuesser.training_data g2 = Some td2 ->
  QuestionData.vocab td1 = QuestionData.vocab td2 ->
  QuestionData.use_contrastive_examples td1 = QuestionData.use_contrastive_examples td2 ->
  (QuestionData.use_contrastive_examples td2 = true ->
   QuestionData.lookup td1 = QuestionData.lookup td2 /\
   QuestionData.answers td1 = QuestionData.answers td2) ->
  (QuestionData.use_contrastive_examples td2 = false ->
   QuestionData.answer_indices td1 = QuestionData.answer_indices td2) ->
  forall question n_guesses,
    DanGuesser.__call__ g1 question n_guesses = DanGuesser.__call__ g2 question n_guesses.
Proof.
  intros Hm1 Hm2 Hev Htok Hp Ht1 Ht2 Hv Hc Hrank Hce question n_guesses.
  unfold DanGuesser.__call__, QuestionData.get_nearest.
  rewrite Hm1, Hm2, Ht1, Ht2. cbn [QuestionData.attr]. cbv beta iota zeta.
  rewrite !bind_ret_l. rewrite Hev, Htok, Hp, Hv, Hc.
  destruct (QuestionData.use_contrastive_examples td2).
  - destruct (Hrank eq_refl) as [-> ->]. reflexivity.
  - rewrite (Hce eq_refl). reflexivity.
Qed.

Lemma reload_predicts (rng : DanModel.Init) (g : DanGuesser.t) (m : DanModel.t)
    (td : QuestionData.t) (fs : gmap string DanGuesser.File) :
  trained g m td ->
  (QuestionData.use_contrastive_examples td = false ->
   fs !! DanGuesser.data_path g = None) ->
  exists fs' reloaded,
    DanGuesser.save g fs = inr fs' /\
    DanGuesser.load rng
      (DanGuesser.__init__ (DanGuesser.word_tokenize g) (DanGuesser.params g)) fs'
      = inr reloaded /\
    forall question n_guesses,
      DanGuesser.__call__ reloaded question n_guesses =
      DanGuesser.__call__ g question n_guesses.
Proof.
  intros [Hm Htd Hfn (rng0 & nc & vs & m0 & Hinit & Htf) Hc Hd Hidx] Hstale.
  destruct (reload_model rng0 rng _ _ _ _ _ Hinit Htf) as (m1 & m2 & Hm1 & Hm2 & Hev).
  destruct (fresh_paths g Hfn) as [Hmp Hdp].
  pose proof (paths_differ g) as Hneq.
  unfold DanGuesser.save, DanGuesser.load.
  rewrite Hm, Htd, Hmp, Hdp. cbn [QuestionData.attr]. rewrite bind_ret_l.
  destruct (QuestionData.use_contrastive_examples td) eqn:Hcon.
  - destruct (Hidx eq_refl) as ((td0 & Hr) & [qs Hqs] & [ans Hans]).
    apply refresh_index_inr in Hr as (R & HR & Hw & Htd0).
    rewrite Hqs, Hans. cbn [QuestionData.attr]. rewrite !bind_ret_l.
    eexists _, _. split; [reflexivity |].
    rewrite (lookup_insert_ne _ (DanGuesser.data_path g) (DanGuesser.model_path g))
      by (intros H; apply Hneq; symmetry; exact H).
    rewrite !lookup_insert_eq. rewrite bind_ret_l.
    cbn [DanGuesser.ck_criterion DanGuesser.ck_vocab_size DanGuesser.ck_num_answers
         DanGuesser.ck_emb_dim DanGuesser.ck_n_hidden_units DanGuesser.ck_nn_dropout
         DanGuesser.model_state_dict DanGuesser.params DanGuesser.__init__].
    rewrite Hm1, bind_inr_l, Hm2, bind_inr_l.
    cbv zeta.
    erewrite refresh_index_returns.
    + rewrite bind_inr_l. split; [reflexivity |].
      eapply (call_congr _ g (DanModel.eval m2) m _ td).
      * reflexivity.
      * exact Hm.
      * transitivity (DanModel.eval m2); [reflexivity | exact Hev].
      * reflexivity.
      * reflexivity.
      * reflexivity.
      * exact Htd.
      * reflexivity.
      * cbn. rewrite Hcon. symmetry. exact Hc.
      * intros _. cbn. subst td. cbn in *. rewrite Hd, Hans. split; reflexivity.
      * intros H. rewrite Hcon in H. discriminate H.
    + cbn. subst td. cbn. exact HR.
    + cbn. subst td. cbn. exact Hw.
  - eexists _, _. split; [reflexivity |].
    rewrite (lookup_insert_ne _ (DanGuesser.model_path g) (DanGuesser.data_path g))
      by exact Hneq.
    rewrite (Hstale eq_refl).
    rewrite !lookup_insert_eq. rewrite bind_ret_l.
    cbn [DanGuesser.ck_criterion DanGuesser.ck_vocab_size DanGuesser.ck_num_answers
         DanGuesser.ck_emb_dim DanGuesser.ck_n_hidden_units DanGuesser.ck_nn_dropout
         DanGuesser.model_state_dict DanGuesser.params DanGuesser.__init__].
    rewrite Hm1, bind_inr_l, Hm2, bind_inr_l.
    cbv zeta. rewrite bind_ret_l. split; [reflexivity |].
    eapply (call_congr _ g (DanModel.eval m2) m _ td).
    + reflexivity.
    + exact Hm.
    + transitivity (DanModel.eval m2); [reflexivity | exact Hev].
    + reflexivity.
    + reflexivity.
    + reflexivity.
    + exact Htd.
    + reflexivity.
    + cbn. rewrite Hcon. symmetry. exact Hc.
    + intros H. rewrite Hcon in H. discriminate H.
    + intros _. reflexivity.
Qed.


Example ranking_guess :
  DanGuesser.__call__ Session.ranking_guesser "capital of france" 1
  = inr [{[ "guess" := "London" ]}].
Proof. vm_compute. reflexivity. Qed.

Example classification_guesses :
  DanGuesser.__call__ Session.classification_guesser "city of light" 5
  = inr [{[ "guess" := "London" ]}; {[ "guess" := "Paris" ]}].
Proof. vm_compute. reflexivity. Qed.

Lemma ranking_session_trained :
  trained Session.ranking_guesser Scenario.ranker Session.store.
Proof.
  split; try reflexivity.
  - exists Scenario.rng, 7, 4%nat, Scenario.ranker. split; [reflexivity |].
    unfold trained_from, shapes_ok. repeat split; reflexivity.
  - intros _. repeat split.
    + exists Session.store_before_refresh. reflexivity.
    + eexists; reflexivity.
    + eexists; reflexivity.
Qed.

Lemma classification_session_trained :
  trained Session.classification_guesser Scenario.classifier Session.labels.
Proof.
  split; try reflexivity.
  - exists Scenario.rng, 2, 4%nat, Scenario.classifier. split; [reflexivity |].
    unfold trained_from, shapes_ok. repeat split; reflexivity.
  - intros H. discriminate H.
Qed.


Example classification_reload :
  exists fs' reloaded,
    DanGuesser.save Session.classification_guesser ∅ = inr fs' /\
    DanGuesser.load Scenario.rng
      (DanGuesser.__init__ Sample.word_tokenize (Sample.parameters "CrossEntropyLoss")) fs'
      = inr reloaded /\
    forall question n_guesses,
      DanGuesser.__call__ reloaded question n_guesses =
      DanGuesser.__call__ Session.classification_guesser question n_guesses.
Proof.
  apply (reload_predicts Scenario.rng Session.classification_guesser Scenario.classifier
           Session.labels ∅ classification_session_trained).
  intros _. reflexivity.
Qed.

Lemma evaluate_accuracy_witness :
  Forall2 (errors_of (DanModel.eval Scenario.classifier) Session.labels)
    [Session.dev_batch] [1] /\
  (total_examples [Session.dev_batch] <> 0 ->
   evaluate [Session.dev_batch] Scenario.classifier Session.labels =
     inr (1 - inject_Z (sum_Z [1%Z]) / inject_Z (total_examples [Session.dev_batch]))%Q) /\
  (total_examples [Session.dev_batch] = 0 ->
   evaluate [Session.dev_batch] Scenario.classifier Session.labels
     = inl Py.ZeroDivisionError) /\
  evaluate [] Scenario.classifier Session.labels = inl Py.ZeroDivisionError.
Proof.
  assert (Forall2 (errors_of (DanModel.eval Scenario.classifier) Session.labels)
            [Session.dev_batch] [1]) as H.
  { constructor; [| constructor]. unfold errors_of. cbn [DanModel.criterion DanModel.eval
      DanModel.set_training Scenario.classifier].
    eexists _, [0; 0]%nat, ["London"; "Paris"], [0; 1]%nat.
    repeat split; reflexivity. }
  split; [exact H |].
  apply (evaluate_accuracy Scenario.classifier Session.labels [Session.dev_batch] [1] H).
Defined.

Example evaluate_sample :
  evaluate [Session.dev_batch] Scenario.classifier Session.labels = inr (1 - 1 / 2)%Q.
Proof. reflexivity. Qed.

Example evaluate_ranking_sample :
  evaluate [Session.dev_batch] Scenario.ranker Session.store = inr (1 - 1 / 2)%Q.
Proof. reflexivity. Qed.

(** ** Id 0: padding and unknown tokens *)

Lemma veq_sym (u v : Tensor.vec) : Tensor.veq u v -> Tensor.veq v u.
Proof. induction 1; constructor; [symmetry; assumption | assumption]. Qed.

Lemma sum_rows_fold (d : nat) (X : list Tensor.vec) :
  Forall (fun r => length r = d) X ->
  Tensor.veq (Tensor.sum_rows d X) (fold_left Tensor.vadd X (Tensor.zeros d)).
Proof.
  destruct X as [| r X]; cbn; intros H; [apply veq_refl |].
  apply Forall_cons in H as [Hr _].
  apply fold_vadd_veq, veq_sym, vadd_zero_l. rewrite Hr. apply veq_refl.
Qed.

Lemma specials_first (iterator : list (list string)) (max_tokens cutoff : Z) :
  Vocab.get (Vocab.build_vocab_from_iterator iterator ["<unk>"] max_tokens cutoff) "<unk>"
  = inr 0%nat.
Proof. reflexivity. Qed.

Lemma build_vocab_unk (self self' : QuestionData.t) (questions : list (gmap string string)) :
  QuestionData.build_vocab self questions = inr self' ->
  exists v,
    QuestionData.vocab self' = Some v /\
    Vocab.get v "<unk>" = inr 0%nat /\
    forall token, Vocab.stoi v token = None -> Vocab.get v token = inr 0%nat.
Proof.
  unfold QuestionData.build_vocab. intros H.
  apply bind_inr in H as (texts & _ & H).
  apply bind_inr in H as (unk & Hunk & H).
  apply bind_inr in H as ([] & _ & H). injection H as <-.
  rewrite specials_first in Hunk. injection Hunk as <-.
  eexists. split; [reflexivity |]. split; [reflexivity |].
  intros token Htok. unfold Vocab.get. rewrite Htok. reflexivity.
Qed.

Lemma padded_beyond (width : nat) (ids : list Z) (j : nat) :
  (length ids <= j < length (padded width ids))%nat ->
  nth_error (padded width ids) j = Some 0.
Proof.
  unfold padded. rewrite length_app, repeat_length. intros [H1 H2].
  rewrite nth_error_app2 by exact H1.
  apply nth_error_repeat. lia.
Qed.

Section Unknown.
Variable model : DanModel.t.
Hypothesis Hok : encoder_ok model.

Let table := DanModel.embeddings model.
Let d := DanModel.emb_dim model.

Lemma fold_known (ids : list Z) :
  forall (X : list Tensor.vec) (acc : Tensor.vec),
    Py.mapM (Embedding.row table) ids = inr X ->
    length acc = d ->
    exists K,
      Py.mapM (Embedding.row table) (known ids) = inr K /\
      Tensor.veq (fold_left Tensor.vadd X acc) (fold_left Tensor.vadd K acc).
Proof.
  induction ids as [| id ids IH]; intros X acc HX Hacc; cbn in HX |- *.
  - injection HX as <-. exists []. split; [reflexivity | apply veq_refl].
  - destruct (Embedding.row table id) as [e | r] eqn:Hr; cbn in HX; [discriminate |].
    destruct (Py.mapM (Embedding.row table) ids) as [e | X'] eqn:HX'; cbn in HX;
      [discriminate |].
    injection HX as <-. cbn [fold_left].
    pose proof (row_width model Hok id r Hr) as Hw. fold d in Hw.
    unfold known. cbn [List.filter]. fold (known ids).
    destruct (Z.eqb_spec id 0) as [-> | Hne]; cbn [negb].
    + destruct (IH X' acc eq_refl Hacc) as (K & HK & Hveq).
      exists K. split; [exact HK |].
      eapply veq_trans; [| exact Hveq].
      apply fold_vadd_veq, vadd_zero_r.
      destruct (padding_row model Hok) as (r0 & Hr0 & Hz).
      fold table in Hr0. rewrite Hr in Hr0. injection Hr0 as <-.
      rewrite Hacc. exact Hz.
    + destruct (IH X' (Tensor.vadd acc r) eq_refl) as (K & HK & Hveq).
      { rewrite vadd_length; congruence. }
      exists (r :: K). cbn [Py.mapM]. rewrite Hr, HK. split; [reflexivity | exact Hveq].
Qed.

Lemma pooled_known (width : nat) (ids : list Z) (X : list Tensor.vec) :
  Py.mapM (Embedding.row table) ids = inr X ->
  exists K avg,
    Py.mapM (Embedding.row table) (known ids) = inr K /\
    pooled model [ids] width = inr [avg] /\
    Tensor.veq avg
      (Tensor.vdiv (Tensor.sum_rows d K) (Qmax (inject_Z (Z.of_nat (length ids))) 1)).
Proof.
  intros HX.
  assert (Forall (fun r => length r = d) X) as HwX
    by (eapply mapM_Forall; [| exact HX]; intros id r; apply (row_width model Hok)).
  destruct (fold_known ids X (Tensor.zeros d) HX (zeros_length d)) as (K & HK & Hveq).
  assert (Forall (fun r => length r = d) K) as HwK
    by (eapply mapM_Forall; [| exact HK]; intros id r; apply (row_width model Hok)).
  destruct (pooled_batch model Hok width [ids] [X]) as (out & Hout & Hall).
  { unfold Embedding.call. cbn. fold table. rewrite HX. reflexivity. }
  inversion Hall as [| ? avg ? out' Havg Hnil]; subst. inversion Hnil; subst.
  exists K, avg. split; [exact HK | split; [exact Hout |]].
  eapply veq_trans; [exact Havg |].
  unfold pooled_row. fold d. rewrite (mapM_inr_length _ _ _ HX).
  apply vdiv_veq; [| reflexivity].
  eapply veq_trans; [apply sum_rows_fold, HwX |].
  eapply veq_trans; [exact Hveq |].
  apply veq_sym, sum_rows_fold, HwK.
Qed.

End Unknown.


Example unknown_token_counts_in_divisor :
  pooled Scenario.classifier [[1; 0; 2]] 3 = inr [[(1 + 0 + 3) / 3; (2 + 0 + 4) / 3]]%Q /\
  pooled Scenario.classifier [[1; 2]] 3 = inr [[(1 + 3 + 0) / 2; (2 + 4 + 0) / 2]]%Q.
Proof. split; reflexivity. Qed.

Example sample_vocabulary :
  (QuestionData.vocab <$>
     QuestionData.build_vocab (Sample.data "CrossEntropyLoss") Sample.train_questions)
  = inr (Some {| Vocab.itos := ["<unk>"; "of"; "capital"; "city"; "england"; "light";
                                "home"; "big"; "ben"; "france"; "eternal"];
                 Vocab.default_index := Some 0%nat |}).
Proof. vm_compute. reflexivity. Qed.

(** ** The nearest stored row *)

Lemma sorted_head {A} (le : A -> A -> bool) (l : list A) :
  (forall a b, le a b = true \/ le b a = true) ->
  (forall a b c, le a b = true -> le b c = true -> le a c = true) ->
  l <> [] ->
  exists x rest,
    sorted le l = x :: rest /\ In x l /\ forall y, In y l -> le x y = true.
Proof.
  intros Htotal Htrans Hne.
  pose proof (sorted_StronglySorted le Htotal Htrans l) as Hs.
  pose proof (sorted_perm le l) as Hp.
  destruct (sorted le l) as [| x rest] eqn:Hl.
  - apply Permutation_nil in Hp. congruence.
  - exists x, rest. split; [reflexivity |]. split.
    + eapply Permutation_in; [exact Hp | left; reflexivity].
    + intros y Hy. apply (Permutation_in _ (Permutation_sym Hp)) in Hy.
      apply StronglySorted_inv in Hs as [_ Hall]. rewrite Forall_forall in Hall.
      destruct Hy as [<- | Hy].
      * destruct (Htotal x x); assumption.
      * apply Hall, list_elem_of_In, Hy.
Qed.

Lemma in_zip_seq {A} (xb : list A) (a i : nat) (r : A) :
  In (i, r) (zip (seq a (length xb)) xb) <->
  (a <= i)%nat /\ nth_error xb (i - a) = Some r.
Proof.
  revert a; induction xb as [| x xb IH]; intros a; cbn.
  - split; [tauto |]. intros [_ H]. destruct (i - a)%nat; discriminate H.
  - rewrite IH. split.
    + intros [[= <- <-] | [Hle Hn]].
      * rewrite Nat.sub_diag. split; [lia | reflexivity].
      * split; [lia |]. replace (i - a)%nat with (S (i - S a)) by lia. exact Hn.
    + intros [Hle Hn]. destruct (Nat.eq_dec a i) as [<- | Hne].
      * rewrite Nat.sub_diag in Hn. injection Hn as <-. left. reflexivity.
      * right. split; [lia |].
        replace (i - a)%nat with (S (i - S a)) in Hn by lia. exact Hn.
Qed.

(** A query for one neighbour in a non-empty index returns the position of a
    stored row at least as close to the query as every stored row. *)
Lemma search_one_nearest (self : IndexFlatL2.t) (q : Tensor.vec) :
  IndexFlatL2.xb self <> [] ->
  exists i r,
    IndexFlatL2.search_one self 1 q = [Z.of_nat i] /\
    nth_error (IndexFlatL2.xb self) i = Some r /\
    forall j r', nth_error (IndexFlatL2.xb self) j = Some r' ->
                 (IndexFlatL2.l2sqr q r <= IndexFlatL2.l2sqr q r')%Q.
Proof.
  intros Hne. unfold IndexFlatL2.search_one.
  set (scored := map (fun p : nat * Tensor.vec => (IndexFlatL2.l2sqr q (snd p), Z.of_nat (fst p)))
                     (zip (seq 0 (length (IndexFlatL2.xb self))) (IndexFlatL2.xb self))).
  destruct (sorted_head (fun a b : Q * Z => Qle_bool (fst a) (fst b)) scored)
    as (x & rest & Hsorted & Hin & Hmin).
  - intros a b. rewrite !Qle_bool_iff. destruct (Qlt_le_dec (fst a) (fst b)) as [H | H];
      [left; apply Qlt_le_weak, H | right; exact H].
  - intros a b c. rewrite !Qle_bool_iff. apply Qle_trans.
  - unfold scored. destruct (IndexFlatL2.xb self); [congruence | discriminate].
  - rewrite Hsorted. cbn.
    apply in_map_iff in Hin as ([i r] & <- & Hir). cbn.
    apply in_zip_seq in Hir as [_ Hir]. rewrite Nat.sub_0_r in Hir.
    exists i, r. split; [reflexivity | split; [exact Hir |]].
    intros j r' Hj.
    assert (In (IndexFlatL2.l2sqr q r', Z.of_nat j) scored) as Hin'.
    { unfold scored. apply in_map_iff. exists (j, r'). split; [reflexivity |].
      apply in_zip_seq. rewrite Nat.sub_0_r. split; [lia | exact Hj]. }
    specialize (Hmin _ Hin'). cbn in Hmin. apply Qle_bool_iff, Hmin.
Qed.

(** * Part V: further properties of the module *)

(** ** More on the exception monad *)

Lemma mapM_inl {A B} (f : A -> Py.t B) (xs : list A) (e : Py.exn) :
  Py.mapM f xs = inl e -> exists x, In x xs /\ f x = inl e.
Proof.
  induction xs as [| x xs IH]; cbn; [discriminate |].
  destruct (f x) as [e' | y] eqn:Hx; cbn.
  - intros [= <-]. exists x. split; [left; reflexivity | exact Hx].
  - destruct (Py.mapM f xs) as [e' | ys]; cbn; [| discriminate].
    intros [= <-]. destruct (IH eq_refl) as (x' & Hin & Hx').
    exists x'. split; [right; exact Hin | exact Hx'].
Qed.

Lemma bind_inl {A B} (m : Py.t A) (k : A -> Py.t B) (e : Py.exn) :
  (m ≫= k) = inl e -> m = inl e \/ exists a, m = inr a /\ k a = inl e.
Proof.
  destruct m as [e' | a]; cbn; intros H; [left; congruence | right; eauto].
Qed.

Lemma mapM_raises {A B} (f : A -> Py.t B) (xs : list A) (x : A) (e : Py.exn) :
  In x xs -> f x = inl e -> exists e', Py.mapM f xs = inl e'.
Proof.
  induction xs as [| y xs IH]; cbn; [tauto |].
  intros [-> | Hin] Hx.
  - rewrite Hx. cbn. eauto.
  - destruct (f y) as [e' | z]; cbn; [eauto |].
    destruct (IH Hin Hx) as (e' & ->). cbn. eauto.
Qed.

Lemma mapM_map_inr {A B} (f : A -> Py.t B) (g : A -> B) (xs : list A) :
  (forall x, In x xs -> f x = inr (g x)) -> Py.mapM f xs = inr (map g xs).
Proof.
  induction xs as [| x xs IH]; cbn; intros H; [reflexivity |].
  rewrite (H x (or_introl eq_refl)). cbn.
  rewrite IH by (intros y Hy; apply H; right; exact Hy). reflexivity.
Qed.

(** ** Batch assembly, the full dictionary *)

Lemma longest_example_length_one_row (ex : Example.t) :
  (0 < length (Example.tokens ex))%nat ->
  one_row (Example.positive ex) -> one_row (Example.negative ex) ->
  Example.longest_example_length ex = inr (Z.of_nat (length (Example.tokens ex))).
Proof.
  intros Hlen Hp Hn. unfold Example.longest_example_length.
  destruct (Example.positive ex) as [p |], (Example.negative ex) as [n |];
    cbn in Hp, Hn; rewrite ?Hp, ?Hn;
    match goal with |- context [Py.assert (0 <? ?m)] =>
      replace m with (Z.of_nat (length (Example.tokens ex))) by lia
    end;
    (assert ((0 <? Z.of_nat (length (Example.tokens ex))) = true) as ->
       by (apply Z.ltb_lt; lia)); reflexivity.
Qed.

Lemma fold_left_max_of_nat (l : list nat) (a : nat) :
  fold_left Z.max (map Z.of_nat l) (Z.of_nat a) =
  Z.of_nat (Nat.max a (fold_right Nat.max 0%nat l)).
Proof.
  revert a; induction l as [| x l IH]; intros a; cbn.
  - f_equal. lia.
  - rewrite <- Nat2Z.inj_max, IH. f_equal. lia.
Qed.

Lemma batch_max_length_questions (batch : list Example.t) :
  batch <> [] ->
  Forall (fun ex => (0 < length (Example.tokens ex))%nat /\
                    one_row (Example.positive ex) /\ one_row (Example.negative ex)) batch ->
  batch_max_length batch = inr (Z.of_nat (longest_question batch)).
Proof.
  intros Hne Hall. unfold batch_max_length.
  rewrite (mapM_map_inr _ (fun ex => Z.of_nat (length (Example.tokens ex)))).
  - rewrite bind_inr_l. destruct batch as [| ex batch]; [congruence |].
    cbn [map py_max]. unfold Py.ret.
    rewrite <- (map_map (fun ex => length (Example.tokens ex)) Z.of_nat).
    rewrite fold_left_max_of_nat. reflexivity.
  - intros ex Hin. rewrite Forall_forall in Hall.
    destruct (Hall ex) as (H1 & H2 & H3); [apply list_elem_of_In; exact Hin |].
    apply longest_example_length_one_row; assumption.
Qed.

Lemma longest_question_ge (batch : list Example.t) :
  Forall (fun ex => (length (Example.tokens ex) <= longest_question batch)%nat) batch.
Proof.
  unfold longest_question. induction batch as [| ex batch IH]; constructor; cbn.
  - lia.
  - eapply Forall_impl; [exact IH |]. cbn. intros x Hx. lia.
Qed.

Lemma padded_length (width : nat) (ids : list Z) :
  (length ids <= width)%nat -> length (padded width ids) = width.
Proof. intros H. unfold padded. rewrite length_app, repeat_length. lia. Qed.

Lemma batchify_examples_only_value (batch : list Example.t) :
  batch <> [] ->
  Forall (fun ex => (0 < length (Example.tokens ex))%nat /\
                    one_row (Example.positive ex) /\ one_row (Example.negative ex)) batch ->
  batchify_examples_only batch =
    inr {| question_text :=
             map (fun ex => padded (longest_question batch) (Example.tokens ex)) batch;
           question_len := map (fun ex => Z.of_nat (length (Example.tokens ex))) batch;
           batch_answers := map Example.answer batch;
           ex_indices := seq 0 (length batch);
           pos_text := None; pos_len := None; neg_text := None; neg_len := None |}.
Proof.
  intros Hne Hall. unfold batchify_examples_only.
  rewrite (batch_max_length_questions batch Hne Hall), bind_inr_l, Nat2Z.id.
  destruct (fill_questions_returns (longest_question batch) batch [] [] [] [] eq_refl eq_refl
              (longest_question_ge batch)) as (st & Hst).
  pose proof (fill_questions_spec (longest_question batch) batch [] [] [] [] st
                eq_refl eq_refl Hst) as [-> _].
  cbn in Hst. rewrite Hst. reflexivity.
Qed.

(** X1: on a non-empty batch of examples that have at least one token each
    (their positive and negative tensors absent or single rows),
    [batchify_examples_only] returns the dictionary whose matrix has one row
    per example, the example's ids followed by zeros up to the length of the
    longest question, together with the true lengths, the answers in batch
    order and the positions 0, 1, ...; every row of the matrix has that
    width. *)
Theorem batchify_examples_only_batch (batch : list Example.t) :
  batch <> [] ->
  Forall (fun ex => (0 < length (Example.tokens ex))%nat /\
                    one_row (Example.positive ex) /\ one_row (Example.negative ex)) batch ->
  let width := longest_question batch in
  batchify_examples_only batch =
    inr {| question_text := map (fun ex => padded width (Example.tokens ex)) batch;
           question_len := map (fun ex => Z.of_nat (length (Example.tokens ex))) batch;
           batch_answers := map Example.answer batch;
           ex_indices := seq 0 (length batch);
           pos_text := None; pos_len := None; neg_text := None; neg_len := None |} /\
  Forall (fun row => length row = width)
         (map (fun ex => padded width (Example.tokens ex)) batch).
Proof.
  intros Hne Hall width. split.
  - exact (batchify_examples_only_value batch Hne Hall).
  - apply Forall_map. eapply Forall_impl; [apply longest_question_ge |].
    cbn. intros ex Hex. apply padded_length, Hex.
Qed.

Lemma batchify_examples_only_batch_witness :
  Collate.plain <> [] /\
  Forall (fun ex => (0 < length (Example.tokens ex))%nat /\
                    one_row (Example.positive ex) /\ one_row (Example.negative ex))
         Collate.plain /\
  let width := longest_question Collate.plain in
  batchify_examples_only Collate.plain =
    inr {| question_text := map (fun ex => padded width (Example.tokens ex)) Collate.plain;
           question_len :=
             map (fun ex => Z.of_nat (length (Example.tokens ex))) Collate.plain;
           batch_answers := map Example.answer Collate.plain;
           ex_indices := seq 0 (length Collate.plain);
           pos_text := None; pos_len := None; neg_text := None; neg_len := None |} /\
  Forall (fun row => length row = width)
         (map (fun ex => padded width (Example.tokens ex)) Collate.plain).
Proof.
  assert (Forall (fun ex => (0 < length (Example.tokens ex))%nat /\
                            one_row (Example.positive ex) /\ one_row (Example.negative ex))
                 Collate.plain) as Hall
    by (repeat constructor; cbn; lia).
  split; [discriminate |]. split; [exact Hall |].
  apply (batchify_examples_only_batch Collate.plain); [discriminate | exact Hall].
Defined.

Example batchify_examples_only_plain :
  batchify_examples_only Collate.plain =
    inr {| question_text := [[2; 1; 4]; [3; 1; 0]]; question_len := [3; 2];
           batch_answers := ["London"; "Paris"]; ex_indices := [0; 1]%nat;
           pos_text := None; pos_len := None; neg_text := None; neg_len := None |}.
Proof. reflexivity. Qed.

(** ** Batches that cannot be assembled *)

Lemma longest_example_length_raises (ex : Example.t) (e : Py.exn) :
  Example.longest_example_length ex = inl e -> e = Py.AssertionError "".
Proof.
  unfold Example.longest_example_length. intros H.
  apply bind_inl in H as [H | (_ & _ & H)]; [| discriminate H].
  unfold Py.assert in H.
  match type of H with (if ?c then _ else _) = _ => destruct c end;
    [discriminate H | injection H as <-; reflexivity].
Qed.

Lemma batch_max_length_no_tokens (batch : list Example.t) (ex : Example.t) :
  In ex batch ->
  Example.tokens ex = [] -> Example.positive ex = None -> Example.negative ex = None ->
  batch_max_length batch = inl (Py.AssertionError "").
Proof.
  intros Hin Ht Hp Hn. unfold batch_max_length.
  assert (Example.longest_example_length ex = inl (Py.AssertionError "")) as Hex
    by (unfold Example.longest_example_length; rewrite Ht, Hp, Hn; reflexivity).
  destruct (mapM_raises _ _ _ _ Hin Hex) as (e & He). rewrite He.
  apply mapM_inl in He as (x & _ & Hx).
  apply longest_example_length_raises in Hx as ->. reflexivity.
Qed.

(** X2: the collate functions fail on degenerate batches.  On an empty batch
    both raise the [ValueError] of [max] over no lengths; on a batch that
    holds an example without tokens and without positive and negative
    tensors (a classification example of an empty question), wherever it
    stands, both raise the [AssertionError] of [longest_example_length]. *)
Theorem batchify_degenerate_batch :
  batchify_examples_only [] = inl (Py.ValueError "max() arg is an empty sequence") /\
  batchify_with_contrastive [] = inl (Py.ValueError "max() arg is an empty sequence") /\
  forall (batch : list Example.t) (ex : Example.t),
    In ex batch ->
    Example.tokens ex = [] -> Example.positive ex = None -> Example.negative ex = None ->
    batchify_examples_only batch = inl (Py.AssertionError "") /\
    batchify_with_contrastive batch = inl (Py.AssertionError "").
Proof.
  split; [reflexivity |]. split; [reflexivity |].
  intros batch ex Hin Ht Hp Hn.
  assert (batchify_examples_only batch = inl (Py.AssertionError "")) as H.
  { unfold batchify_examples_only.
    rewrite (batch_max_length_no_tokens batch ex Hin Ht Hp Hn). reflexivity. }
  split; [exact H |].
  unfold batchify_with_contrastive. rewrite H. reflexivity.
Qed.


Lemma batchify_degenerate_batch_witness :
  In Collate.empty_question (Collate.plain ++ [Collate.empty_question]) /\
  Example.tokens Collate.empty_question = [] /\
  batchify_examples_only (Collate.plain ++ [Collate.empty_question])
    = inl (Py.AssertionError "") /\
  batchify_with_contrastive (Collate.plain ++ [Collate.empty_question])
    = inl (Py.AssertionError "").
Proof.
  assert (In Collate.empty_question (Collate.plain ++ [Collate.empty_question])) as Hin
    by (apply in_or_app; right; left; reflexivity).
  split; [exact Hin |]. split; [reflexivity |].
  exact (proj2 (proj2 batchify_degenerate_batch) _ Collate.empty_question Hin
           eq_refl eq_refl eq_refl).
Defined.

Example batchify_empty_question :
  batchify_examples_only (Collate.plain ++ [Collate.empty_question]) =
    inl (Py.AssertionError "").
Proof. reflexivity. Qed.

(** ** Batch assembly with positive and negative sequences that fit *)

Lemma first_row_one_row (t : option (list (list Z))) :
  one_row t -> first_row t = inr (row_of t).
Proof.
  destruct t as [[| r [| r' rows]] |]; cbn; intros H; try discriminate; reflexivity.
Qed.

Lemma copy_into_padded (width : nat) (m0 m1 : list (list Z)) (src : list Z) :
  (length src <= width)%nat ->
  (if Nat.ltb 0 (length src)
   then copy_into (m0 ++ repeat 0 width :: m1)%list (length m0) src
   else Py.ret (m0 ++ repeat 0 width :: m1)%list)
  = inr (m0 ++ padded width src :: m1)%list.
Proof.
  intros Hle. destruct (Nat.ltb_spec 0 (length src)) as [Hpos | Hzero].
  - unfold copy_into. rewrite getitem_middle, bind_inr_l.
    unfold copy_slice. rewrite repeat_length.
    replace (Nat.min (length src) width) with (length src) by lia.
    rewrite Nat.eqb_refl, bind_inr_l, insert_middle, drop_repeat. reflexivity.
  - destruct src; [| cbn in Hzero; lia]. unfold padded. cbn.
    rewrite Nat.sub_0_r. reflexivity.
Qed.

Lemma fill_contrastive_value (width : nat) (rest : list Example.t) :
  forall (p0 n0 : list Z) (pm0 nm0 : list (list Z)),
    length n0 = length p0 -> length pm0 = length p0 -> length nm0 = length p0 ->
    Forall (fun ex => one_row (Example.positive ex) /\ one_row (Example.negative ex) /\
                      (length (row_of (Example.positive ex)) <= width)%nat /\
                      (length (row_of (Example.negative ex)) <= width)%nat) rest ->
    fill_contrastive (length p0) rest
      ((p0 ++ repeat 0 (length rest))%list, (n0 ++ repeat 0 (length rest))%list,
       (pm0 ++ repeat (repeat 0 width) (length rest))%list,
       (nm0 ++ repeat (repeat 0 width) (length rest))%list)
    = inr ((p0 ++ map (fun ex => Z.of_nat (length (row_of (Example.positive ex)))) rest)%list,
           (n0 ++ map (fun ex => Z.of_nat (length (row_of (Example.negative ex)))) rest)%list,
           (pm0 ++ map (fun ex => padded width (row_of (Example.positive ex))) rest)%list,
           (nm0 ++ map (fun ex => padded width (row_of (Example.negative ex))) rest)%list).
Proof.
  induction rest as [| ex rest IH]; intros p0 n0 pm0 nm0 Hn Hpm Hnm Hall; cbn.
  - rewrite !app_nil_r. reflexivity.
  - apply Forall_cons in Hall as [(Hp & Hng & Hpw & Hnw) Hall].
    rewrite (first_row_one_row _ Hp), bind_inr_l.
    rewrite (first_row_one_row _ Hng), bind_inr_l.
    rewrite <- Hpm at 1. rewrite (copy_into_padded width pm0 _ _ Hpw), bind_inr_l.
    rewrite <- Hnm at 1. rewrite (copy_into_padded width nm0 _ _ Hnw), bind_inr_l.
    rewrite (insert_at p0) by reflexivity.
    rewrite (insert_at n0) by exact Hn.
    rewrite (app_snoc_assoc p0), (app_snoc_assoc n0), (app_snoc_assoc pm0),
      (app_snoc_assoc nm0).
    replace (S (length p0))
      with (length (p0 ++ [Z.of_nat (length (row_of (Example.positive ex)))]))
      by (rewrite length_app; cbn; lia).
    rewrite IH; [| rewrite !length_app; cbn; lia .. | exact Hall].
    rewrite <- !app_assoc. reflexivity.
Qed.

(** X3: on a non-empty batch of ranking examples (at least one token each,
    positive and negative tensors absent or single rows) in which no positive
    and no negative sequence is longer than the longest question,
    [batchify_with_contrastive] returns the dictionary of
    [batchify_examples_only] extended by the positive and the negative
    matrix, each row the sequence followed by zeros up to the width of the
    question matrix, and by the true lengths of the sequences. *)
Theorem batchify_with_contrastive_batch (batch : list Example.t) :
  batch <> [] ->
  Forall (fun ex => (0 < length (Example.tokens ex))%nat /\
                    one_row (Example.positive ex) /\ one_row (Example.negative ex)) batch ->
  Forall (fun ex =>
            (length (row_of (Example.positive ex)) <= longest_question batch)%nat /\
            (length (row_of (Example.negative ex)) <= longest_question batch)%nat) batch ->
  let width := longest_question batch in
  batchify_with_contrastive batch =
    inr {| question_text := map (fun ex => padded width (Example.tokens ex)) batch;
           question_len := map (fun ex => Z.of_nat (length (Example.tokens ex))) batch;
           batch_answers := map Example.answer batch;
           ex_indices := seq 0 (length batch);
           pos_text := Some (map (fun ex => padded width (row_of (Example.positive ex))) batch);
           pos_len :=
             Some (map (fun ex => Z.of_nat (length (row_of (Example.positive ex)))) batch);
           neg_text := Some (map (fun ex => padded width (row_of (Example.negative ex))) batch);
           neg_len :=
             Some (map (fun ex => Z.of_nat (length (row_of (Example.negative ex)))) batch) |}.
Proof.
  intros Hne Hall Hfit width. unfold batchify_with_contrastive.
  rewrite (batchify_examples_only_value batch Hne Hall), bind_inr_l.
  rewrite (batch_max_length_questions batch Hne Hall), bind_inr_l, Nat2Z.id.
  fold width.
  pose proof (fill_contrastive_value width batch [] [] [] [] eq_refl eq_refl eq_refl) as Hf.
  cbn [app length] in Hf. rewrite Hf; [reflexivity |].
  rewrite Forall_forall in Hall, Hfit. apply Forall_forall. intros ex Hin.
  destruct (Hall ex Hin) as (_ & Hp & Hn). destruct (Hfit ex Hin) as (Hpw & Hnw).
  repeat split; assumption.
Qed.

Lemma batchify_with_contrastive_batch_witness :
  Collate.ranking <> [] /\
  Forall (fun ex => (0 < length (Example.tokens ex))%nat /\
                    one_row (Example.positive ex) /\ one_row (Example.negative ex))
         Collate.ranking /\
  Forall (fun ex =>
            (length (row_of (Example.positive ex)) <= longest_question Collate.ranking)%nat /\
            (length (row_of (Example.negative ex)) <= longest_question Collate.ranking)%nat)
         Collate.ranking /\
  batchify_with_contrastive Collate.ranking =
    inr {| question_text := [[2; 1; 4]; [3; 1; 0]]; question_len := [3; 2];
           batch_answers := ["London"; "Paris"]; ex_indices := [0; 1]%nat;
           pos_text := Some [[6; 1; 0]; [3; 0; 0]]; pos_len := Some [2; 1];
           neg_text := Some [[3; 1; 5]; [2; 1; 4]]; neg_len := Some [3; 3] |}.
Proof.
  assert (Forall (fun ex => (0 < length (Example.tokens ex))%nat /\
                            one_row (Example.positive ex) /\ one_row (Example.negative ex))
                 Collate.ranking) as Hall
    by (repeat constructor; cbn; lia).
  assert (Forall (fun ex =>
            (length (row_of (Example.positive ex)) <= longest_question Collate.ranking)%nat /\
            (length (row_of (Example.negative ex)) <= longest_question Collate.ranking)%nat)
                 Collate.ranking) as Hfit
    by (repeat constructor; cbn; lia).
  split; [discriminate |]. split; [exact Hall |]. split; [exact Hfit |].
  exact (batchify_with_contrastive_batch Collate.ranking ltac:(discriminate) Hall Hfit).
Defined.

(** ** The stored questions and answers ([QuestionData.set_data]) *)

Lemma mapM_Forall2 {A B} (f : A -> Py.t B) (xs : list A) (ys : list B) :
  Py.mapM f xs = inr ys -> Forall2 (fun x y => f x = inr y) xs ys.
Proof.
  revert ys; induction xs as [| x xs IH]; cbn; intros ys H.
  - injection H as <-. constructor.
  - apply bind_inr in H as (y & Hy & H). apply bind_inr in H as (ys' & Hys & H).
    injection H as <-. constructor; [exact Hy | apply IH, Hys].
Qed.

Lemma mapM_returns {A B} (f : A -> Py.t B) (xs : list A) :
  Forall (fun x => exists y, f x = inr y) xs -> exists ys, Py.mapM f xs = inr ys.
Proof.
  induction 1 as [| x xs (y & Hy) _ (ys & Hys)]; cbn.
  - eauto.
  - rewrite Hy, Hys. cbn. eauto.
Qed.

Lemma kept_labels (answer_field : string) (idx : list string)
    (qs : list (gmap string string)) :
  Forall2 (fun x a => x !! answer_field = Some a /\ In a idx)
    (QuestionData.kept answer_field idx qs)
    (omap (fun x : gmap string string => x !! answer_field)
          (QuestionData.kept answer_field idx qs)).
Proof.
  unfold QuestionData.kept.
  induction qs as [| x qs IH]; cbn; [constructor |].
  destruct (x !! answer_field) as [a |] eqn:Hx; [| exact IH].
  destruct (contains idx a) eqn:Hc; [| exact IH].
  cbn. rewrite Hx. constructor; [| exact IH].
  split; [exact Hx | apply contains_In, Hc].
Qed.

Lemma set_data_inr (self self' : QuestionData.t) (questions : list (gmap string string))
    (answer_field : string) (fix_answers : option (list string)) :
  QuestionData.set_data self questions answer_field fix_answers = inr self' ->
  let idx := answer_list self questions answer_field fix_answers in
  let retained := QuestionData.kept answer_field idx questions in
  let answers := omap (fun x : gmap string string => x !! answer_field) retained in
  exists texts,
    Forall2 (fun (x : gmap string string) t => x !! "text" = Some t) retained texts /\
    QuestionData.answer_indices self' = Some idx /\
    QuestionData.questions self' = Some texts /\
    QuestionData.answers self' = Some answers /\
    QuestionData.vocab self' = QuestionData.vocab self /\
    QuestionData.representations self' = QuestionData.representations self /\
    QuestionData.lookup self' = QuestionData.lookup self /\
    QuestionData.tokenizer self' = QuestionData.tokenizer self /\
    QuestionData.dimension self' = QuestionData.dimension self /\
    QuestionData.use_contrastive_examples self' = QuestionData.use_contrastive_examples self /\
    QuestionData.positive self' =
      (if QuestionData.use_contrastive_examples self
       then Some (map (fun i =>
                    omap (fun j => texts !! j)
                      (QuestionData.comparison_indices i (nth i answers "") answers String.eqb))
                  (seq 0 (length texts)))
       else None) /\
    QuestionData.negative self' =
      (if QuestionData.use_contrastive_examples self
       then Some (map (fun i =>
                    omap (fun j => texts !! j)
                      (QuestionData.comparison_indices i (nth i answers "") answers
                         (fun x y => negb (String.eqb x y))))
                  (seq 0 (length texts)))
       else None).
Proof.
  intros H idx retained answers. unfold QuestionData.set_data in H.
  fold (answer_list self questions answer_field fix_answers) in H. fold idx in H.
  fold retained in H. fold answers in H.
  apply bind_inr in H as (texts & Htexts & H). injection H as <-.
  exists texts. cbn. repeat split; try reflexivity.
  apply mapM_Forall2 in Htexts.
  eapply Forall2_impl; [exact Htexts |]. cbn. intros x t Hx.
  destruct (x !! "text") as [s |]; [| discriminate]. injection Hx as ->. reflexivity.
Qed.

(** X4: whenever [set_data] returns, the stored questions and answers are
    parallel lists, the text and the label of each retained record in input
    order, a record being retained when its label is in the answer list (the
    fixed one or the one selected); every stored answer is in the answer
    list.  The vocabulary, the stored representations and the lookup index
    are left as they were, and in classification mode no positive and
    negative lists are kept. *)
Theorem set_data_aligned (self self' : QuestionData.t)
    (questions : list (gmap string string)) (answer_field : string)
    (fix_answers : option (list string)) :
  QuestionData.set_data self questions answer_field fix_answers = inr self' ->
  let idx := answer_list self questions answer_field fix_answers in
  let retained := QuestionData.kept answer_field idx questions in
  exists texts answers,
    QuestionData.answer_indices self' = Some idx /\
    QuestionData.questions self' = Some texts /\
    QuestionData.answers self' = Some answers /\
    Forall2 (fun (x : gmap string string) t => x !! "text" = Some t) retained texts /\
    Forall2 (fun (x : gmap string string) a => x !! answer_field = Some a /\ In a idx)
            retained answers /\
    length texts = length answers /\
    QuestionData.vocab self' = QuestionData.vocab self /\
    QuestionData.representations self' = QuestionData.representations self /\
    QuestionData.lookup self' = QuestionData.lookup self /\
    (QuestionData.use_contrastive_examples self = false ->
     QuestionData.positive self' = None /\ QuestionData.negative self' = None).
Proof.
  intros H idx retained.
  destruct (set_data_inr _ _ _ _ _ H)
    as (texts & Ht & Hi & Hq & Ha & Hv & Hr & Hl & _ & _ & _ & Hp & Hn).
  fold idx in Ht, Hi, Hq, Ha, Hp, Hn. fold retained in Ht, Ha, Hp, Hn.
  exists texts, (omap (fun x : gmap string string => x !! answer_field) retained).
  pose proof (kept_labels answer_field idx questions) as Hlab. fold retained in Hlab.
  split; [exact Hi |]. split; [exact Hq |]. split; [exact Ha |].
  split; [exact Ht |]. split; [exact Hlab |].
  split; [apply Forall2_length in Ht, Hlab; congruence |].
  split; [exact Hv |]. split; [exact Hr |]. split; [exact Hl |].
  intros Hc. rewrite Hp, Hn, Hc. split; reflexivity.
Qed.

Lemma set_data_aligned_witness :
  exists self',
    QuestionData.set_data (Sample.data "CrossEntropyLoss") Sample.eval_questions "page"
      (Some ["London"; "Paris"]) = inr self' /\
    let idx := answer_list (Sample.data "CrossEntropyLoss") Sample.eval_questions "page"
                 (Some ["London"; "Paris"]) in
    let retained := QuestionData.kept "page" idx Sample.eval_questions in
    exists texts answers,
      QuestionData.answer_indices self' = Some idx /\
      QuestionData.questions self' = Some texts /\
      QuestionData.answers self' = Some answers /\
      Forall2 (fun (x : gmap string string) t => x !! "text" = Some t) retained texts /\
      Forall2 (fun (x : gmap string string) a => x !! "page" = Some a /\ In a idx)
              retained answers /\
      length texts = length answers /\
      QuestionData.vocab self' = QuestionData.vocab (Sample.data "CrossEntropyLoss") /\
      QuestionData.representations self' =
        QuestionData.representations (Sample.data "CrossEntropyLoss") /\
      QuestionData.lookup self' = QuestionData.lookup (Sample.data "CrossEntropyLoss") /\
      (QuestionData.use_contrastive_examples (Sample.data "CrossEntropyLoss") = false ->
       QuestionData.positive self' = None /\ QuestionData.negative self' = None).
Proof.
  eexists; split; [vm_compute; reflexivity |].
  apply (set_data_aligned (Sample.data "CrossEntropyLoss") _ Sample.eval_questions "page"
           (Some ["London"; "Paris"])).
  vm_compute; reflexivity.
Defined.

(** X5: [set_data] reads the text of the retained records only.  It raises
    [KeyError] for the key ['text'] exactly when a retained record has no
    text, and returns otherwise; a record without text whose label is not in
    the answer list does no harm. *)
Theorem set_data_missing_text (self : QuestionData.t)
    (questions : list (gmap string string)) (answer_field : string)
    (fix_answers : option (list string)) :
  let idx := answer_list self questions answer_field fix_answers in
  let retained := QuestionData.kept answer_field idx questions in
  (Exists (fun x : gmap string string => x !! "text" = None) retained ->
   QuestionData.set_data self questions answer_field fix_answers
     = inl (Py.KeyError "text")) /\
  (Forall (fun x : gmap string string => is_Some (x !! "text")) retained ->
   exists self',
     QuestionData.set_data self questions answer_field fix_answers = inr self').
Proof.
  intros idx retained. unfold QuestionData.set_data.
  fold (answer_list self questions answer_field fix_answers). fold idx. fold retained.
  set (read := fun x : gmap string string =>
                 match x !! "text" with
                 | Some s => Py.ret s
                 | None => Py.raise (Py.KeyError "text")
                 end).
  split.
  - intros Hex. apply Exists_exists in Hex as (x & Hin & Hx).
    assert (read x = inl (Py.KeyError "text")) as Hread by (unfold read; rewrite Hx; reflexivity).
    apply list_elem_of_In in Hin.
    destruct (mapM_raises read retained x _ Hin Hread) as (e & He). rewrite He.
    apply mapM_inl in He as (y & _ & Hy). unfold read in Hy.
    destruct (y !! "text"); [discriminate |]. injection Hy as <-. reflexivity.
  - intros Hall.
    destruct (mapM_returns read retained) as (texts & ->); [| cbn; eauto].
    eapply Forall_impl; [exact Hall |]. cbn. intros x [s Hs]. exists s.
    unfold read. rewrite Hs. reflexivity.
Qed.


Lemma set_data_missing_text_witness :
  let questions : list (gmap string string) :=
    [ Sample.question "city on the thames" "London"; {[ "page" := "Paris" ]} ] in
  let idx := answer_list (Sample.data "CrossEntropyLoss") questions "page"
               (Some ["London"; "Paris"]) in
  Exists (fun x : gmap string string => x !! "text" = None)
         (QuestionData.kept "page" idx questions) /\
  QuestionData.set_data (Sample.data "CrossEntropyLoss") questions "page"
    (Some ["London"; "Paris"]) = inl (Py.KeyError "text").
Proof.
  intros questions idx.
  assert (Exists (fun x : gmap string string => x !! "text" = None)
                 (QuestionData.kept "page" idx questions)) as Hex
    by (apply Exists_cons_tl, Exists_cons_hd; vm_compute; reflexivity).
  split; [exact Hex |].
  exact (proj1 (set_data_missing_text (Sample.data "CrossEntropyLoss") questions "page"
                  (Some ["London"; "Paris"])) Hex).
Defined.

Example set_data_text_of_dropped_record :
  exists self',
    QuestionData.set_data (Sample.data "CrossEntropyLoss")
      [ Sample.question "city on the thames" "London"; {[ "page" := "Berlin" ]} ] "page"
      (Some ["London"; "Paris"]) = inr self' /\
    QuestionData.questions self' = Some ["city on the thames"].
Proof. eexists. split; vm_compute; reflexivity. Qed.

Example set_data_text_of_kept_record :
  QuestionData.set_data (Sample.data "CrossEntropyLoss")
    [ Sample.question "city on the thames" "London"; {[ "page" := "Paris" ]} ] "page"
    (Some ["London"; "Paris"]) = inl (Py.KeyError "text").
Proof. vm_compute. reflexivity. Qed.

(** ** Positive and negative candidates ([comparison_indices]) *)

Lemma lookup_nth_error {A} (l : list A) (i : nat) : l !! i = nth_error l i.
Proof. revert i; induction l as [| x l IH]; intros [| i]; cbn; auto. Qed.

Lemma map_lookup {A B} (f : A -> B) (l : list A) (i : nat) :
  map f l !! i = f <$> (l !! i).
Proof. revert i; induction l as [| x l IH]; intros [| i]; cbn; auto. Qed.

Lemma in_map_fst_filter {A B} (p : A * B -> bool) (l : list (A * B)) (i : A) :
  In i (map fst (List.filter p l)) <-> exists b, In (i, b) l /\ p (i, b) = true.
Proof.
  rewrite in_map_iff. split.
  - intros ([i' b] & <- & H). apply filter_In in H. exists b. exact H.
  - intros (b & H). exists (i, b). split; [reflexivity | apply filter_In, H].
Qed.

Lemma comparison_indices_In (this_idx : nat) (target_answer : string)
    (full_answer_list : list string) (answer_compare : string -> string -> bool) (i : nat) :
  In i (QuestionData.comparison_indices this_idx target_answer full_answer_list answer_compare)
  <-> exists ans, full_answer_list !! i = Some ans /\
                  answer_compare ans target_answer = true /\ i <> this_idx.
Proof.
  unfold QuestionData.comparison_indices. rewrite in_map_fst_filter.
  split; intros (ans & H).
  - destruct H as [Hin Hp]. apply in_zip_seq in Hin as [_ Hn].
    rewrite Nat.sub_0_r in Hn. cbn in Hp. apply andb_true_iff in Hp as [Hc Hne].
    exists ans. rewrite lookup_nth_error. repeat split; [exact Hn | exact Hc |].
    intros ->. rewrite Nat.eqb_refl in Hne. discriminate.
  - destruct H as (Hl & Hc & Hne). exists ans. split.
    + apply in_zip_seq. rewrite Nat.sub_0_r, <- lookup_nth_error. split; [lia | exact Hl].
    + cbn. rewrite Hc. cbn. apply negb_true_iff, Nat.eqb_neq. exact Hne.
Qed.

(** Among the positions other than [idx], each one is either a positive or a
    negative candidate. *)
Lemma comparison_split (idx : nat) (a : string) (answers : list string) (k : nat) :
  (forall j b, idx = (k + j)%nat -> answers !! j = Some b -> b = a) ->
  (length (List.filter (fun p : nat * string =>
             String.eqb (snd p) a && negb (Nat.eqb (fst p) idx))
             (zip (seq k (length answers)) answers))
   + length (List.filter (fun p : nat * string =>
               negb (String.eqb (snd p) a) && negb (Nat.eqb (fst p) idx))
               (zip (seq k (length answers)) answers))
   + (if bool_decide (k <= idx < k + length answers)%nat then 1 else 0)
   = length answers)%nat.
Proof.
  revert k; induction answers as [| x answers IH]; intros k Hself.
  - cbn. case_bool_decide; lia.
  - cbn [length seq zip_with List.filter fst snd].
    assert (forall j b, idx = (S k + j)%nat -> answers !! j = Some b -> b = a) as Hrest.
    { intros j b Hj Hb. apply (Hself (S j) b); [lia | exact Hb]. }
    specialize (IH (S k) Hrest).
    destruct (Nat.eqb_spec k idx) as [-> | Hne].
    + assert (x = a) as -> by (apply (Hself 0%nat x); [lia | reflexivity]).
      rewrite String.eqb_refl. cbn [andb negb].
      repeat case_bool_decide; lia.
    + destruct (String.eqb x a); cbn [andb negb length];
        repeat case_bool_decide; lia.
Qed.

Lemma comparison_indices_count (idx : nat) (a : string) (answers : list string) :
  answers !! idx = Some a ->
  (length (QuestionData.comparison_indices idx a answers String.eqb)
   + length (QuestionData.comparison_indices idx a answers
               (fun x y => negb (String.eqb x y)))
   + 1 = length answers)%nat.
Proof.
  intros Ha. unfold QuestionData.comparison_indices. rewrite !length_map.
  pose proof (comparison_split idx a answers 0) as H.
  apply lookup_lt_Some in Ha as Hlt.
  rewrite bool_decide_true in H by lia.
  apply H. intros j b -> Hb. cbn in Ha. congruence.
Qed.

Lemma omap_lookup_length {A} (l : list A) (js : list nat) :
  (forall j, In j js -> (j < length l)%nat) ->
  length (omap (fun j => l !! j) js) = length js.
Proof.
  induction js as [| j js IH]; cbn; intros H; [reflexivity |].
  destruct (lookup_lt_is_Some_2 l j (H j (or_introl eq_refl))) as [x ->].
  cbn. rewrite IH; [reflexivity |]. intros j' Hj'. apply H. right. exact Hj'.
Qed.

Lemma in_omap_lookup {A} (l : list A) (js : list nat) (x : A) :
  In x (omap (fun j => l !! j) js) <-> exists j, In j js /\ l !! j = Some x.
Proof.
  rewrite <- list_elem_of_In, list_elem_of_omap.
  split; intros (j & Hj & Hx); exists j; (split; [apply list_elem_of_In, Hj | exact Hx]).
Qed.

Lemma contrast_lookup (texts answers : list string) (cmp : string -> string -> bool)
    (idx : nat) (a : string) :
  length texts = length answers ->
  answers !! idx = Some a ->
  map (fun i => omap (fun j => texts !! j)
                  (QuestionData.comparison_indices i (nth i answers "") answers cmp))
      (seq 0 (length texts)) !! idx
  = Some (omap (fun j => texts !! j) (QuestionData.comparison_indices idx a answers cmp)).
Proof.
  intros Hlen Ha. rewrite map_lookup.
  assert (seq 0 (length texts) !! idx = Some idx) as ->.
  { apply lookup_seq. split; [reflexivity |]. apply lookup_lt_Some in Ha. lia. }
  cbn. rewrite (nth_lookup_Some _ _ _ _ Ha). reflexivity.
Qed.

(** The positive and the negative lists of a data set in ranking mode. *)
Lemma set_data_contrast (self self' : QuestionData.t)
    (questions : list (gmap string string)) (answer_field : string)
    (fix_answers : option (list string)) :
  QuestionData.use_contrastive_examples self = true ->
  QuestionData.set_data self questions answer_field fix_answers = inr self' ->
  exists texts answers P N,
    QuestionData.questions self' = Some texts /\
    QuestionData.answers self' = Some answers /\
    QuestionData.positive self' = Some P /\
    QuestionData.negative self' = Some N /\
    length answers = length texts /\ length P = length texts /\ length N = length texts /\
    forall idx a, answers !! idx = Some a ->
      P !! idx = Some (omap (fun j => texts !! j)
                        (QuestionData.comparison_indices idx a answers String.eqb)) /\
      N !! idx = Some (omap (fun j => texts !! j)
                        (QuestionData.comparison_indices idx a answers
                           (fun x y => negb (String.eqb x y)))).
Proof.
  intros Hc H.
  destruct (set_data_inr _ _ _ _ _ H)
    as (texts & Ht & _ & Hq & Ha & _ & _ & _ & _ & _ & _ & Hp & Hn).
  rewrite Hc in Hp, Hn.
  pose proof (kept_labels answer_field (answer_list self questions answer_field fix_answers)
                questions) as Hlab.
  assert (length texts
          = length (omap (fun x : gmap string string => x !! answer_field)
                      (QuestionData.kept answer_field
                         (answer_list self questions answer_field fix_answers) questions)))
    as Hlen by (apply Forall2_length in Ht, Hlab; congruence).
  do 4 eexists. split; [exact Hq |]. split; [exact Ha |].
  split; [exact Hp |]. split; [exact Hn |].
  split; [symmetry; exact Hlen |].
  split; [rewrite length_map, length_seq; reflexivity |].
  split; [rewrite length_map, length_seq; reflexivity |].
  intros idx a Hidx. split; apply contrast_lookup; assumption.
Qed.

Lemma set_data_candidates (self self' : QuestionData.t)
    (questions : list (gmap string string)) (answer_field : string)
    (fix_answers : option (list string)) :
  QuestionData.use_contrastive_examples self = true ->
  QuestionData.set_data self questions answer_field fix_answers = inr self' ->
  exists texts answers P N,
    QuestionData.questions self' = Some texts /\
    QuestionData.answers self' = Some answers /\
    QuestionData.positive self' = Some P /\
    QuestionData.negative self' = Some N /\
    length answers = length texts /\ length P = length texts /\ length N = length texts /\
    forall idx a ps ns,
      answers !! idx = Some a -> P !! idx = Some ps -> N !! idx = Some ns ->
      (forall t, In t ps <->
         exists i, i <> idx /\ texts !! i = Some t /\ answers !! i = Some a) /\
      (forall t, In t ns <->
         exists i b, texts !! i = Some t /\ answers !! i = Some b /\ b <> a) /\
      (length ps + length ns + 1 = length texts)%nat.
Proof.
  intros Hc H.
  destruct (set_data_contrast _ _ _ _ _ Hc H)
    as (texts & answers & P & N & Hq & Ha & Hp & Hn & Hla & Hlp & Hln & Hrows).
  exists texts, answers, P, N.
  repeat (split; [assumption |]).
  intros idx a ps ns Hidx Hps Hns.
  destruct (Hrows idx a Hidx) as [Hps' Hns'].
  rewrite Hps in Hps'. injection Hps' as ->. rewrite Hns in Hns'. injection Hns' as ->.
  split; [| split].
  - intros t. rewrite in_omap_lookup. split.
    + intros (i & Hi & Ht). apply comparison_indices_In in Hi as (b & Hb & Heq & Hne).
      apply String.eqb_eq in Heq as ->. exists i. repeat split; assumption.
    + intros (i & Hne & Ht & Hb). exists i. split; [| exact Ht].
      apply comparison_indices_In. exists a. repeat split; [exact Hb | | exact Hne].
      apply String.eqb_refl.
  - intros t. rewrite in_omap_lookup. split.
    + intros (i & Hi & Ht). apply comparison_indices_In in Hi as (b & Hb & Heq & Hne).
      exists i, b. repeat split; [exact Ht | exact Hb |].
      intros ->. rewrite String.eqb_refl in Heq. discriminate.
    + intros (i & b & Ht & Hb & Hne). exists i. split; [| exact Ht].
      apply comparison_indices_In. exists b. repeat split; [exact Hb | |].
      * apply negb_true_iff, String.eqb_neq. exact Hne.
      * intros ->. congruence.
  - rewrite !omap_lookup_length.
    + rewrite <- Hla. apply comparison_indices_count, Hidx.
    + intros j Hj. apply comparison_indices_In in Hj as (b & Hb & _).
      apply lookup_lt_Some in Hb. lia.
    + intros j Hj. apply comparison_indices_In in Hj as (b & Hb & _).
      apply lookup_lt_Some in Hb. lia.
Qed.

(** X6: in ranking mode, when [set_data] returns, it stores for every kept
    question a list of positive and a list of negative candidates.  The
    positive candidates of question [idx] are the texts of the other kept
    questions that have the same answer, the negative candidates the texts of
    the kept questions that have a different answer; together with the
    question itself they account for every kept question. *)
Theorem set_data_contrastive_lists (self self' : QuestionData.t)
    (questions : list (gmap string string)) (answer_field : string)
    (fix_answers : option (list string)) :
  QuestionData.use_contrastive_examples self = true ->
  QuestionData.set_data self questions answer_field fix_answers = inr self' ->
  exists texts answers P N,
    QuestionData.questions self' = Some texts /\
    QuestionData.answers self' = Some answers /\
    QuestionData.positive self' = Some P /\
    QuestionData.negative self' = Some N /\
    length answers = length texts /\ length P = length texts /\ length N = length texts /\
    forall idx a ps ns,
      answers !! idx = Some a -> P !! idx = Some ps -> N !! idx = Some ns ->
      (forall t, In t ps <->
         exists i, i <> idx /\ texts !! i = Some t /\ answers !! i = Some a) /\
      (forall t, In t ns <->
         exists i b, texts !! i = Some t /\ answers !! i = Some b /\ b <> a) /\
      (length ps + length ns + 1 = length texts)%nat.
Proof. apply set_data_candidates. Qed.


Example contrast_data_vocabulary :
  QuestionData.build_vocab (Sample.data "MarginRankingLoss") Sample.train_questions
  = inr Contrast.data.
Proof. vm_compute. reflexivity. Qed.

Lemma set_data_contrastive_lists_witness :
  QuestionData.use_contrastive_examples Contrast.data = true /\
  exists self',
    QuestionData.set_data Contrast.data Sample.train_questions "page" None = inr self' /\
    exists texts answers P N,
      QuestionData.questions self' = Some texts /\
      QuestionData.answers self' = Some answers /\
      QuestionData.positive self' = Some P /\
      QuestionData.negative self' = Some N /\
      length answers = length texts /\ length P = length texts /\ length N = length texts /\
      forall idx a ps ns,
        answers !! idx = Some a -> P !! idx = Some ps -> N !! idx = Some ns ->
        (forall t, In t ps <->
           exists i, i <> idx /\ texts !! i = Some t /\ answers !! i = Some a) /\
        (forall t, In t ns <->
           exists i b, texts !! i = Some t /\ answers !! i = Some b /\ b <> a) /\
        (length ps + length ns + 1 = length texts)%nat.
Proof.
  split; [reflexivity |].
  eexists; split; [vm_compute; reflexivity |].
  apply (set_data_contrastive_lists Contrast.data _ Sample.train_questions "page" None);
    [reflexivity | vm_compute; reflexivity].
Defined.

Example contrast_lists_sample :
  (QuestionData.positive <$>
     QuestionData.set_data Contrast.data Sample.train_questions "page" None)
  = inr (Some [["home of big ben"]; ["capital of france"];
               ["capital of england"]; ["city of light"]]) /\
  (QuestionData.negative <$>
     QuestionData.set_data Contrast.data Sample.train_questions "page" None)
  = inr (Some [["city of light"; "capital of france"];
               ["capital of england"; "home of big ben"];
               ["city of light"; "capital of france"];
               ["capital of england"; "home of big ben"]]).
Proof. split; vm_compute; reflexivity. Qed.

(** ** Sampling an example ([QuestionData.__getitem__]) *)

Lemma getitem_lookup {A} (xs : list A) (i : nat) (x : A) :
  xs !! i = Some x -> getitem xs (Z.of_nat i) = inr x.
Proof.
  intros H. apply lookup_lt_Some in H as Hlt. rewrite lookup_nth_error in H.
  unfold getitem. cbv zeta.
  assert ((Z.of_nat i <? 0) = false) as E1 by (apply Z.ltb_ge; lia).
  assert ((Z.of_nat (length xs) <=? Z.of_nat i) = false) as E2 by (apply Z.leb_gt; lia).
  rewrite !E1, E2. cbn [orb]. rewrite Nat2Z.id, H. reflexivity.
Qed.

Lemma getitem_out_of_range {A} (xs : list A) (i : Z) :
  Z.of_nat (length xs) <= i ->
  getitem xs i = inl (Py.IndexError "list index out of range").
Proof.
  intros H. unfold getitem. cbv zeta.
  assert ((i <? 0) = false) as E1 by (apply Z.ltb_ge; lia).
  assert ((Z.of_nat (length xs) <=? i) = true) as E2 by (apply Z.leb_le; lia).
  rewrite !E1, E2. reflexivity.
Qed.

Lemma vectorize_inr (ex : string) (vocab : option Vocab.t)
    (tokenizer : string -> list string) (v : list (list Z)) :
  QuestionData.vectorize ex vocab tokenizer = inr v -> exists row, v = [row].
Proof.
  unfold QuestionData.vectorize. intros H.
  apply bind_inr in H as (? & _ & H). apply bind_inr in H as (? & _ & H).
  apply bind_inr in H as (row & _ & H). injection H as <-. eauto.
Qed.

Lemma choice_In {A} (pick : nat) (l : list A) :
  l <> [] -> exists x, QuestionData.choice pick l = inr x /\ In x l.
Proof.
  intros Hne. destruct l as [| y l]; [congruence |].
  unfold QuestionData.choice.
  assert (pick mod length (y :: l) < length (y :: l))%nat as Hlt
    by (apply Nat.mod_upper_bound; cbn; lia).
  destruct (lookup_lt_is_Some_2 _ _ Hlt) as [x Hx].
  exists x. split; [apply getitem_lookup, Hx |].
  apply list_elem_of_In, list_elem_of_lookup. eauto.
Qed.

(** What [__getitem__] does in ranking mode once the question is vectorized
    and the candidate lists of the index are at hand. *)
Lemma getitem_ranking (self : QuestionData.t) (texts answers ps ns : list string)
    (P N : list (list string)) (idx : nat) (q a : string) (rq : list Z)
    (pick_pos pick_neg : nat) :
  QuestionData.use_contrastive_examples self = true ->
  QuestionData.questions self = Some texts ->
  QuestionData.answers self = Some answers ->
  QuestionData.positive self = Some P ->
  QuestionData.negative self = Some N ->
  length P = length texts -> length N = length texts ->
  texts !! idx = Some q -> answers !! idx = Some a ->
  P !! idx = Some ps -> N !! idx = Some ns ->
  QuestionData.vectorize q (QuestionData.vocab self) (QuestionData.tokenizer self)
    = inr [rq] ->
  QuestionData.__getitem__ self pick_pos pick_neg (Z.of_nat idx) =
    (_ ← Py.assert (negb (Nat.eqb (length ps) 0)) "No positive example";
     pos_text ← QuestionData.choice pick_pos ps;
     neg_text ← QuestionData.choice pick_neg ns;
     pos_vec ← QuestionData.vectorize pos_text (QuestionData.vocab self)
                 (QuestionData.tokenizer self);
     neg_vec ← QuestionData.vectorize neg_text (QuestionData.vocab self)
                 (QuestionData.tokenizer self);
     Py.ret {| Example.tokens := rq; Example.answer := a;
               Example.positive := Some pos_vec; Example.negative := Some neg_vec |}).
Proof.
  intros Hc Hq Ha Hp Hn Hlp Hln Ht Hans Hps Hns Hv.
  unfold QuestionData.__getitem__.
  rewrite Hc, Hq, Ha, Hp, Hn. cbn [QuestionData.attr].
  rewrite bind_ret_l, (getitem_lookup _ _ _ Ht), bind_inr_l, Hv, bind_inr_l.
  change (getitem [rq] 0) with (inr rq : Py.t (list Z)). rewrite bind_inr_l.
  rewrite !bind_ret_l, Hlp, Hln, Nat.eqb_refl, !assert_true_bind.
  rewrite (getitem_lookup _ _ _ Hps), bind_inr_l.
  rewrite (getitem_lookup _ _ _ Hns).
  destruct (Nat.eqb (length ps) 0); [reflexivity |]. cbn [negb]. rewrite !assert_true_bind.
  destruct (QuestionData.choice pick_pos ps) as [e | pos_text]; [reflexivity |].
  rewrite !bind_inr_l.
  destruct (QuestionData.choice pick_neg ns) as [e | neg_text]; [reflexivity |].
  rewrite !bind_inr_l.
  destruct (QuestionData.vectorize pos_text _ _) as [e | pos_vec]; [reflexivity |].
  rewrite !bind_inr_l.
  destruct (QuestionData.vectorize neg_text _ _) as [e | neg_vec]; [reflexivity |].
  rewrite !bind_inr_l, ?bind_ret_l, (getitem_lookup _ _ _ Hans). reflexivity.
Qed.

(** X7: in ranking mode [__getitem__] cannot build an example for a question
    whose answer no other kept question shares: once the question itself is
    vectorized, it raises the [AssertionError] of its "No positive example"
    check, whatever the random draws. *)
Theorem getitem_without_positive (self self' : QuestionData.t)
    (questions : list (gmap string string)) (answer_field : string)
    (fix_answers : option (list string)) (texts answers : list string)
    (idx : nat) (q a : string) (v : list (list Z)) (pick_pos pick_neg : nat) :
  QuestionData.use_contrastive_examples self = true ->
  QuestionData.set_data self questions answer_field fix_answers = inr self' ->
  QuestionData.questions self' = Some texts ->
  QuestionData.answers self' = Some answers ->
  texts !! idx = Some q -> answers !! idx = Some a ->
  QuestionData.vectorize q (QuestionData.vocab self') (QuestionData.tokenizer self') = inr v ->
  (forall i, answers !! i = Some a -> i = idx) ->
  QuestionData.__getitem__ self' pick_pos pick_neg (Z.of_nat idx)
    = inl (Py.AssertionError "No positive example").
Proof.
  intros Hc H Hq Ha Ht Hans Hv Huniq.
  destruct (set_data_candidates _ _ _ _ _ Hc H)
    as (texts' & answers' & P & N & Hq' & Ha' & Hp & Hn & Hla & Hlp & Hln & Hrows).
  rewrite Hq in Hq'. injection Hq' as <-. rewrite Ha in Ha'. injection Ha' as <-.
  destruct (set_data_inr _ _ _ _ _ H) as (_ & _ & _ & _ & _ & _ & _ & _ & _ & _ & Hc' & _).
  rewrite Hc in Hc'.
  destruct (lookup_lt_is_Some_2 P idx) as [ps Hps];
    [apply lookup_lt_Some in Ht; lia |].
  destruct (lookup_lt_is_Some_2 N idx) as [ns Hns];
    [apply lookup_lt_Some in Ht; lia |].
  destruct (vectorize_inr _ _ _ _ Hv) as [rq ->].
  rewrite (getitem_ranking self' texts answers ps ns P N idx q a rq pick_pos pick_neg)
    by assumption.
  destruct (Hrows idx a ps ns Hans Hps Hns) as (Hin & _ & _).
  destruct ps as [| t ps]; [reflexivity |].
  destruct (proj1 (Hin t) (or_introl eq_refl)) as (i & Hne & _ & Hi).
  elim Hne. apply Huniq, Hi.
Qed.

Lemma getitem_without_positive_witness :
  exists self',
    QuestionData.use_contrastive_examples Contrast.data = true /\
    QuestionData.set_data Contrast.data Sample.train_questions "page"
      (Some ["London"; "Paris"; "Rome"]) = inr self' /\
    QuestionData.answers self' = Some ["London"; "Paris"; "London"; "Paris"; "Rome"] /\
    QuestionData.__getitem__ self' 0 0 4 = inl (Py.AssertionError "No positive example").
Proof.
  eexists. split; [reflexivity |]. split; [vm_compute; reflexivity |].
  split; [reflexivity |].
  eapply (getitem_without_positive Contrast.data _ Sample.train_questions "page"
            (Some ["London"; "Paris"; "Rome"]) _ _ 4 "eternal city" "Rome" _ 0 0);
    [reflexivity | vm_compute; reflexivity | reflexivity | reflexivity | reflexivity
    | reflexivity | vm_compute; reflexivity |].
  intros [| [| [| [| [| i]]]]]; cbn; intros Hi; try reflexivity; discriminate Hi.
Defined.

(** X8: in ranking mode [__getitem__] cannot build an example either when
    every kept question has the same answer: a positive candidate is drawn,
    but there is no negative candidate, and the draw from the empty list
    raises [IndexError]. *)
Theorem getitem_without_negative (self self' : QuestionData.t)
    (questions : list (gmap string string)) (answer_field : string)
    (fix_answers : option (list string)) (texts answers : list string)
    (idx : nat) (q a : string) (v : list (list Z)) (pick_pos pick_neg : nat) :
  QuestionData.use_contrastive_examples self = true ->
  QuestionData.set_data self questions answer_field fix_answers = inr self' ->
  QuestionData.questions self' = Some texts ->
  QuestionData.answers self' = Some answers ->
  texts !! idx = Some q -> answers !! idx = Some a ->
  QuestionData.vectorize q (QuestionData.vocab self') (QuestionData.tokenizer self') = inr v ->
  (exists i, i <> idx /\ answers !! i = Some a) ->
  (forall b, In b answers -> b = a) ->
  QuestionData.__getitem__ self' pick_pos pick_neg (Z.of_nat idx)
    = inl (Py.IndexError "Cannot choose from an empty sequence").
Proof.
  intros Hc H Hq Ha Ht Hans Hv (i & Hne & Hi) Hsame.
  destruct (set_data_candidates _ _ _ _ _ Hc H)
    as (texts' & answers' & P & N & Hq' & Ha' & Hp & Hn & Hla & Hlp & Hln & Hrows).
  rewrite Hq in Hq'. injection Hq' as <-. rewrite Ha in Ha'. injection Ha' as <-.
  destruct (set_data_inr _ _ _ _ _ H) as (_ & _ & _ & _ & _ & _ & _ & _ & _ & _ & Hc' & _).
  rewrite Hc in Hc'.
  destruct (lookup_lt_is_Some_2 P idx) as [ps Hps];
    [apply lookup_lt_Some in Ht; lia |].
  destruct (lookup_lt_is_Some_2 N idx) as [ns Hns];
    [apply lookup_lt_Some in Ht; lia |].
  destruct (vectorize_inr _ _ _ _ Hv) as [rq ->].
  rewrite (getitem_ranking self' texts answers ps ns P N idx q a rq pick_pos pick_neg)
    by assumption.
  destruct (Hrows idx a ps ns Hans Hps Hns) as (Hin & Hout & _).
  assert (ps <> []) as Hps_ne.
  { destruct (lookup_lt_is_Some_2 texts i) as [t Hti];
      [apply lookup_lt_Some in Hi; lia |].
    intros ->. apply (proj2 (Hin t)). exists i. repeat split; assumption. }
  assert (ns = []) as ->.
  { destruct ns as [| t ns]; [reflexivity |].
    destruct (proj1 (Hout t) (or_introl eq_refl)) as (j & b & _ & Hb & Hba).
    elim Hba. apply Hsame, list_elem_of_In, list_elem_of_lookup. eauto. }
  destruct ps as [| t ps]; [congruence |]. cbn [length Nat.eqb negb].
  rewrite assert_true_bind.
  destruct (choice_In pick_pos (t :: ps) Hps_ne) as (x & -> & _). reflexivity.
Qed.

Lemma getitem_without_negative_witness :
  exists self',
    QuestionData.use_contrastive_examples Contrast.data = true /\
    QuestionData.set_data Contrast.data Sample.train_questions "page" (Some ["London"])
      = inr self' /\
    QuestionData.answers self' = Some ["London"; "London"] /\
    QuestionData.__getitem__ self' 0 0 0
      = inl (Py.IndexError "Cannot choose from an empty sequence").
Proof.
  eexists. split; [reflexivity |]. split; [vm_compute; reflexivity |].
  split; [reflexivity |].
  eapply (getitem_without_negative Contrast.data _ Sample.train_questions "page"
            (Some ["London"]) _ _ 0 "capital of england" "London" _ 0 0);
    [reflexivity | vm_compute; reflexivity | reflexivity | reflexivity | reflexivity
    | reflexivity | vm_compute; reflexivity | |].
  - exists 1%nat. split; [discriminate | reflexivity].
  - intros b [<- | [<- | []]]; reflexivity.
Defined.

(** X9: in ranking mode, for a kept question that shares its answer with
    another kept question and differs in its answer from a third, and with
    every kept text vectorizable, [__getitem__] returns an example made of
    the vectorized question, its answer, the vectorized text of another
    question with the same answer as positive and the vectorized text of a
    question with a different answer as negative, each of the two a
    single-row tensor. *)
Theorem getitem_ranking_example (self self' : QuestionData.t)
    (questions : list (gmap string string)) (answer_field : string)
    (fix_answers : option (list string)) (texts answers : list string)
    (idx : nat) (q a : string) (pick_pos pick_neg : nat) :
  QuestionData.use_contrastive_examples self = true ->
  QuestionData.set_data self questions answer_field fix_answers = inr self' ->
  QuestionData.questions self' = Some texts ->
  QuestionData.answers self' = Some answers ->
  texts !! idx = Some q -> answers !! idx = Some a ->
  (forall t, In t texts ->
     exists v, QuestionData.vectorize t (QuestionData.vocab self')
                 (QuestionData.tokenizer self') = inr v) ->
  (exists i, i <> idx /\ answers !! i = Some a) ->
  (exists j b, answers !! j = Some b /\ b <> a) ->
  exists rq i ti ri j b tj rj,
    QuestionData.__getitem__ self' pick_pos pick_neg (Z.of_nat idx)
      = inr {| Example.tokens := rq; Example.answer := a;
               Example.positive := Some [ri]; Example.negative := Some [rj] |} /\
    QuestionData.vectorize q (QuestionData.vocab self') (QuestionData.tokenizer self')
      = inr [rq] /\
    i <> idx /\ answers !! i = Some a /\ texts !! i = Some ti /\
    QuestionData.vectorize ti (QuestionData.vocab self') (QuestionData.tokenizer self')
      = inr [ri] /\
    answers !! j = Some b /\ b <> a /\ texts !! j = Some tj /\
    QuestionData.vectorize tj (QuestionData.vocab self') (QuestionData.tokenizer self')
      = inr [rj].
Proof.
  intros Hc H Hq Ha Ht Hans Hvec (i0 & Hne0 & Hi0) (j0 & b0 & Hj0 & Hb0).
  destruct (set_data_candidates _ _ _ _ _ Hc H)
    as (texts' & answers' & P & N & Hq' & Ha' & Hp & Hn & Hla & Hlp & Hln & Hrows).
  rewrite Hq in Hq'. injection Hq' as <-. rewrite Ha in Ha'. injection Ha' as <-.
  destruct (set_data_inr _ _ _ _ _ H) as (_ & _ & _ & _ & _ & _ & _ & _ & _ & _ & Hc' & _).
  rewrite Hc in Hc'.
  destruct (lookup_lt_is_Some_2 P idx) as [ps Hps];
    [apply lookup_lt_Some in Ht; lia |].
  destruct (lookup_lt_is_Some_2 N idx) as [ns Hns];
    [apply lookup_lt_Some in Ht; lia |].
  assert (forall t i, texts !! i = Some t ->
            exists r, QuestionData.vectorize t (QuestionData.vocab self')
                        (QuestionData.tokenizer self') = inr [r]) as Hvec1.
  { intros t i Hti. destruct (Hvec t) as [v Hv].
    - apply list_elem_of_In, list_elem_of_lookup. eauto.
    - destruct (vectorize_inr _ _ _ _ Hv) as [r ->]. eauto. }
  destruct (Hvec1 q idx Ht) as [rq Hrq].
  rewrite (getitem_ranking self' texts answers ps ns P N idx q a rq pick_pos pick_neg)
    by assumption.
  destruct (Hrows idx a ps ns Hans Hps Hns) as (Hin & Hout & _).
  assert (ps <> []) as Hps_ne.
  { destruct (lookup_lt_is_Some_2 texts i0) as [t Hti];
      [apply lookup_lt_Some in Hi0; lia |].
    intros ->. apply (proj2 (Hin t)). exists i0. repeat split; assumption. }
  assert (ns <> []) as Hns_ne.
  { destruct (lookup_lt_is_Some_2 texts j0) as [t Htj];
      [apply lookup_lt_Some in Hj0; lia |].
    intros ->. apply (proj2 (Hout t)). exists j0, b0. repeat split; assumption. }
  destruct (choice_In pick_pos ps Hps_ne) as (ti & Hcp & Hti).
  destruct (choice_In pick_neg ns Hns_ne) as (tj & Hcn & Htj).
  apply Hin in Hti as (i & Hne & Hti & Hai).
  apply Hout in Htj as (j & b & Htj & Hbj & Hba).
  destruct (Hvec1 ti i Hti) as [ri Hri]. destruct (Hvec1 tj j Htj) as [rj Hrj].
  exists rq, i, ti, ri, j, b, tj, rj.
  split; [| repeat split; assumption].
  destruct ps as [| t ps]; [congruence |]. cbn [length Nat.eqb negb].
  rewrite assert_true_bind, Hcp, bind_inr_l, Hcn, bind_inr_l, Hri, bind_inr_l, Hrj.
  reflexivity.
Qed.

Lemma getitem_ranking_example_witness :
  exists self',
    QuestionData.use_contrastive_examples Contrast.data = true /\
    QuestionData.set_data Contrast.data Sample.train_questions "page" None = inr self' /\
    QuestionData.answers self' = Some ["London"; "Paris"; "London"; "Paris"] /\
    exists rq i ti ri j b tj rj,
      QuestionData.__getitem__ self' 0 1 0
        = inr {| Example.tokens := rq; Example.answer := "London";
                 Example.positive := Some [ri]; Example.negative := Some [rj] |} /\
      QuestionData.vectorize "capital of england" (QuestionData.vocab self')
        (QuestionData.tokenizer self') = inr [rq] /\
      i <> 0%nat /\
      ["London"; "Paris"; "London"; "Paris"] !! i = Some "London" /\
      ["capital of england"; "city of light"; "home of big ben"; "capital of france"] !! i
        = Some ti /\
      QuestionData.vectorize ti (QuestionData.vocab self') (QuestionData.tokenizer self')
        = inr [ri] /\
      ["London"; "Paris"; "London"; "Paris"] !! j = Some b /\ b <> "London" /\
      ["capital of england"; "city of light"; "home of big ben"; "capital of france"] !! j
        = Some tj /\
      QuestionData.vectorize tj (QuestionData.vocab self') (QuestionData.tokenizer self')
        = inr [rj].
Proof.
  eexists. split; [reflexivity |]. split; [vm_compute; reflexivity |].
  split; [reflexivity |].
  eapply (getitem_ranking_example Contrast.data _ Sample.train_questions "page" None
            _ _ 0 "capital of england" "London" 0 1);
    [reflexivity | vm_compute; reflexivity | reflexivity | reflexivity | reflexivity
    | reflexivity | | |].
  - intros t [<- | [<- | [<- | [<- | []]]]]; eexists; vm_compute; reflexivity.
  - exists 2%nat. split; [discriminate | reflexivity].
  - exists 1%nat, "Paris". split; [reflexivity | discriminate].
Defined.

Example getitem_ranking_sample :
  (QuestionData.set_data Contrast.data Sample.train_questions "page" None
     ≫= fun data => QuestionData.__getitem__ data 0 1 0)
  = inr {| Example.tokens := [2; 1; 4]; Example.answer := "London";
           Example.positive := Some [[6; 1; 7; 8]];
           Example.negative := Some [[2; 1; 9]] |}.
Proof. vm_compute. reflexivity. Qed.

(** ** The answer of a stored question ([get_answer_integer]) *)

Lemma getitem_in_range {A} (xs : list A) (i : Z) :
  - Z.of_nat (length xs) <= i < Z.of_nat (length xs) ->
  exists x, getitem xs i = inr x /\ In x xs.
Proof.
  intros Hi. unfold getitem. cbv zeta.
  set (j := if i <? 0 then i + Z.of_nat (length xs) else i).
  assert (0 <= j < Z.of_nat (length xs)) as Hj
    by (unfold j; destruct (Z.ltb_spec i 0); lia).
  assert ((j <? 0) = false) as -> by (apply Z.ltb_ge; lia).
  assert ((Z.of_nat (length xs) <=? j) = false) as -> by (apply Z.leb_gt; lia).
  cbn [orb].
  destruct (nth_error xs (Z.to_nat j)) as [x |] eqn:Hx.
  - exists x. split; [reflexivity | eapply nth_error_In, Hx].
  - apply nth_error_None in Hx. lia.
Qed.

(** X10: [get_answer_integer] never returns the index that its docstring
    promises.  On a data set stored by [set_data] it returns [None] for every
    position of a stored question, counted from the front or, negative, from
    the end (the answer is always found in the answer list, and the index is
    dropped), and it raises [IndexError] for a position past the end. *)
Theorem get_answer_integer_none (self self' : QuestionData.t)
    (questions : list (gmap string string)) (answer_field : string)
    (fix_answers : option (list string)) (answers : list string) (item_id : Z) :
  QuestionData.set_data self questions answer_field fix_answers = inr self' ->
  QuestionData.answers self' = Some answers ->
  (- Z.of_nat (length answers) <= item_id < Z.of_nat (length answers) ->
   QuestionData.get_answer_integer self' item_id = inr None) /\
  (Z.of_nat (length answers) <= item_id ->
   QuestionData.get_answer_integer self' item_id
     = inl (Py.IndexError "list index out of range")) /\
  (forall i, QuestionData.get_answer_integer self' item_id <> inr (Some i)).
Proof.
  intros H Ha.
  destruct (set_data_inr _ _ _ _ _ H) as (texts & _ & Hi & _ & Ha' & _).
  pose proof (kept_labels answer_field (answer_list self questions answer_field fix_answers)
                questions) as Hlab.
  rewrite Ha in Ha'. injection Ha' as Ha'. rewrite <- Ha' in Hlab.
  unfold QuestionData.get_answer_integer. rewrite Hi, Ha. cbn [QuestionData.attr].
  rewrite !bind_ret_l. split; [| split].
  - intros Hrange. destruct (getitem_in_range answers item_id Hrange) as (a & -> & Hin).
    rewrite bind_inr_l.
    assert (In a (answer_list self questions answer_field fix_answers)) as Hidx.
    { assert (Forall (fun a => In a (answer_list self questions answer_field fix_answers))
                answers) as Hall
        by (clear - Hlab; induction Hlab as [| x y l l' [_ Hy] _ IH]; constructor; assumption).
      rewrite Forall_forall in Hall. apply Hall, list_elem_of_In, Hin. }
    destruct (index_from_In _ _ 0%nat Hidx) as (j & Hj).
    unfold index. rewrite Hj. reflexivity.
  - intros Hout. rewrite (getitem_out_of_range answers item_id Hout). reflexivity.
  - intros i Hsome. apply bind_inr in Hsome as (a & _ & Hsome).
    apply bind_inr in Hsome as (j & _ & Hsome). discriminate Hsome.
Qed.

Lemma get_answer_integer_none_witness :
  exists self',
    QuestionData.set_data Contrast.data Sample.train_questions "page" None = inr self' /\
    QuestionData.answers self' = Some ["London"; "Paris"; "London"; "Paris"] /\
    (- Z.of_nat (length ["London"; "Paris"; "London"; "Paris"]) <= 1
       < Z.of_nat (length ["London"; "Paris"; "London"; "Paris"]) ->
     QuestionData.get_answer_integer self' 1 = inr None) /\
    (Z.of_nat (length ["London"; "Paris"; "London"; "Paris"]) <= 1 ->
     QuestionData.get_answer_integer self' 1
       = inl (Py.IndexError "list index out of range")) /\
    (forall i, QuestionData.get_answer_integer self' 1 <> inr (Some i)).
Proof.
  eexists. split; [vm_compute; reflexivity |]. split; [reflexivity |].
  apply (get_answer_integer_none Contrast.data _ Sample.train_questions "page" None
           ["London"; "Paris"; "London"; "Paris"] 1);
    [vm_compute; reflexivity | reflexivity].
Defined.

(** ** Writing and reading stored representations *)

Lemma write_rows_length (reps : list Tensor.vec) (l : list (nat * nat)) (store : list Tensor.vec) :
  length (foldl (write_row reps) store l) = length store.
Proof.
  revert store; induction l as [| p l IH]; intros store; cbn; [reflexivity |].
  rewrite IH. unfold write_row. destruct (reps !! fst p); [apply length_insert | reflexivity].
Qed.

Lemma write_rows_Forall (P : Tensor.vec -> Prop) (reps : list Tensor.vec) (l : list (nat * nat))
    (store : list Tensor.vec) :
  Forall P reps -> Forall P store -> Forall P (foldl (write_row reps) store l).
Proof.
  intros Hreps. revert store; induction l as [| p l IH]; intros store Hstore; cbn;
    [exact Hstore |].
  apply IH. unfold write_row. destruct (reps !! fst p) as [r |] eqn:Hr; [| exact Hstore].
  apply Forall_insert; [exact Hstore |].
  rewrite Forall_forall in Hreps. apply Hreps, list_elem_of_lookup. eauto.
Qed.

Lemma write_rows_other (reps : list Tensor.vec) (l : list (nat * nat)) (store : list Tensor.vec)
    (g : nat) :
  ~ In g (map snd l) -> foldl (write_row reps) store l !! g = store !! g.
Proof.
  revert store; induction l as [| p l IH]; intros store Hg; cbn; [reflexivity |].
  cbn in Hg. rewrite IH by tauto. unfold write_row.
  destruct (reps !! fst p); [| reflexivity].
  apply list_lookup_insert_ne. tauto.
Qed.

Lemma write_rows_lookup (reps : list Tensor.vec) (l : list (nat * nat)) (store : list Tensor.vec)
    (k g : nat) (r : Tensor.vec) :
  NoDup (map snd l) -> In (k, g) l -> reps !! k = Some r -> (g < length store)%nat ->
  foldl (write_row reps) store l !! g = Some r.
Proof.
  revert store; induction l as [| p l IH]; intros store Hnd Hin Hr Hg; cbn; [destruct Hin |].
  cbn in Hnd. apply NoDup_cons in Hnd as [Hp Hnd]. rewrite list_elem_of_In in Hp.
  destruct Hin as [-> | Hin].
  - rewrite write_rows_other by exact Hp. unfold write_row. cbn [fst snd]. rewrite Hr.
    apply list_lookup_insert_eq, Hg.
  - apply IH; [exact Hnd | exact Hin | exact Hr |].
    unfold write_row. destruct (reps !! fst p); cbv iota; [| exact Hg].
    rewrite length_insert. exact Hg.
Qed.

Lemma snd_zip_seq {A} (l : list A) (a : nat) : map snd (zip (seq a (length l)) l) = l.
Proof. revert a; induction l as [| x l IH]; intros a; cbn; [| rewrite IH]; reflexivity. Qed.

Lemma in_zip_seq_lookup {A} (l : list A) (k : nat) (x : A) :
  In (k, x) (zip (seq 0 (length l)) l) <-> l !! k = Some x.
Proof. rewrite in_zip_seq, Nat.sub_0_r, lookup_nth_error. split; [tauto | intros H; split; [lia | exact H]]. Qed.

(** The copy loop of [set_representation] on rows of the stored width. *)
Lemma copy_loop_returns (reps : list Tensor.vec) (d : nat) (l : list (nat * nat)) :
  Forall (fun r => length r = d) reps ->
  forall store : list Tensor.vec,
    Forall (fun r => length r = d) store ->
    Forall (fun p => (fst p < length reps)%nat /\ (snd p < length store)%nat) l ->
    foldl (fun (acc : Py.t (list Tensor.vec)) (p : nat * nat) =>
             store ← acc;
             src ← getitem reps (Z.of_nat (fst p));
             dst ← getitem store (Z.of_nat (snd p));
             row ← Linear.copy_vec dst src;
             Py.ret (<[snd p := row]> store))
          (Py.ret store) l
    = inr (foldl (write_row reps) store l).
Proof.
  intros Hreps. induction l as [| p l IH]; intros store Hstore Hl; [reflexivity |].
  apply Forall_cons in Hl as [[Hk Hg] Hl]. cbn [foldl].
  destruct (lookup_lt_is_Some_2 _ _ Hk) as [src Hsrc].
  destruct (lookup_lt_is_Some_2 _ _ Hg) as [dst Hdst].
  rewrite bind_ret_l, (getitem_lookup _ _ _ Hsrc), bind_inr_l.
  rewrite (getitem_lookup _ _ _ Hdst), bind_inr_l.
  assert (length src = d) as Hls
    by (rewrite Forall_forall in Hreps; apply Hreps, list_elem_of_lookup; eauto).
  assert (length dst = d) as Hld
    by (rewrite Forall_forall in Hstore; apply Hstore, list_elem_of_lookup; eauto).
  unfold Linear.copy_vec. rewrite Hls, Hld, Nat.eqb_refl, bind_ret_l.
  replace (<[snd p := src]> store) with (write_row reps store p)
    by (unfold write_row; rewrite Hsrc; reflexivity).
  apply IH.
  - unfold write_row. rewrite Hsrc. apply Forall_insert; assumption.
  - eapply Forall_impl; [exact Hl |]. cbn. intros q [H1 H2].
    unfold write_row. rewrite Hsrc, length_insert. split; assumption.
Qed.

Lemma set_representation_returns (self : QuestionData.t) (indices : list nat)
    (representations R : Tensor.mat) :
  QuestionData.representations self = Some R ->
  Forall (fun r => length r = QuestionData.dimension self) R ->
  representations <> [] ->
  Forall (fun r => length r = QuestionData.dimension self) representations ->
  (length indices <= length representations)%nat ->
  Forall (fun g => (g < length R)%nat) indices ->
  QuestionData.set_representation self indices representations =
    inr (QuestionData.set_representations self
           (Some (foldl (write_row representations) R
                    (zip (seq 0 (length indices)) indices)))).
Proof.
  intros HR Hrows Hne Hreps Hlen Hidx. unfold QuestionData.set_representation.
  rewrite HR. cbn [QuestionData.attr]. rewrite assert_true_bind, bind_ret_l.
  destruct representations as [| first rest] eqn:E; [congruence |].
  change (getitem (first :: rest) 0) with (inr first : Py.t Tensor.vec).
  rewrite bind_inr_l. rewrite <- E in *.
  assert (length first = QuestionData.dimension self) as ->
    by (rewrite E in Hreps; apply Forall_cons in Hreps as [H _]; exact H).
  rewrite Nat.eqb_refl, assert_true_bind.
  rewrite (copy_loop_returns representations (QuestionData.dimension self)); try assumption.
  - reflexivity.
  - apply Forall_forall. intros [k g] Hin.
    apply list_elem_of_In, in_zip_seq_lookup in Hin. cbn.
    split; [apply lookup_lt_Some in Hin; lia |].
    rewrite Forall_forall in Hidx. apply Hidx, list_elem_of_lookup. eauto.
Qed.

Lemma get_representation_lookup (self : QuestionData.t) (R : Tensor.mat) (g : nat) :
  QuestionData.representations self = Some R ->
  QuestionData.get_representation self (Z.of_nat g) =
    match R !! g with
    | Some r => inr r
    | None => inl (Py.IndexError "list index out of range")
    end.
Proof.
  intros HR. unfold QuestionData.get_representation. rewrite HR.
  destruct (R !! g) as [r |] eqn:Hg; [apply getitem_lookup, Hg |].
  apply getitem_out_of_range. apply lookup_ge_None in Hg. lia.
Qed.

(** X11: writing rows with [set_representation] and reading them back.  On
    a store of rows of the configured width, with a non-empty batch of rows
    of that width, at least as many as there are indices, the indices
    distinct and inside the store, [set_representation] returns; afterwards
    [get_representation] at the k-th index gives the k-th row of the batch,
    at a position that is not an index it gives what it gave before, and the
    store has as many rows as before. *)
Theorem set_representation_get (self : QuestionData.t) (indices : list nat)
    (representations R : Tensor.mat) :
  QuestionData.representations self = Some R ->
  Forall (fun r => length r = QuestionData.dimension self) R ->
  representations <> [] ->
  Forall (fun r => length r = QuestionData.dimension self) representations ->
  (length indices <= length representations)%nat ->
  Forall (fun g => (g < length R)%nat) indices ->
  NoDup indices ->
  exists self' R',
    QuestionData.set_representation self indices representations = inr self' /\
    QuestionData.representations self' = Some R' /\
    length R' = length R /\
    (forall k g r,
       indices !! k = Some g -> representations !! k = Some r ->
       QuestionData.get_representation self' (Z.of_nat g) = inr r) /\
    (forall g,
       ~ In g indices ->
       QuestionData.get_representation self' (Z.of_nat g) =
       QuestionData.get_representation self (Z.of_nat g)).
Proof.
  intros HR Hrows Hne Hreps Hlen Hidx Hnd.
  do 2 eexists. split; [apply set_representation_returns; eassumption |].
  split; [reflexivity |]. split; [apply write_rows_length |]. split.
  - intros k g r Hk Hr.
    erewrite get_representation_lookup by reflexivity.
    erewrite write_rows_lookup; [reflexivity | | | exact Hr |].
    + rewrite snd_zip_seq. exact Hnd.
    + apply in_zip_seq_lookup, Hk.
    + rewrite Forall_forall in Hidx. apply Hidx, list_elem_of_lookup. eauto.
  - intros g Hg.
    erewrite get_representation_lookup by reflexivity.
    rewrite (get_representation_lookup self R g HR).
    rewrite write_rows_other; [reflexivity |]. rewrite snd_zip_seq. exact Hg.
Qed.

Lemma set_representation_get_witness :
  QuestionData.representations Session.store_before_refresh = Some [[6; 4]; [14; 8]]%Q /\
  Forall (fun r => length r = QuestionData.dimension Session.store_before_refresh)
         [[6; 4]; [14; 8]]%Q /\
  [[3; 4]]%Q <> [] /\
  Forall (fun r => length r = QuestionData.dimension Session.store_before_refresh)
         [[3; 4]]%Q /\
  (length [1%nat] <= length [[3; 4]]%Q)%nat /\
  Forall (fun g => (g < length [[6; 4]; [14; 8]]%Q)%nat) [1%nat] /\
  NoDup [1%nat] /\
  exists self' R',
    QuestionData.set_representation Session.store_before_refresh [1%nat] [[3; 4]]%Q
      = inr self' /\
    QuestionData.representations self' = Some R' /\
    length R' = length [[6; 4]; [14; 8]]%Q /\
    (forall k g r,
       [1%nat] !! k = Some g -> [[3; 4]]%Q !! k = Some r ->
       QuestionData.get_representation self' (Z.of_nat g) = inr r) /\
    (forall g,
       ~ In g [1%nat] ->
       QuestionData.get_representation self' (Z.of_nat g) =
       QuestionData.get_representation Session.store_before_refresh (Z.of_nat g)).
Proof.
  assert (Forall (fun r : Tensor.vec => length r = 2%nat) [[6; 4]; [14; 8]]%Q) as H1
    by (repeat constructor).
  assert (Forall (fun r : Tensor.vec => length r = 2%nat) [[3; 4]]%Q) as H2
    by (repeat constructor).
  assert (Forall (fun g => (g < 2)%nat) [1%nat]) as H3 by (repeat constructor).
  assert (NoDup [1%nat]) as H4 by apply NoDup_singleton.
  split; [reflexivity |]. split; [exact H1 |]. split; [discriminate |].
  split; [exact H2 |]. split; [cbn; lia |]. split; [exact H3 |]. split; [exact H4 |].
  apply (set_representation_get Session.store_before_refresh [1%nat] [[3; 4]]%Q
           [[6; 4]; [14; 8]]%Q eq_refl H1 ltac:(discriminate) H2 ltac:(cbn; lia) H3 H4).
Defined.

(** ** Stored representations and the lookup index *)

Lemma set_representation_frame (self self' : QuestionData.t) (indices : list nat)
    (representations : Tensor.mat) :
  QuestionData.set_representation self indices representations = inr self' ->
  same_but_representations self self'.
Proof.
  unfold QuestionData.set_representation. intros H.
  apply bind_inr in H as (? & _ & H). apply bind_inr in H as (? & _ & H).
  apply bind_inr in H as (? & _ & H). apply bind_inr in H as (? & _ & H).
  apply bind_inr in H as (? & _ & H). injection H as <-. reflexivity.
Qed.

Lemma same_but_representations_trans (s1 s2 s3 : QuestionData.t) :
  same_but_representations s1 s2 -> same_but_representations s2 s3 ->
  same_but_representations s1 s3.
Proof.
  unfold same_but_representations. intros H12 H23. rewrite H23 at 1. rewrite H12 at 1.
  reflexivity.
Qed.

Lemma build_representation_from_frame (docs : list string) (idx : nat)
    (masks : nat -> list (list bool)) (model : DanModel.t) (self self' : QuestionData.t) :
  build_representation_from idx docs masks model self = inr self' ->
  same_but_representations self self'.
Proof.
  revert idx self; induction docs as [| doc docs IH]; intros idx self; cbn.
  - intros [= <-]. destruct self. reflexivity.
  - intros H.
    apply bind_inr in H as (? & _ & H). apply bind_inr in H as (? & _ & H).
    apply bind_inr in H as (? & _ & H). apply bind_inr in H as (? & _ & H).
    apply bind_inr in H as (? & _ & H). apply bind_inr in H as (s1 & H1 & H).
    apply IH in H. apply set_representation_frame in H1.
    eapply same_but_representations_trans; eassumption.
Qed.

Lemma same_but_representations_queries (self self' : QuestionData.t) :
  same_but_representations self self' ->
  forall (query_row : Tensor.vec) (query_representation : Tensor.mat) (n_nearest : Z),
    QuestionData.get_nearest self' query_row n_nearest =
    QuestionData.get_nearest self query_row n_nearest /\
    QuestionData.get_batch_nearest self' query_representation n_nearest =
    QuestionData.get_batch_nearest self query_representation n_nearest.
Proof.
  unfold same_but_representations. intros H q Q k. rewrite H. split; reflexivity.
Qed.

(** X12: the lookup index is a copy.  Rows written by [set_representation],
    and the rows recomputed by [build_representation], change the stored
    representations only: every query, single or batched, is answered as
    before the update (result or exception) until [refresh_index] is
    called. *)
Theorem representation_updates_keep_index :
  (forall (self self' : QuestionData.t) (indices : list nat) (representations : Tensor.mat),
     QuestionData.set_representation self indices representations = inr self' ->
     forall (query_row : Tensor.vec) (query_representation : Tensor.mat) (n_nearest : Z),
       QuestionData.get_nearest self' query_row n_nearest =
       QuestionData.get_nearest self query_row n_nearest /\
       QuestionData.get_batch_nearest self' query_representation n_nearest =
       QuestionData.get_batch_nearest self query_representation n_nearest) /\
  (forall (masks : nat -> list (list bool)) (model : DanModel.t)
          (self self' : QuestionData.t),
     build_representation masks model self = inr self' ->
     forall (query_row : Tensor.vec) (query_representation : Tensor.mat) (n_nearest : Z),
       QuestionData.get_nearest self' query_row n_nearest =
       QuestionData.get_nearest self query_row n_nearest /\
       QuestionData.get_batch_nearest self' query_representation n_nearest =
       QuestionData.get_batch_nearest self query_representation n_nearest).
Proof.
  split.
  - intros self self' indices representations H.
    apply same_but_representations_queries. eapply set_representation_frame, H.
  - intros masks model self self' H.
    apply same_but_representations_queries.
    unfold build_representation in H. apply bind_inr in H as (? & _ & H).
    eapply build_representation_from_frame, H.
Qed.


Lemma representation_updates_keep_index_witness :
  exists self',
    QuestionData.set_representation Session.store [0%nat] [[14; 8]]%Q = inr self' /\
    QuestionData.representations self' = Some [[14; 8]; [14; 8]]%Q /\
    QuestionData.get_nearest self' [14; 8]%Q 1
      = QuestionData.get_nearest Session.store [14; 8]%Q 1 /\
    QuestionData.get_batch_nearest self' [[14; 8]]%Q 1
      = QuestionData.get_batch_nearest Session.store [[14; 8]]%Q 1.
Proof.
  eexists. split; [vm_compute; reflexivity |]. split; [reflexivity |].
  apply (proj1 representation_updates_keep_index Session.store _ [0%nat] [[14; 8]]%Q).
  vm_compute; reflexivity.
Defined.

Example stale_index_sample :
  (QuestionData.set_representation Session.store [0%nat] [[14; 8]]%Q
     ≫= fun data => QuestionData.get_nearest data [14; 8]%Q 1) = inr [1] /\
  (QuestionData.set_representation Session.store [0%nat] [[14; 8]]%Q
     ≫= fun data => QuestionData.refresh_index data
     ≫= fun data => QuestionData.get_nearest data [14; 8]%Q 1) = inr [0].
Proof. split; vm_compute; reflexivity. Qed.

(** ** Finding a stored row again *)

Lemma sum_squares_nonneg (l : list Q) :
  (0 <= fold_right Qplus 0 (map (fun x => x * x) l))%Q.
Proof.
  induction l as [| x l IH]; cbn; [apply Qle_refl |].
  assert (0 <= x * x)%Q by (destruct x as [n d]; unfold Qle; cbn; nia).
  replace 0%Q with (0 + 0)%Q by reflexivity. apply Qplus_le_compat; assumption.
Qed.

Lemma l2sqr_nonneg (u v : Tensor.vec) : (0 <= IndexFlatL2.l2sqr u v)%Q.
Proof. apply sum_squares_nonneg. Qed.

Lemma l2sqr_same (u : Tensor.vec) : (IndexFlatL2.l2sqr u u == 0)%Q.
Proof.
  unfold IndexFlatL2.l2sqr, Tensor.vsub.
  induction u as [| x u IH]; cbn; [reflexivity |]. rewrite IH. ring.
Qed.

Lemma get_nearest_one (self : QuestionData.t) (R : Tensor.mat) (q : Tensor.vec) :
  QuestionData.lookup self =
    Some {| IndexFlatL2.d := QuestionData.dimension self; IndexFlatL2.xb := R |} ->
  length q = QuestionData.dimension self ->
  R <> [] ->
  exists i r,
    QuestionData.get_nearest self q 1 = inr [Z.of_nat i] /\
    R !! i = Some r /\
    forall j r', R !! j = Some r' -> (IndexFlatL2.l2sqr q r <= IndexFlatL2.l2sqr q r')%Q.
Proof.
  intros Hl Hq Hne. unfold QuestionData.get_nearest. rewrite Hl.
  cbn [QuestionData.attr]. rewrite assert_true_bind, bind_ret_l.
  unfold IndexFlatL2.search. cbn [forallb IndexFlatL2.d].
  rewrite Hq, Nat.eqb_refl. cbn [andb]. rewrite !assert_true_bind.
  cbn [map]. rewrite bind_ret_l.
  destruct (search_one_nearest
              {| IndexFlatL2.d := QuestionData.dimension self; IndexFlatL2.xb := R |} q Hne)
    as (i & r & Hs & Hi & Hmin).
  change (Z.to_nat 1) with 1%nat. rewrite Hs.
  exists i, r. split; [reflexivity |]. cbn [IndexFlatL2.xb] in Hi, Hmin.
  split; [etransitivity; [apply lookup_nth_error | exact Hi] |].
  intros j r' Hj. apply (Hmin j).
  etransitivity; [symmetry; apply lookup_nth_error | exact Hj].
Qed.

(** X13: a row written with [set_representation] is found again once the
    index is refreshed.  Under the preconditions of the write,
    [refresh_index] returns after it, and a query for the single nearest
    neighbour of a written row returns the position of a stored row at
    distance 0 from it. *)
Theorem refresh_index_finds_written_row (self : QuestionData.t) (indices : list nat)
    (representations R : Tensor.mat) :
  QuestionData.representations self = Some R ->
  Forall (fun r => length r = QuestionData.dimension self) R ->
  representations <> [] ->
  Forall (fun r => length r = QuestionData.dimension self) representations ->
  (length indices <= length representations)%nat ->
  Forall (fun g => (g < length R)%nat) indices ->
  NoDup indices ->
  exists self' self'',
    QuestionData.set_representation self indices representations = inr self' /\
    QuestionData.refresh_index self' = inr self'' /\
    forall k g r,
      indices !! k = Some g -> representations !! k = Some r ->
      exists g' r',
        QuestionData.get_nearest self'' r 1 = inr [Z.of_nat g'] /\
        QuestionData.get_representation self'' (Z.of_nat g') = inr r' /\
        (IndexFlatL2.l2sqr r r' == 0)%Q.
Proof.
  intros HR Hrows Hne Hreps Hlen Hidx Hnd.
  set (R' := foldl (write_row representations) R (zip (seq 0 (length indices)) indices)).
  assert (Forall (fun r => length r = QuestionData.dimension self) R') as Hrows'
    by (apply write_rows_Forall; assumption).
  do 2 eexists. split; [apply set_representation_returns; eassumption |].
  split.
  { apply (refresh_index_returns _ R'); [reflexivity |].
    apply forallb_forall. intros r Hr. apply Nat.eqb_eq.
    rewrite Forall_forall in Hrows'. apply Hrows', list_elem_of_In, Hr. }
  intros k g r Hk Hr.
  assert (R' !! g = Some r) as Hg.
  { apply (write_rows_lookup _ _ _ k); [rewrite snd_zip_seq; exact Hnd | | exact Hr |].
    - apply in_zip_seq_lookup, Hk.
    - rewrite Forall_forall in Hidx. apply Hidx, list_elem_of_lookup. eauto. }
  match goal with |- context [QuestionData.get_nearest ?s _ _] => set (s2 := s) end.
  destruct (get_nearest_one s2 R' r) as (g' & r' & Hq & Hg' & Hmin).
  - reflexivity.
  - rewrite Forall_forall in Hreps. apply Hreps, list_elem_of_lookup. eauto.
  - intros E. rewrite E in Hg. discriminate Hg.
  - exists g', r'. split; [exact Hq |]. split.
    + rewrite (get_representation_lookup s2 R' g' eq_refl), Hg'. reflexivity.
    + apply Qle_antisym; [| apply l2sqr_nonneg].
      rewrite <- (l2sqr_same r). apply (Hmin g), Hg.
Qed.

Lemma refresh_index_finds_written_row_witness :
  QuestionData.representations Session.store_before_refresh = Some [[6; 4]; [14; 8]]%Q /\
  Forall (fun r => length r = QuestionData.dimension Session.store_before_refresh)
         [[6; 4]; [14; 8]]%Q /\
  [[3; 4]]%Q <> [] /\
  Forall (fun r => length r = QuestionData.dimension Session.store_before_refresh)
         [[3; 4]]%Q /\
  (length [1%nat] <= length [[3; 4]]%Q)%nat /\
  Forall (fun g => (g < length [[6; 4]; [14; 8]]%Q)%nat) [1%nat] /\
  NoDup [1%nat] /\
  exists self' self'',
    QuestionData.set_representation Session.store_before_refresh [1%nat] [[3; 4]]%Q
      = inr self' /\
    QuestionData.refresh_index self' = inr self'' /\
    forall k g r,
      [1%nat] !! k = Some g -> [[3; 4]]%Q !! k = Some r ->
      exists g' r',
        QuestionData.get_nearest self'' r 1 = inr [Z.of_nat g'] /\
        QuestionData.get_representation self'' (Z.of_nat g') = inr r' /\
        (IndexFlatL2.l2sqr r r' == 0)%Q.
Proof.
  assert (Forall (fun r : Tensor.vec => length r = 2%nat) [[6; 4]; [14; 8]]%Q) as H1
    by (repeat constructor).
  assert (Forall (fun r : Tensor.vec => length r = 2%nat) [[3; 4]]%Q) as H2
    by (repeat constructor).
  assert (Forall (fun g => (g < 2)%nat) [1%nat]) as H3 by (repeat constructor).
  assert (NoDup [1%nat]) as H4 by apply NoDup_singleton.
  split; [reflexivity |]. split; [exact H1 |]. split; [discriminate |].
  split; [exact H2 |]. split; [cbn; lia |]. split; [exact H3 |]. split; [exact H4 |].
  apply (refresh_index_finds_written_row Session.store_before_refresh [1%nat] [[3; 4]]%Q
           [[6; 4]; [14; 8]]%Q eq_refl H1 ltac:(discriminate) H2 ltac:(cbn; lia) H3 H4).
Defined.

(** ** The result of a nearest-neighbour query *)

Lemma NoDup_map_inj {A B} (f : A -> B) (l : list A) :
  (forall x y, f x = f y -> x = y) -> NoDup l -> NoDup (map f l).
Proof.
  intros Hinj. induction 1 as [| x l Hx Hnd IH]; cbn; constructor; [| exact IH].
  rewrite list_elem_of_In, in_map_iff. intros (y & Hy & Hin).
  apply Hinj in Hy as ->. apply Hx, list_elem_of_In, Hin.
Qed.

Lemma StronglySorted_firstn {A} (R : A -> A -> Prop) (n : nat) (l : list A) :
  StronglySorted R l -> StronglySorted R (firstn n l).
Proof.
  intros Hs. revert n; induction Hs as [| a l Hs IH Hall]; intros [| n]; cbn;
    try constructor.
  - apply IH.
  - rewrite Forall_forall in Hall. apply Forall_forall. intros x Hx.
    apply Hall. apply list_elem_of_In in Hx. apply list_elem_of_In.
    eapply in_firstn, Hx.
Qed.

Lemma StronglySorted_map_key {A B} (R : A -> A -> Prop) (S' : B -> B -> Prop) (f : A -> B)
    (l : list A) :
  (forall a b, In a l -> In b l -> R a b -> S' (f a) (f b)) ->
  StronglySorted R l -> StronglySorted S' (map f l).
Proof.
  intros Hf Hs. induction Hs as [| a l Hs IH Hall]; cbn; constructor.
  - apply IH. intros x y Hx Hy. apply Hf; right; assumption.
  - apply Forall_map. rewrite Forall_forall in Hall. apply Forall_forall.
    intros x Hx. apply Hf; [left; reflexivity | right; apply list_elem_of_In, Hx |].
    apply Hall, Hx.
Qed.

Section Search.
Variable ix : IndexFlatL2.t.
Variable q : Tensor.vec.

Let le (a b : Q * Z) : bool := Qle_bool (fst a) (fst b).
Let scored : list (Q * Z) :=
  map (fun p : nat * Tensor.vec => (IndexFlatL2.l2sqr q (snd p), Z.of_nat (fst p)))
      (zip (seq 0 (length (IndexFlatL2.xb ix))) (IndexFlatL2.xb ix)).

Lemma score_total (a b : Q * Z) : le a b = true \/ le b a = true.
Proof.
  unfold le. rewrite !Qle_bool_iff.
  destruct (Qlt_le_dec (fst a) (fst b)) as [H | H];
    [left; apply Qlt_le_weak, H | right; exact H].
Qed.

Lemma score_trans (a b c : Q * Z) : le a b = true -> le b c = true -> le a c = true.
Proof. unfold le. rewrite !Qle_bool_iff. apply Qle_trans. Qed.

Lemma scored_In (x : Q * Z) :
  In x scored <->
  exists i r, x = (IndexFlatL2.l2sqr q r, Z.of_nat i) /\
              nth_error (IndexFlatL2.xb ix) i = Some r.
Proof.
  unfold scored. rewrite in_map_iff. split.
  - intros ([i r] & <- & Hir). apply in_zip_seq in Hir as [_ Hir].
    rewrite Nat.sub_0_r in Hir. exists i, r. split; [reflexivity | exact Hir].
  - intros (i & r & -> & Hir). exists (i, r). split; [reflexivity |].
    apply in_zip_seq. rewrite Nat.sub_0_r. split; [lia | exact Hir].
Qed.

Lemma scored_ids : map snd scored = map Z.of_nat (seq 0 (length (IndexFlatL2.xb ix))).
Proof.
  unfold scored. rewrite map_map. cbn.
  generalize 0%nat. induction (IndexFlatL2.xb ix) as [| r xb IH]; intros a; cbn;
    [| rewrite IH]; reflexivity.
Qed.

Lemma scored_length : length scored = length (IndexFlatL2.xb ix).
Proof.
  rewrite <- (length_map snd), scored_ids, length_map, length_seq. reflexivity.
Qed.

Lemma scored_distance (x : Q * Z) : In x scored -> fst x = distance_to ix q (snd x).
Proof.
  intros H. apply scored_In in H as (i & r & -> & Hr). cbn.
  unfold distance_to. rewrite Nat2Z.id, Hr. reflexivity.
Qed.

(** The ids that [search_one] returns for [k] neighbours. *)
Lemma search_one_spec (k : nat) :
  let found := Nat.min k (length (IndexFlatL2.xb ix)) in
  let ids := IndexFlatL2.search_one ix k q in
  length ids = k /\
  Forall (fun i => 0 <= i < Z.of_nat (length (IndexFlatL2.xb ix))) (take found ids) /\
  NoDup (take found ids) /\
  StronglySorted (fun i j => (distance_to ix q i <= distance_to ix q j)%Q) (take found ids) /\
  drop found ids = repeat (-1) (k - found).
Proof.
  intros found ids. unfold ids, IndexFlatL2.search_one. fold scored. fold le.
  set (best := firstn k (sorted le scored)).
  pose proof (sorted_perm le scored) as Hperm.
  assert (length best = found) as Hlen.
  { unfold best, found. rewrite length_firstn, (Permutation_length Hperm), scored_length.
    reflexivity. }
  assert (forall x, In x best -> In x scored) as Hin.
  { intros x Hx. apply (Permutation_in _ Hperm). eapply in_firstn, Hx. }
  rewrite take_app_length' by (rewrite length_map; symmetry; exact Hlen).
  rewrite drop_app_length' by (rewrite length_map; symmetry; exact Hlen).
  rewrite Hlen. repeat split.
  - rewrite length_app, length_map, repeat_length, Hlen. unfold found. lia.
  - apply Forall_map, Forall_forall. intros x Hx.
    apply list_elem_of_In, Hin, scored_In in Hx as (i & r & -> & Hr). cbn.
    assert (i < length (IndexFlatL2.xb ix))%nat by (apply nth_error_Some; congruence).
    lia.
  - unfold best. apply NoDup_map_firstn.
    rewrite (Permutation_map snd Hperm), scored_ids.
    apply NoDup_map_inj; [intros x y; lia | apply NoDup_seq].
  - apply (StronglySorted_map_key (fun a b => le a b = true)).
    + intros a b Ha Hb Hab. apply Hin, scored_distance in Ha, Hb.
      rewrite <- Ha, <- Hb. apply Qle_bool_iff, Hab.
    + unfold best. apply StronglySorted_firstn.
      apply sorted_StronglySorted; [apply score_total | apply score_trans].
Qed.

(** With at least one stored row and at least one neighbour asked for, the
    first id is the position of a nearest row. *)
Lemma search_one_head (k : nat) :
  (0 < k)%nat -> IndexFlatL2.xb ix <> [] ->
  exists i rest,
    IndexFlatL2.search_one ix k q = Z.of_nat i :: rest /\ nearest_row ix q i.
Proof.
  intros Hk Hne. unfold IndexFlatL2.search_one. fold scored. fold le.
  destruct (sorted_head le scored score_total score_trans)
    as (x & rest & Hsorted & Hin & Hmin).
  { intros E. pose proof scored_length as Hl. rewrite E in Hl.
    destruct (IndexFlatL2.xb ix); [congruence | discriminate]. }
  rewrite Hsorted. destruct k as [| k]; [lia |]. cbn [firstn map app].
  apply scored_In in Hin as (i & r & -> & Hr). cbn [snd].
  exists i. eexists. split; [reflexivity |].
  exists r. split; [etransitivity; [apply lookup_nth_error | exact Hr] |].
  intros j r' Hj.
  assert (In (IndexFlatL2.l2sqr q r', Z.of_nat j) scored) as Hin'.
  { apply scored_In. exists j, r'. split; [reflexivity |].
    etransitivity; [symmetry; apply lookup_nth_error | exact Hj]. }
  specialize (Hmin _ Hin'). unfold le in Hmin. cbn in Hmin. apply Qle_bool_iff, Hmin.
Qed.

End Search.

(** X14: what a nearest-neighbour query returns.  On a refreshed index,
    for a query row of the index width and a positive number [k] of
    neighbours, [get_nearest] returns exactly [k] ids: first the positions of
    [min(k, n)] distinct stored rows, [n] being the number of rows of the
    index, ordered by non-decreasing squared distance to the query, then, if
    [k] exceeds [n], the filler id -1.  For a query row of another width, and
    for [k <= 0], it raises [AssertionError]. *)
Theorem get_nearest_result (self : QuestionData.t) (ix : IndexFlatL2.t)
    (query_row : Tensor.vec) (n_nearest : Z) :
  QuestionData.lookup self = Some ix ->
  let n := length (IndexFlatL2.xb ix) in
  let found := Nat.min (Z.to_nat n_nearest) n in
  (length query_row = IndexFlatL2.d ix -> 0 < n_nearest ->
   exists ids,
     QuestionData.get_nearest self query_row n_nearest = inr ids /\
     length ids = Z.to_nat n_nearest /\
     Forall (fun i => 0 <= i < Z.of_nat n) (take found ids) /\
     NoDup (take found ids) /\
     StronglySorted (fun i j => (distance_to ix query_row i <= distance_to ix query_row j)%Q)
                    (take found ids) /\
     drop found ids = repeat (-1) (Z.to_nat n_nearest - found)) /\
  (length query_row <> IndexFlatL2.d ix ->
   QuestionData.get_nearest self query_row n_nearest
     = inl (Py.AssertionError "d == self.d")) /\
  (length query_row = IndexFlatL2.d ix -> n_nearest <= 0 ->
   QuestionData.get_nearest self query_row n_nearest = inl (Py.AssertionError "k > 0")).
Proof.
  intros Hl n found. unfold QuestionData.get_nearest. rewrite Hl.
  cbn [QuestionData.attr]. rewrite assert_true_bind, bind_ret_l.
  unfold IndexFlatL2.search. cbn [forallb]. split; [| split].
  - intros Hq Hk. rewrite Hq, Nat.eqb_refl. cbn [andb]. rewrite assert_true_bind.
    assert ((0 <? n_nearest) = true) as -> by (apply Z.ltb_lt; exact Hk).
    rewrite assert_true_bind. cbn [map]. rewrite bind_ret_l.
    eexists. split; [reflexivity |].
    apply (search_one_spec ix query_row (Z.to_nat n_nearest)).
  - intros Hq. apply Nat.eqb_neq in Hq. rewrite Hq. reflexivity.
  - intros Hq Hk. rewrite Hq, Nat.eqb_refl. cbn [andb]. rewrite assert_true_bind.
    assert ((0 <? n_nearest) = false) as -> by (apply Z.ltb_ge; exact Hk).
    reflexivity.
Qed.

Lemma get_nearest_result_witness :
  let ix := {| IndexFlatL2.d := 2; IndexFlatL2.xb := [[6; 4]; [14; 8]]%Q |} in
  let query_row := [13; 8]%Q in
  QuestionData.lookup Session.store = Some ix /\
  let n := length (IndexFlatL2.xb ix) in
  let found := Nat.min (Z.to_nat 3) n in
  (length query_row = IndexFlatL2.d ix -> 0 < 3 ->
   exists ids,
     QuestionData.get_nearest Session.store query_row 3 = inr ids /\
     length ids = Z.to_nat 3 /\
     Forall (fun i => 0 <= i < Z.of_nat n) (take found ids) /\
     NoDup (take found ids) /\
     StronglySorted (fun i j => (distance_to ix query_row i <= distance_to ix query_row j)%Q)
                    (take found ids) /\
     drop found ids = repeat (-1) (Z.to_nat 3 - found)) /\
  (length query_row <> IndexFlatL2.d ix ->
   QuestionData.get_nearest Session.store query_row 3
     = inl (Py.AssertionError "d == self.d")) /\
  (length query_row = IndexFlatL2.d ix -> 3 <= 0 ->
   QuestionData.get_nearest Session.store query_row 3 = inl (Py.AssertionError "k > 0")).
Proof.
  split; [reflexivity |].
  apply (get_nearest_result Session.store
           {| IndexFlatL2.d := 2; IndexFlatL2.xb := [[6; 4]; [14; 8]]%Q |} [13; 8]%Q 3).
  reflexivity.
Defined.

Example get_nearest_more_than_stored :
  QuestionData.get_nearest Session.store [13; 8]%Q 3 = inr [1; 0; -1] /\
  QuestionData.get_nearest Session.store [13; 8; 0]%Q 3
    = inl (Py.AssertionError "d == self.d") /\
  QuestionData.get_nearest Session.store [13; 8]%Q 0 = inl (Py.AssertionError "k > 0").
Proof. repeat split; vm_compute; reflexivity. Qed.

(** ** The answers of a batch query *)

(** X15: on a refreshed, non-empty index that holds one row per stored
    answer, for query rows of the index width and at least one neighbour
    asked for, [get_batch_nearest] returns one answer per query row: the
    stored answer at the position of a stored row that is at least as close
    to the query (in squared Euclidean distance) as every stored row. *)
Theorem get_batch_nearest_answers (self : QuestionData.t) (ix : IndexFlatL2.t)
    (answers : list string) (query_representation : Tensor.mat) (n_nearest : Z) :
  QuestionData.lookup self = Some ix ->
  QuestionData.answers self = Some answers ->
  length answers = length (IndexFlatL2.xb ix) ->
  IndexFlatL2.xb ix <> [] ->
  Forall (fun q => length q = IndexFlatL2.d ix) query_representation ->
  0 < n_nearest ->
  exists predictions,
    QuestionData.get_batch_nearest self query_representation n_nearest = inr predictions /\
    Forall2 (fun q p => exists i, answers !! i = Some p /\ nearest_row ix q i)
            query_representation predictions.
Proof.
  intros Hl Ha Hlen Hne Hq Hk. unfold QuestionData.get_batch_nearest.
  rewrite Hl, Ha. cbn [QuestionData.attr]. rewrite bind_ret_l.
  unfold IndexFlatL2.search.
  assert (forallb (fun r : list Q => Nat.eqb (length r) (IndexFlatL2.d ix))
                  query_representation = true) as ->.
  { apply forallb_forall. intros r Hr. apply Nat.eqb_eq.
    rewrite Forall_forall in Hq. apply Hq, list_elem_of_In, Hr. }
  rewrite assert_true_bind.
  assert ((0 <? n_nearest) = true) as -> by (apply Z.ltb_lt; exact Hk).
  rewrite assert_true_bind, !bind_ret_l.
  clear Hq. induction query_representation as [| q Q IH]; cbn [map Py.mapM].
  - exists []. split; [reflexivity | constructor].
  - destruct (search_one_head ix q (Z.to_nat n_nearest)) as (i & rest & -> & Hi);
      [lia | exact Hne |].
    change (getitem (Z.of_nat i :: rest) 0) with (inr (Z.of_nat i) : Py.t Z).
    destruct Hi as (r & Hr & Hmin).
    destruct (lookup_lt_is_Some_2 answers i) as [p Hp];
      [apply lookup_lt_Some in Hr; lia |].
    destruct IH as (ps & HQ & Hall).
    exists (p :: ps). split.
    + unfold Py.bind at 1. cbn beta iota. rewrite bind_inr_l.
      rewrite (getitem_lookup _ _ _ Hp). unfold Py.bind at 1. cbn beta iota.
      rewrite HQ. reflexivity.
    + constructor; [| exact Hall]. exists i. split; [exact Hp |].
      exists r. split; [exact Hr | exact Hmin].
Qed.

Lemma get_batch_nearest_answers_witness :
  let ix := {| IndexFlatL2.d := 2; IndexFlatL2.xb := [[6; 4]; [14; 8]]%Q |} in
  let answers := ["London"; "Paris"] in
  let query_representation := [[13; 8]; [0; 0]]%Q in
  QuestionData.lookup Session.store = Some ix /\
  QuestionData.answers Session.store = Some answers /\
  length answers = length (IndexFlatL2.xb ix) /\
  IndexFlatL2.xb ix <> [] /\
  Forall (fun q => length q = IndexFlatL2.d ix) query_representation /\
  0 < 1 /\
  exists predictions,
    QuestionData.get_batch_nearest Session.store query_representation 1 = inr predictions /\
    Forall2 (fun q p => exists i, answers !! i = Some p /\ nearest_row ix q i)
            query_representation predictions.
Proof.
  assert (Forall (fun q : Tensor.vec => length q = 2%nat) [[13; 8]; [0; 0]]%Q) as Hq
    by (repeat constructor).
  split; [reflexivity |]. split; [reflexivity |]. split; [reflexivity |].
  split; [discriminate |]. split; [exact Hq |]. split; [lia |].
  apply (get_batch_nearest_answers Session.store
           {| IndexFlatL2.d := 2; IndexFlatL2.xb := [[6; 4]; [14; 8]]%Q |}
           ["London"; "Paris"] [[13; 8]; [0; 0]]%Q 1 eq_refl eq_refl eq_refl
           ltac:(discriminate) Hq ltac:(lia)).
Defined.

Example get_batch_nearest_sample :
  QuestionData.get_batch_nearest Session.store [[13; 8]; [0; 0]]%Q 1
  = inr ["Paris"; "London"].
Proof. vm_compute. reflexivity. Qed.

(** ** Recomputing the stored representations ([build_representation]) *)

Lemma bind_ret_r {A} (m : Py.t A) : (m ≫= fun a => Py.ret a) = m.
Proof. destruct m; reflexivity. Qed.

Lemma set_representation_one (self s1 : QuestionData.t) (idx : nat)
    (representation : Tensor.mat) :
  QuestionData.set_representation self [idx] representation = inr s1 ->
  exists R out,
    QuestionData.representations self = Some R /\
    representation !! 0%nat = Some out /\
    (idx < length R)%nat /\
    QuestionData.representations s1 = Some (<[idx := out]> R) /\
    same_but_representations self s1.
Proof.
  intros H. pose proof (set_representation_frame _ _ _ _ H) as Hframe.
  unfold QuestionData.set_representation in H.
  apply bind_inr in H as (? & _ & H). apply bind_inr in H as (R & HR & H).
  apply bind_inr in H as (first & Hfirst & H). apply bind_inr in H as (? & _ & H).
  apply bind_inr in H as (store & Hstore & H). injection H as <-.
  destruct (QuestionData.representations self) as [R0 |] eqn:HR0; [| discriminate HR].
  injection HR as ->.
  cbn [length seq zip_with foldl] in Hstore.
  rewrite bind_ret_l in Hstore. cbn [fst snd] in Hstore.
  change (Z.of_nat 0) with 0 in Hstore.
  rewrite Hfirst, bind_inr_l in Hstore.
  apply bind_inr in Hstore as (dst & Hdst & Hstore).
  apply bind_inr in Hstore as (row & Hrow & Hstore). injection Hstore as <-.
  unfold Linear.copy_vec in Hrow.
  destruct (Nat.eqb (length dst) (length first)); [| discriminate Hrow].
  injection Hrow as <-.
  exists R, first. split; [reflexivity |]. split.
  - destruct representation as [| r rest]; [discriminate Hfirst |].
    injection Hfirst as ->. reflexivity.
  - split; [| split; [reflexivity | exact Hframe]].
    unfold getitem in Hdst. cbv zeta in Hdst.
    assert ((Z.of_nat idx <? 0) = false) as E1 by (apply Z.ltb_ge; lia).
    rewrite !E1 in Hdst. cbn [orb] in Hdst.
    destruct (Z.leb_spec (Z.of_nat (length R)) (Z.of_nat idx)); [discriminate Hdst | lia].
Qed.

Lemma build_representation_from_rows (docs : list string) :
  forall (k : nat) (masks : nat -> list (list bool)) (model : DanModel.t)
         (self self' : QuestionData.t) (R : Tensor.mat),
    QuestionData.representations self = Some R ->
    build_representation_from k docs masks model self = inr self' ->
    exists R',
      QuestionData.representations self' = Some R' /\
      length R' = length R /\
      (forall j, (j < k)%nat -> R' !! j = R !! j) /\
      forall i t, docs !! i = Some t ->
        exists row rep out,
          QuestionData.vectorize t (QuestionData.vocab self) (QuestionData.tokenizer self)
            = inr [row] /\
          DanModel.forward model (masks (k + i)%nat) [row] [Z.of_nat (length row)]
            = inr rep /\
          rep !! 0%nat = Some out /\
          R' !! (k + i)%nat = Some out.
Proof.
  induction docs as [| doc docs IH]; intros k masks model self self' R HR H.
  - cbn in H. injection H as <-. exists R. split; [exact HR |]. split; [reflexivity |].
    split; [reflexivity |]. intros i t Hi. discriminate Hi.
  - cbn [build_representation_from] in H.
    apply bind_inr in H as (q_vec & Hvec & H).
    destruct (vectorize_inr _ _ _ _ Hvec) as [row ->].
    change (getitem [row] 0) with (inr row : Py.t (list Z)) in H. rewrite bind_inr_l in H.
    apply bind_inr in H as (embed & Hembed & H).
    apply bind_inr in H as (average & Haverage & H).
    apply bind_inr in H as (representation & Hnet & H).
    apply bind_inr in H as (s1 & Hset & H).
    assert (DanModel.forward model (masks k) [row] [Z.of_nat (length row)]
            = inr representation) as Hforward.
    { unfold DanModel.forward. rewrite Hembed, bind_inr_l, Haverage, bind_inr_l, Hnet.
      reflexivity. }
    destruct (set_representation_one _ _ _ _ Hset) as (R0 & out & HR0 & Hout & Hk & HR1 & Hframe).
    rewrite HR in HR0. injection HR0 as <-.
    destruct (IH (S k) masks model s1 self' _ HR1 H) as (R' & HR' & Hlen & Hlow & Hrows).
    assert (QuestionData.vocab s1 = QuestionData.vocab self /\
            QuestionData.tokenizer s1 = QuestionData.tokenizer self) as [Hv Ht]
      by (rewrite Hframe; split; reflexivity).
    exists R'. split; [exact HR' |]. split; [rewrite Hlen; apply length_insert |].
    split.
    + intros j Hj. rewrite Hlow by lia. apply list_lookup_insert_ne. lia.
    + intros [| i] t Hi.
      * injection Hi as <-. exists row, representation, out.
        rewrite Nat.add_0_r. repeat split; try assumption.
        rewrite Hlow by lia. apply list_lookup_insert_eq, Hk.
      * destruct (Hrows i t Hi) as (row' & rep' & out' & H1 & H2 & H3 & H4).
        rewrite Hv, Ht in H1. replace (k + S i)%nat with (S k + i)%nat by lia.
        exists row', rep', out'. repeat split; assumption.
Qed.

(** X16: [build_representation] stores, for every question of the data set,
    the first row of the forward pass of the model on the vectorized
    question with its true length.  The model is used as it is passed: in
    training mode the dropout draw of the pass enters the stored row.  The
    number of stored rows does not change. *)
Theorem build_representation_stores_forward (masks : nat -> list (list bool))
    (model : DanModel.t) (self self' : QuestionData.t) (texts : list string)
    (R : Tensor.mat) :
  QuestionData.questions self = Some texts ->
  QuestionData.representations self = Some R ->
  build_representation masks model self = inr self' ->
  exists R',
    QuestionData.representations self' = Some R' /\
    length R' = length R /\
    forall idx t, texts !! idx = Some t ->
      exists row rep out,
        QuestionData.vectorize t (QuestionData.vocab self) (QuestionData.tokenizer self)
          = inr [row] /\
        DanModel.forward model (masks idx) [row] [Z.of_nat (length row)] = inr rep /\
        rep !! 0%nat = Some out /\
        R' !! idx = Some out.
Proof.
  intros Hq HR H. unfold build_representation in H. rewrite Hq in H.
  cbn [QuestionData.attr] in H. rewrite bind_ret_l in H.
  destruct (build_representation_from_rows texts 0 masks model self self' R HR H)
    as (R' & HR' & Hlen & _ & Hrows).
  exists R'. split; [exact HR' |]. split; [exact Hlen |]. exact Hrows.
Qed.

Lemma build_representation_stores_forward_witness :
  let masks := fun _ : nat => [[true; false]] in
  exists self',
    QuestionData.questions Session.store_before_refresh
      = Some ["capital of england"; "city of light"] /\
    QuestionData.representations Session.store_before_refresh
      = Some [[6; 4]; [14; 8]]%Q /\
    build_representation masks Scenario.ranker Session.store_before_refresh = inr self' /\
    exists R',
      QuestionData.representations self' = Some R' /\
      length R' = length [[6; 4]; [14; 8]]%Q /\
      forall idx t, ["capital of england"; "city of light"] !! idx = Some t ->
        exists row rep out,
          QuestionData.vectorize t (QuestionData.vocab Session.store_before_refresh)
            (QuestionData.tokenizer Session.store_before_refresh) = inr [row] /\
          DanModel.forward Scenario.ranker (masks idx) [row] [Z.of_nat (length row)]
            = inr rep /\
          rep !! 0%nat = Some out /\
          R' !! idx = Some out.
Proof.
  eexists. split; [reflexivity |]. split; [reflexivity |].
  split; [vm_compute; reflexivity |].
  apply (build_representation_stores_forward (fun _ : nat => [[true; false]])
           Scenario.ranker Session.store_before_refresh _
           ["capital of england"; "city of light"] [[6; 4]; [14; 8]]%Q eq_refl eq_refl).
  vm_compute; reflexivity.
Defined.

(** With the model in training mode the stored rows carry the dropout draw;
    in evaluation mode they do not. *)
Example build_representation_under_dropout :
  exists R R0,
    (QuestionData.representations <$>
       build_representation (fun _ => [[true; false]]) Scenario.ranker
         Session.store_before_refresh) = inr (Some R) /\
    Forall2 Tensor.veq R [[8 / 3; 0]; [0; 0]]%Q /\
    (QuestionData.representations <$>
       build_representation (fun _ => [[true; false]]) (DanModel.eval Scenario.ranker)
         Session.store_before_refresh) = inr (Some R0) /\
    Forall2 Tensor.veq R0 [[10 / 3; 2]; [1; 1]]%Q.
Proof.
  exists [[24 # 9; 0 # 9]; [0; 0]]%Q, [[270 # 81; 162 # 81]; [9 # 9; 9 # 9]]%Q.
  split; [vm_compute; reflexivity |].
  split; [repeat (constructor; [repeat (constructor; [reflexivity |]); constructor |]);
          constructor |].
  split; [vm_compute; reflexivity |].
  repeat (constructor; [repeat (constructor; [reflexivity |]); constructor |]);
    constructor.
Qed.

(** ** Constructing a model ([DanModel.__init__]) *)

Lemma initialize_parameters_default (self : DanModel.t) (initialization : string) :
  initialization <> "identity" ->
  DanModel.initialize_parameters self initialization = inr self.
Proof.
  intros H. unfold DanModel.initialize_parameters.
  apply String.eqb_neq in H. rewrite H. reflexivity.
Qed.

Lemma init_not_identity (rng : DanModel.Init) (model_filename : string)
    (criterion : Criterion) (vocab_size : nat) (n_answers : Z) (emb_dim n_hidden_units : nat)
    (nn_dropout : Q) (initialization : string) (m : DanModel.t) :
  DanModel.__init__ rng model_filename criterion vocab_size n_answers emb_dim
    n_hidden_units nn_dropout initialization = inr m ->
  initialization <> "identity".
Proof.
  unfold DanModel.__init__. intros H.
  apply bind_inr in H as (e & _ & H). apply bind_inr in H as (second & _ & H).
  intros ->. discriminate H.
Qed.

(** X17: when [DanModel.__init__] succeeds.  For arguments that the torch
    constructors accept (a class count that is not negative, a dropout
    probability between 0 and 1), the constructor returns a model exactly
    when the vocabulary size is positive, the criterion is the ranking or the
    cross-entropy loss, and the initialization is not ['identity'].  The model
    it returns is in training mode; its first layer maps the embedding width
    to the hidden width; in ranking mode its second layer keeps the hidden
    width and the recorded class count is -1, in classification mode the
    second layer has one output per class.  With any other criterion and a
    positive vocabulary size it raises [AttributeError], no second layer
    having been created. *)
Theorem init_outcome (rng : DanModel.Init) (model_filename : string) (criterion : Criterion)
    (vocab_size : nat) (n_answers : Z) (emb_dim n_hidden_units : nat) (nn_dropout : Q)
    (initialization : string) :
  0 <= n_answers -> (0 <= nn_dropout <= 1)%Q ->
  let result := DanModel.__init__ rng model_filename criterion vocab_size n_answers emb_dim
                  n_hidden_units nn_dropout initialization in
  ((exists m, result = inr m) <->
   (0 < vocab_size)%nat /\ supported criterion /\ initialization <> "identity") /\
  (forall m, result = inr m ->
     DanModel.training m = true /\
     Linear.in_features (DanModel.linear1 m) = emb_dim /\
     Linear.out_features (DanModel.linear1 m) = n_hidden_units /\
     Linear.in_features (DanModel.linear2 m) = n_hidden_units /\
     ((exists margin, criterion = MarginRankingLoss margin) ->
      DanModel.num_answers m = -1 /\
      Linear.out_features (DanModel.linear2 m) = n_hidden_units) /\
     (criterion = CrossEntropyLoss ->
      DanModel.num_answers m = n_answers /\
      Linear.out_features (DanModel.linear2 m) = Z.to_nat n_answers)) /\
  ((0 < vocab_size)%nat -> forall name, criterion = OtherLoss name ->
   result = inl (Py.AttributeError "'DanModel' object has no attribute 'linear2'")).
Proof.
  intros _ _ result. unfold result. split; [| split].
  - split.
    + intros [m Hm]. pose proof (init_not_identity _ _ _ _ _ _ _ _ _ _ Hm) as Hid.
      apply init_inr in Hm as (Hv & out & na & Hsecond & _).
      split; [exact Hv |]. split; [| exact Hid].
      destruct criterion as [margin | | name]; [left; eauto | right; reflexivity |].
      discriminate Hsecond.
    + intros (Hv & Hs & Hid). unfold DanModel.__init__, Embedding.new.
      apply Nat.ltb_lt in Hv. rewrite Hv, assert_true_bind, bind_ret_l.
      destruct Hs as [[margin ->] | ->]; rewrite bind_ret_l;
        rewrite (initialize_parameters_default _ _ Hid); eauto.
  - intros m Hm. apply init_inr in Hm as (Hv & out & na & Hsecond & ->).
    cbn. do 4 (split; [reflexivity |]). split.
    + intros [margin ->]. cbn in Hsecond. injection Hsecond as <- <-. split; reflexivity.
    + intros ->. cbn in Hsecond. injection Hsecond as <- <-. split; reflexivity.
  - intros Hv name ->. unfold DanModel.__init__, Embedding.new.
    apply Nat.ltb_lt in Hv. rewrite Hv, assert_true_bind, bind_ret_l. reflexivity.
Qed.

Lemma init_outcome_witness :
  0 <= 2 /\ (0 <= 1 # 2 <= 1)%Q /\
  let result := DanModel.__init__ Scenario.rng "dan" CrossEntropyLoss 4 2 2 2 (1 # 2) "" in
  ((exists m, result = inr m) <->
   (0 < 4)%nat /\ supported CrossEntropyLoss /\ "" <> "identity") /\
  (forall m, result = inr m ->
     DanModel.training m = true /\
     Linear.in_features (DanModel.linear1 m) = 2%nat /\
     Linear.out_features (DanModel.linear1 m) = 2%nat /\
     Linear.in_features (DanModel.linear2 m) = 2%nat /\
     ((exists margin, CrossEntropyLoss = MarginRankingLoss margin) ->
      DanModel.num_answers m = -1 /\
      Linear.out_features (DanModel.linear2 m) = 2%nat) /\
     (CrossEntropyLoss = CrossEntropyLoss ->
      DanModel.num_answers m = 2 /\
      Linear.out_features (DanModel.linear2 m) = Z.to_nat 2)) /\
  ((0 < 4)%nat -> forall name, CrossEntropyLoss = OtherLoss name ->
   result = inl (Py.AttributeError "'DanModel' object has no attribute 'linear2'")).
Proof.
  split; [lia |]. split; [split; discriminate |].
  apply (init_outcome Scenario.rng "dan" CrossEntropyLoss 4 2 2 2 (1 # 2) "");
    [lia | split; discriminate].
Defined.

Example init_unsupported_criterion :
  DanModel.__init__ Scenario.rng "dan" (make_criterion "MSELoss") 4 2 2 2 (1 # 2) ""
  = inl (Py.AttributeError "'DanModel' object has no attribute 'linear2'").
Proof. reflexivity. Qed.

(** ** The forward pass *)

Lemma trained_well_shaped (rng : DanModel.Init) (model_filename : string)
    (criterion : Criterion) (vocab_size : nat) (n_answers : Z) (emb_dim n_hidden_units : nat)
    (nn_dropout : Q) (initialization : string) (m0 m : DanModel.t) :
  DanModel.__init__ rng model_filename criterion vocab_size n_answers emb_dim
    n_hidden_units nn_dropout initialization = inr m0 ->
  trained_from m0 m ->
  well_shaped m.
Proof.
  intros Hinit Htf. apply init_inr in Hinit as (_ & out & na & _ & ->).
  destruct Htf as (H1 & H2 & H3 & H4 & H5 & H6 & H7 & H8 & H9 & H10 & H11 & H12 & H13
                   & H14 & S).
  cbn in H2, H3, H8, H9, H11, H12, H13.
  unfold well_shaped. split; [exact S |]. repeat split; congruence.
Qed.

Lemma rectangular_spec (n d : nat) (x : Tensor.mat) :
  Tensor.rectangular n d x = true <-> length x = n /\ Forall (fun r => length r = d) x.
Proof.
  unfold Tensor.rectangular. rewrite andb_true_iff, Nat.eqb_eq, forallb_forall, Forall_forall.
  split; intros [H1 H2]; (split; [exact H1 |]); intros r Hr.
  - apply Nat.eqb_eq, H2, list_elem_of_In, Hr.
  - apply Nat.eqb_eq, H2, list_elem_of_In, Hr.
Qed.

Lemma embedding_row_in_range (e : Embedding.t) (id : Z) :
  Tensor.rectangular (Embedding.num_embeddings e) (Embedding.embedding_dim e)
    (Embedding.weight e) = true ->
  0 <= id < Z.of_nat (Embedding.num_embeddings e) ->
  exists r, Embedding.row e id = inr r /\ length r = Embedding.embedding_dim e.
Proof.
  intros Hrect Hid. apply rectangular_spec in Hrect as [Hlen Hrows].
  unfold Embedding.row.
  assert ((id <? 0) = false) as -> by (apply Z.ltb_ge; lia).
  destruct (nth_error (Embedding.weight e) (Z.to_nat id)) as [r |] eqn:Hr.
  - exists r. split; [reflexivity |].
    rewrite Forall_forall in Hrows. apply Hrows, list_elem_of_In.
    eapply nth_error_In, Hr.
  - apply nth_error_None in Hr. lia.
Qed.

Lemma embedding_row_out_of_range (e : Embedding.t) (id : Z) :
  length (Embedding.weight e) = Embedding.num_embeddings e ->
  id < 0 \/ Z.of_nat (Embedding.num_embeddings e) <= id ->
  Embedding.row e id = inl (Py.IndexError "index out of range in self").
Proof.
  intros Hlen Hid. unfold Embedding.row.
  destruct (Z.ltb_spec id 0) as [Hneg | Hpos]; [reflexivity |].
  destruct (nth_error (Embedding.weight e) (Z.to_nat id)) as [r |] eqn:Hr; [| reflexivity].
  assert (Z.to_nat id < length (Embedding.weight e))%nat
    by (apply nth_error_Some; congruence).
  lia.
Qed.

Lemma embedding_row_raises (e : Embedding.t) (id : Z) (err : Py.exn) :
  Embedding.row e id = inl err -> err = Py.IndexError "index out of range in self".
Proof.
  unfold Embedding.row, Py.raise, Py.ret.
  destruct (id <? 0); [intros [= <-]; reflexivity |].
  destruct (nth_error _ _); [discriminate | intros [= <-]; reflexivity].
Qed.

Lemma embedding_call_in_range (e : Embedding.t) (input : list (list Z)) :
  Tensor.rectangular (Embedding.num_embeddings e) (Embedding.embedding_dim e)
    (Embedding.weight e) = true ->
  Forall (Forall (fun id => 0 <= id < Z.of_nat (Embedding.num_embeddings e))) input ->
  exists X,
    Embedding.call e input = inr X /\ length X = length input /\
    Forall (Forall (fun r => length r = Embedding.embedding_dim e)) X.
Proof.
  intros Hrect Hall. unfold Embedding.call.
  induction Hall as [| ids input Hids _ (X & HX & Hlen & Hrows)]; cbn.
  - exists []. repeat split. constructor.
  - assert (exists rs, Py.mapM (Embedding.row e) ids = inr rs /\
                       Forall (fun r => length r = Embedding.embedding_dim e) rs)
      as (rs & Hrs & Hlens).
    { clear - Hrect Hids. induction Hids as [| id ids Hid _ (rs & Hrs & Hlens)]; cbn.
      - exists []. split; [reflexivity | constructor].
      - destruct (embedding_row_in_range e id Hrect Hid) as (r & -> & Hr).
        rewrite Hrs. exists (r :: rs). split; [reflexivity | constructor; assumption]. }
    rewrite Hrs, HX. exists (rs :: X). cbn. repeat split; [lia |].
    constructor; assumption.
Qed.

Lemma embedding_call_out_of_range (e : Embedding.t) (input : list (list Z)) :
  length (Embedding.weight e) = Embedding.num_embeddings e ->
  Exists (Exists (fun id => id < 0 \/ Z.of_nat (Embedding.num_embeddings e) <= id)) input ->
  Embedding.call e input = inl (Py.IndexError "index out of range in self").
Proof.
  intros Hlen Hex. apply Exists_exists in Hex as (ids & Hin & Hex).
  apply Exists_exists in Hex as (id & Hid & Hout).
  pose proof (embedding_row_out_of_range e id Hlen Hout) as Hrow.
  apply list_elem_of_In in Hin, Hid.
  destruct (mapM_raises (Embedding.row e) ids id _ Hid Hrow) as (e1 & He1).
  unfold Embedding.call.
  destruct (mapM_raises (Py.mapM (Embedding.row e)) input ids _ Hin He1) as (e2 & He2).
  rewrite He2. apply mapM_inl in He2 as (ids' & _ & He2).
  apply mapM_inl in He2 as (id' & _ & He2).
  apply embedding_row_raises in He2 as ->. reflexivity.
Qed.

Lemma sum_rows_length (d : nat) (rows : list Tensor.vec) :
  Forall (fun r => length r = d) rows -> length (Tensor.sum_rows d rows) = d.
Proof.
  intros H. destruct rows as [| r rows]; cbn; [apply zeros_length |].
  apply Forall_cons in H as [Hr Hrows]. apply fold_vadd_length; assumption.
Qed.

Lemma linear_call_shape (l : Linear.t) (x : Tensor.mat) :
  length (Linear.weight l) = Linear.out_features l ->
  length (Linear.bias l) = Linear.out_features l ->
  Forall (fun r => length r = Linear.in_features l) x ->
  exists y,
    Linear.call l x = inr y /\ length y = length x /\
    Forall (fun r => length r = Linear.out_features l) y.
Proof.
  intros Hw Hb Hx. unfold Linear.call.
  induction Hx as [| r x Hr _ (y & Hy & Hlen & Hrows)]; cbn.
  - exists []. repeat split. constructor.
  - rewrite Hr, Nat.eqb_refl. cbn. rewrite Hy. eexists. split; [reflexivity |].
    cbn. split; [lia |]. constructor; [| exact Hrows].
    rewrite length_zip_with. lia.
Qed.

(** X18: the forward pass of a trained model in evaluation mode.  For a
    batch of id rows with one length per row, the pass returns one output
    row per input row, each as wide as the second layer, whenever every id
    is a row of the embedding table; the dropout draw plays no part.  When
    some id is negative or not below the vocabulary size, the pass raises
    [IndexError], in training as in evaluation mode. *)
Theorem forward_shape (rng : DanModel.Init) (model_filename : string)
    (criterion : Criterion) (vocab_size : nat) (n_answers : Z) (emb_dim n_hidden_units : nat)
    (nn_dropout : Q) (initialization : string) (m0 m : DanModel.t)
    (input_text : list (list Z)) (text_len : list Z) :
  DanModel.__init__ rng model_filename criterion vocab_size n_answers emb_dim
    n_hidden_units nn_dropout initialization = inr m0 ->
  trained_from m0 m ->
  length text_len = length input_text ->
  (Forall (Forall (fun id => 0 <= id < Z.of_nat vocab_size)) input_text ->
   exists out,
     (forall mask, DanModel.forward (DanModel.eval m) mask input_text text_len = inr out) /\
     length out = length input_text /\
     Forall (fun r => length r = Linear.out_features (DanModel.linear2 m)) out) /\
  (Exists (Exists (fun id => id < 0 \/ Z.of_nat vocab_size <= id)) input_text ->
   forall training mask,
     DanModel.forward (DanModel.set_training m training) mask input_text text_len
       = inl (Py.IndexError "index out of range in self")).
Proof.
  intros Hinit Htf Hlen.
  pose proof (trained_well_shaped _ _ _ _ _ _ _ _ _ _ _ Hinit Htf)
    as ((S1 & S2 & S3 & S4 & S5) & Hnum & Hdim & Hin1 & Hin2).
  assert (DanModel.vocab_size m = vocab_size) as Hvs.
  { apply init_inr in Hinit as (_ & out & na & _ & ->).
    destruct Htf as (_ & H2 & _). exact H2. }
  rewrite Hvs in Hnum.
  apply rectangular_spec in S2 as [W1 _]. apply rectangular_spec in S4 as [W2 _].
  split.
  - intros Hids. rewrite <- Hnum in Hids.
    destruct (embedding_call_in_range _ _ S1 Hids) as (X & HX & HlenX & Hrows).
    set (avg := zip_with Tensor.vdiv (map (Tensor.sum_rows (DanModel.emb_dim m)) X)
                  (map (fun l => Qmax (inject_Z l) 1) text_len)).
    assert (DanModel.average (DanModel.eval m) X text_len = inr avg) as Havg.
    { unfold DanModel.average, DanModel.broadcast_div.
      rewrite !length_map, HlenX, <- Hlen, Nat.eqb_refl. rewrite map_map. reflexivity. }
    assert (length avg = length input_text) as Hlavg
      by (unfold avg; rewrite length_zip_with, !length_map; lia).
    assert (Forall (fun r => length r = Linear.in_features (DanModel.linear1 m)) avg)
      as Hwavg.
    { unfold avg. apply Forall_forall. intros r Hr.
      apply list_elem_of_lookup in Hr as [i Hr].
      apply lookup_zip_with_Some in Hr as (s & c & -> & Hs & _).
      unfold Tensor.vdiv. rewrite length_map.
      rewrite map_lookup in Hs. destruct (X !! i) as [rows |] eqn:Hi; [| discriminate Hs].
      injection Hs as <-. rewrite Hin1, <- Hdim. apply sum_rows_length.
      rewrite Forall_forall in Hrows. apply Hrows, list_elem_of_lookup. eauto. }
    destruct (linear_call_shape _ _ W1 S3 Hwavg) as (h & Hh & Hlh & Hwh).
    assert (Forall (fun r => length r = Linear.in_features (DanModel.linear2 m))
                   (ReLU h)) as Hrelu.
    { unfold ReLU. apply Forall_map. eapply Forall_impl; [exact Hwh |]. cbn.
      intros r Hr. rewrite length_map. congruence. }
    destruct (linear_call_shape _ _ W2 S5 Hrelu) as (out & Hout & Hlout & Hwout).
    exists out. split; [| split; [| exact Hwout]].
    + intros mask. unfold DanModel.forward.
      change (DanModel.embeddings (DanModel.eval m)) with (DanModel.embeddings m).
      rewrite HX, bind_inr_l, Havg, bind_inr_l.
      unfold DanModel.network.
      change (DanModel.linear1 (DanModel.eval m)) with (DanModel.linear1 m).
      change (DanModel.linear2 (DanModel.eval m)) with (DanModel.linear2 m).
      rewrite Hh, bind_inr_l. cbn [DanModel.eval DanModel.set_training DanModel.training
                                    Dropout].
      rewrite Hout. reflexivity.
    + unfold ReLU in Hlout. rewrite length_map in Hlout.
      etransitivity; [exact Hlout |]. etransitivity; [exact Hlh | exact Hlavg].
  - intros Hex training mask. rewrite <- Hnum in Hex. unfold DanModel.forward.
    change (DanModel.embeddings (DanModel.set_training m training))
      with (DanModel.embeddings m).
    apply rectangular_spec in S1 as [Hw _].
    rewrite (embedding_call_out_of_range _ _ Hw Hex). reflexivity.
Qed.

Lemma classifier_trained_from : trained_from Scenario.classifier Scenario.classifier.
Proof. unfold trained_from, shapes_ok. repeat split; reflexivity. Qed.

Lemma forward_shape_witness :
  DanModel.__init__ Scenario.rng "dan" CrossEntropyLoss 4 2 2 2 (1 # 2) ""
    = inr Scenario.classifier /\
  trained_from Scenario.classifier Scenario.classifier /\
  length [2; 1] = length [[1; 2]; [3; 0]] /\
  (Forall (Forall (fun id => 0 <= id < Z.of_nat 4)) [[1; 2]; [3; 0]] ->
   exists out,
     (forall mask,
        DanModel.forward (DanModel.eval Scenario.classifier) mask [[1; 2]; [3; 0]] [2; 1]
          = inr out) /\
     length out = length [[1; 2]; [3; 0]] /\
     Forall (fun r => length r = Linear.out_features (DanModel.linear2 Scenario.classifier))
            out) /\
  (Exists (Exists (fun id => id < 0 \/ Z.of_nat 4 <= id)) [[1; 2]; [3; 0]] ->
   forall training mask,
     DanModel.forward (DanModel.set_training Scenario.classifier training) mask
       [[1; 2]; [3; 0]] [2; 1]
       = inl (Py.IndexError "index out of range in self")).
Proof.
  split; [reflexivity |]. split; [exact classifier_trained_from |].
  split; [reflexivity |].
  apply (forward_shape Scenario.rng "dan" CrossEntropyLoss 4 2 2 2 (1 # 2) ""
           Scenario.classifier Scenario.classifier [[1; 2]; [3; 0]] [2; 1]
           eq_refl classifier_trained_from eq_refl).
Defined.

Example forward_unknown_id :
  DanModel.forward Scenario.classifier [[true; true]] [[1; 4]] [2]
  = inl (Py.IndexError "index out of range in self").
Proof. reflexivity. Qed.

(** ** A guesser that has no model yet *)




(** ** What [save] writes *)

(** X20: [save()] on a guesser that has a model writes the model bundle
    under [<filename>.torch.pkl], holding the parameters of the model, the
    vocabulary, the answer list and the name of the criterion, and, in
    ranking mode only, the data bundle under [<filename>.data.pkl], holding
    the stored representations, questions and answers.  Every other file is
    left as it was; in classification mode a data bundle left by an earlier
    session stays in place. *)
Theorem save_writes (g : DanGuesser.t) (m : DanModel.t) (td : QuestionData.t)
    (fs fs' : gmap string DanGuesser.File) :
  DanGuesser.dan_model g = Some m ->
  DanGuesser.training_data g = Some td ->
  DanGuesser.save g fs = inr fs' ->
  (forall p, p <> DanGuesser.model_path g -> p <> DanGuesser.data_path g ->
             fs' !! p = fs !! p) /\
  (exists c,
     fs' !! DanGuesser.model_path g = Some (DanGuesser.ModelFile c) /\
     DanGuesser.model_state_dict c = DanGuesser.state_dict m /\
     DanGuesser.ck_vocab c = QuestionData.vocab td /\
     DanGuesser.ck_answer_indices c = QuestionData.answer_indices td /\
     DanGuesser.ck_criterion c = criterion_name (DanModel.criterion m)) /\
  (QuestionData.use_contrastive_examples td = false ->
   fs' !! DanGuesser.data_path g = fs !! DanGuesser.data_path g) /\
  (QuestionData.use_contrastive_examples td = true ->
   exists d,
     fs' !! DanGuesser.data_path g = Some (DanGuesser.DataFile d) /\
     DanGuesser.ck_representations d = QuestionData.representations td /\
     DanGuesser.ck_questions d = QuestionData.questions td /\
     DanGuesser.ck_answers d = QuestionData.answers td).
Proof.
  intros Hm Htd H. pose proof (paths_differ g) as Hneq.
  unfold DanGuesser.save in H. rewrite Hm, Htd in H. cbn [QuestionData.attr] in H.
  rewrite bind_ret_l in H.
  destruct (QuestionData.use_contrastive_examples td) eqn:Hc.
  - apply bind_inr in H as (qs & Hqs & H). apply bind_inr in H as (ans & Hans & H).
    injection H as <-.
    destruct (QuestionData.questions td) as [qs' |] eqn:Eq; [| discriminate Hqs].
    injection Hqs as ->.
    destruct (QuestionData.answers td) as [ans' |] eqn:Ea; [| discriminate Hans].
    injection Hans as ->.
    split; [| split; [| split]].
    + intros p Hp1 Hp2. rewrite !lookup_insert_ne by congruence. reflexivity.
    + eexists. rewrite lookup_insert_ne by congruence. rewrite lookup_insert_eq.
      repeat split; reflexivity.
    + discriminate.
    + intros _. eexists. rewrite lookup_insert_eq. repeat split; reflexivity.
  - injection H as <-. split; [| split; [| split]].
    + intros p Hp1 Hp2. rewrite lookup_insert_ne by congruence. reflexivity.
    + eexists. rewrite lookup_insert_eq. repeat split; reflexivity.
    + intros _. rewrite lookup_insert_ne by congruence. reflexivity.
    + discriminate.
Qed.

Lemma save_writes_witness :
  exists fs',
    DanGuesser.dan_model Session.classification_guesser = Some Scenario.classifier /\
    DanGuesser.training_data Session.classification_guesser = Some Session.labels /\
    DanGuesser.save Session.classification_guesser ∅ = inr fs' /\
    (forall p, p <> DanGuesser.model_path Session.classification_guesser ->
               p <> DanGuesser.data_path Session.classification_guesser ->
               fs' !! p = (∅ : gmap string DanGuesser.File) !! p) /\
    (exists c,
       fs' !! DanGuesser.model_path Session.classification_guesser
         = Some (DanGuesser.ModelFile c) /\
       DanGuesser.model_state_dict c = DanGuesser.state_dict Scenario.classifier /\
       DanGuesser.ck_vocab c = QuestionData.vocab Session.labels /\
       DanGuesser.ck_answer_indices c = QuestionData.answer_indices Session.labels /\
       DanGuesser.ck_criterion c = criterion_name (DanModel.criterion Scenario.classifier)) /\
    (QuestionData.use_contrastive_examples Session.labels = false ->
     fs' !! DanGuesser.data_path Session.classification_guesser
       = (∅ : gmap string DanGuesser.File) !! DanGuesser.data_path
                                               Session.classification_guesser) /\
    (QuestionData.use_contrastive_examples Session.labels = true ->
     exists d,
       fs' !! DanGuesser.data_path Session.classification_guesser
         = Some (DanGuesser.DataFile d) /\
       DanGuesser.ck_representations d = QuestionData.representations Session.labels /\
       DanGuesser.ck_questions d = QuestionData.questions Session.labels /\
       DanGuesser.ck_answers d = QuestionData.answers Session.labels).
Proof.
  eexists. split; [reflexivity |]. split; [reflexivity |]. split; [reflexivity |].
  apply (save_writes Session.classification_guesser Scenario.classifier Session.labels ∅ _
           eq_refl eq_refl eq_refl).
Defined.

(** ** What [load] restores *)

Lemma reload_state (rng : DanModel.Init) (g : DanGuesser.t) (m : DanModel.t)
    (td : QuestionData.t) (fs : gmap string DanGuesser.File) :
  trained g m td ->
  (QuestionData.use_contrastive_examples td = false ->
   fs !! DanGuesser.data_path g = None) ->
  exists fs' reloaded td',
    DanGuesser.save g fs = inr fs' /\
    DanGuesser.load rng
      (DanGuesser.__init__ (DanGuesser.word_tokenize g) (DanGuesser.params g)) fs'
      = inr reloaded /\
    DanGuesser.dan_model reloaded = Some (DanModel.eval m) /\
    DanGuesser.training_data reloaded = Some td' /\
    QuestionData.vocab td' = QuestionData.vocab td /\
    QuestionData.answer_indices td' = QuestionData.answer_indices td /\
    QuestionData.dimension td' = QuestionData.dimension td /\
    QuestionData.use_contrastive_examples td' = QuestionData.use_contrastive_examples td /\
    QuestionData.positive td' = None /\
    QuestionData.negative td' = None /\
    (QuestionData.use_contrastive_examples td = true ->
     QuestionData.representations td' = QuestionData.representations td /\
     QuestionData.questions td' = QuestionData.questions td /\
     QuestionData.answers td' = QuestionData.answers td /\
     QuestionData.lookup td' = QuestionData.lookup td) /\
    (QuestionData.use_contrastive_examples td = false ->
     QuestionData.representations td' = None /\
     QuestionData.questions td' = None /\
     QuestionData.answers td' = None /\
     QuestionData.lookup td' = None).
Proof.
  intros [Hm Htd Hfn (rng0 & nc & vs & m0 & Hinit & Htf) Hc Hd Hidx] Hstale.
  destruct (reload_model rng0 rng _ _ _ _ _ Hinit Htf) as (m1 & m2 & Hm1 & Hm2 & Hev).
  destruct (fresh_paths g Hfn) as [Hmp Hdp].
  pose proof (paths_differ g) as Hneq.
  unfold DanGuesser.save, DanGuesser.load.
  rewrite Hm, Htd, Hmp, Hdp. cbn [QuestionData.attr]. rewrite bind_ret_l.
  destruct (QuestionData.use_contrastive_examples td) eqn:Hcon.
  - destruct (Hidx eq_refl) as ((td0 & Hr) & [qs Hqs] & [ans Hans]).
    apply refresh_index_inr in Hr as (R & HR & Hw & Htd0).
    rewrite Hqs, Hans. cbn [QuestionData.attr]. rewrite !bind_ret_l.
    eexists _, _, _. split; [reflexivity |].
    rewrite (lookup_insert_ne _ (DanGuesser.data_path g) (DanGuesser.model_path g))
      by (intros H; apply Hneq; symmetry; exact H).
    rewrite !lookup_insert_eq. rewrite bind_ret_l.
    cbn [DanGuesser.ck_criterion DanGuesser.ck_vocab_size DanGuesser.ck_num_answers
         DanGuesser.ck_emb_dim DanGuesser.ck_n_hidden_units DanGuesser.ck_nn_dropout
         DanGuesser.model_state_dict DanGuesser.params DanGuesser.__init__].
    rewrite Hm1, bind_inr_l, Hm2, bind_inr_l.
    cbv zeta.
    erewrite refresh_index_returns.
    + rewrite bind_inr_l. split; [reflexivity |].
      cbn [DanGuesser.dan_model DanGuesser.training_data].
      split; [rewrite Hev; reflexivity |]. split; [reflexivity |].
      cbn. do 3 (split; [reflexivity |]). split; [symmetry; exact Hc |].
      do 2 (split; [reflexivity |]). split; [| discriminate].
      intros _. do 3 (split; [reflexivity |]). subst td. reflexivity.
    + cbn. subst td. cbn. exact HR.
    + cbn. subst td. cbn. exact Hw.
  - eexists _, _, _. split; [reflexivity |].
    rewrite (lookup_insert_ne _ (DanGuesser.model_path g) (DanGuesser.data_path g))
      by exact Hneq.
    rewrite (Hstale eq_refl).
    rewrite !lookup_insert_eq. rewrite bind_ret_l.
    cbn [DanGuesser.ck_criterion DanGuesser.ck_vocab_size DanGuesser.ck_num_answers
         DanGuesser.ck_emb_dim DanGuesser.ck_n_hidden_units DanGuesser.ck_nn_dropout
         DanGuesser.model_state_dict DanGuesser.params DanGuesser.__init__].
    rewrite Hm1, bind_inr_l, Hm2, bind_inr_l.
    cbv zeta. rewrite bind_ret_l. split; [reflexivity |].
    cbn [DanGuesser.dan_model DanGuesser.training_data].
    split; [rewrite Hev; reflexivity |]. split; [reflexivity |].
    cbn. do 3 (split; [reflexivity |]). split; [symmetry; exact Hc |].
    do 2 (split; [reflexivity |]). split; [discriminate |].
    intros _. repeat split; reflexivity.
Qed.



(** ** The guesses of [__call__] *)

Lemma getitem_In {A} (xs : list A) (i : Z) (x : A) : getitem xs i = inr x -> In x xs.
Proof.
  unfold getitem. cbv zeta.
  destruct (_ || _); [discriminate |].
  destruct (nth_error xs _) as [y |] eqn:Hy; [| discriminate].
  intros [= <-]. eapply nth_error_In, Hy.
Qed.

Lemma sorted_length {A} (le : A -> A -> bool) (l : list A) : length (sorted le l) = length l.
Proof. apply Permutation_length, sorted_perm. Qed.

Lemma topk_length (k : Z) (row : list Q) (ids : list Z) :
  DanGuesser.topk k row = inr ids -> 0 <= k /\ length ids = Z.to_nat k.
Proof.
  unfold DanGuesser.topk.
  destruct (Z.ltb_spec k 0) as [Hneg | Hpos]; [discriminate |].
  destruct (Z.ltb_spec (Z.of_nat (length row)) k) as [Hbig | Hfit]; [discriminate |].
  cbn [orb]. intros [= <-]. split; [exact Hpos |].
  rewrite length_map, length_firstn, sorted_length, length_zip_with, length_map, length_seq.
  lia.
Qed.

Lemma get_nearest_inr (td : QuestionData.t) (q : Tensor.vec) (n : Z) (ids : list Z) :
  QuestionData.get_nearest td q n = inr ids ->
  exists ix,
    QuestionData.lookup td = Some ix /\ 0 < n /\
    ids = IndexFlatL2.search_one ix (Z.to_nat n) q.
Proof.
  unfold QuestionData.get_nearest. intros H.
  apply bind_inr in H as (? & _ & H). apply bind_inr in H as (ix & Hix & H).
  destruct (QuestionData.lookup td) as [ix' |]; [| discriminate Hix].
  injection Hix as ->.
  apply bind_inr in H as (indices & Hs & H).
  unfold IndexFlatL2.search in Hs.
  apply bind_inr in Hs as (? & _ & Hs). apply bind_inr in Hs as (? & Hk & Hs).
  injection Hs as <-. cbn in H. injection H as <-.
  exists ix. split; [reflexivity |]. split; [| reflexivity].
  unfold Py.assert in Hk. destruct (Z.ltb_spec 0 n); [assumption | discriminate Hk].
Qed.

(** The steps of [__call__] that lead to the raw guesses. *)
Lemma call_inr (g : DanGuesser.t) (td : QuestionData.t) (question : string)
    (n_guesses : Z) (guesses : list (gmap string string)) :
  DanGuesser.training_data g = Some td ->
  DanGuesser.__call__ g question n_guesses = inr guesses ->
  exists (representation : Tensor.mat) (first : Tensor.vec) (raw_guesses : list Z),
    getitem representation 0 = inr first /\
    (if QuestionData.use_contrastive_examples td
     then QuestionData.get_nearest td first n_guesses
     else DanGuesser.topk
            (Z.min n_guesses (Z.of_nat (snd (Tensor.shape representation)))) first)
    = inr raw_guesses /\
    Forall2 (fun i d => exists guess,
               getitem (guess_pool td) i = inr guess /\
               d = ({[ "guess" := reported guess ]} : gmap string string))
            raw_guesses guesses.
Proof.
  intros Htd H. unfold DanGuesser.__call__ in H.
  apply bind_inr in H as (model & _ & H). rewrite Htd in H.
  cbn [QuestionData.attr] in H. rewrite bind_ret_l in H.
  apply bind_inr in H as (q_vec & _ & H). apply bind_inr in H as (row & _ & H).
  apply bind_inr in H as (representation & _ & H).
  apply bind_inr in H as (raw_guesses & Hraw & H).
  assert (exists first,
            getitem representation 0 = inr first /\
            (if QuestionData.use_contrastive_examples td
             then QuestionData.get_nearest td first n_guesses
             else DanGuesser.topk
                    (Z.min n_guesses (Z.of_nat (snd (Tensor.shape representation)))) first)
            = inr raw_guesses) as (first & Hfirst & Hraw').
  { destruct (QuestionData.use_contrastive_examples td);
      apply bind_inr in Hraw as (first & Hfirst & Hraw); eauto. }
  exists representation, first, raw_guesses. split; [exact Hfirst |].
  split; [exact Hraw' |].
  apply mapM_Forall2 in H. eapply Forall2_impl; [exact H |]. cbn.
  intros i d Hd. apply bind_inr in Hd as (guess & Hguess & Hd). injection Hd as <-.
  exists guess. split; [| reflexivity].
  unfold guess_pool.
  destruct (QuestionData.use_contrastive_examples td);
    apply bind_inr in Hguess as (pool & Hpool & Hguess);
    [destruct (QuestionData.answers td) | destruct (QuestionData.answer_indices td)];
    try discriminate Hpool; injection Hpool as ->; exact Hguess.
Qed.

(** X22: the guesses of a call.  Whenever [__call__] returns, it returns at
    most [n_guesses] guesses, exactly [n_guesses] in ranking mode; each guess
    is a dictionary with the single key ['guess'], whose value is a label of
    the training data (a stored answer in ranking mode, an entry of the answer
    list in classification mode) or the empty string that replaces the label
    ['<unk>'], which is never reported. *)
Theorem call_guesses (g : DanGuesser.t) (td : QuestionData.t) (question : string)
    (n_guesses : Z) (guesses : list (gmap string string)) :
  DanGuesser.training_data g = Some td ->
  DanGuesser.__call__ g question n_guesses = inr guesses ->
  Z.of_nat (length guesses) <= Z.max 0 n_guesses /\
  (QuestionData.use_contrastive_examples td = true ->
   Z.of_nat (length guesses) = n_guesses) /\
  Forall (fun d : gmap string string =>
            exists s, d = {[ "guess" := s ]} /\ s <> "<unk>" /\
                      (In s (guess_pool td) \/ (s = "" /\ In "<unk>" (guess_pool td))))
         guesses.
Proof.
  intros Htd H.
  destruct (call_inr g td question n_guesses guesses Htd H)
    as (representation & first & raw & _ & Hraw & Hall).
  assert (length guesses = length raw) as Hlen
    by (symmetry; eapply Forall2_length, Hall).
  assert (Z.of_nat (length raw) <= Z.max 0 n_guesses /\
          (QuestionData.use_contrastive_examples td = true ->
           Z.of_nat (length raw) = n_guesses)) as [Hle Heq].
  { destruct (QuestionData.use_contrastive_examples td).
    - apply get_nearest_inr in Hraw as (ix & _ & Hn & ->).
      destruct (search_one_spec ix first (Z.to_nat n_guesses)) as (Hl & _).
      rewrite Hl. split; [lia | intros _; lia].
    - apply topk_length in Hraw as [Hk ->]. split; [lia | discriminate]. }
  rewrite Hlen. split; [exact Hle |]. split; [exact Heq |].
  clear - Hall. induction Hall as [| i d raw guesses (guess & Hguess & ->) _ IH];
    constructor; [| exact IH].
  apply getitem_In in Hguess. unfold reported, DanGuesser.kUNK.
  destruct (String.eqb_spec guess "<unk>") as [-> | Hne].
  - exists "". split; [reflexivity |]. split; [discriminate |]. right. split; [reflexivity |].
    exact Hguess.
  - exists guess. split; [reflexivity |]. split; [exact Hne |]. left. exact Hguess.
Qed.

Lemma call_guesses_witness :
  let guesses : list (gmap string string) :=
    [{[ "guess" := "London" ]}; {[ "guess" := "Paris" ]}] in
  DanGuesser.training_data Session.classification_guesser = Some Session.labels /\
  DanGuesser.__call__ Session.classification_guesser "city of light" 5 = inr guesses /\
  Z.of_nat (length guesses) <= Z.max 0 5 /\
  (QuestionData.use_contrastive_examples Session.labels = true ->
   Z.of_nat (length guesses) = 5) /\
  Forall (fun d : gmap string string =>
            exists s, d = {[ "guess" := s ]} /\ s <> "<unk>" /\
                      (In s (guess_pool Session.labels) \/
                       (s = "" /\ In "<unk>" (guess_pool Session.labels))))
         guesses.
Proof.
  intros guesses.
  assert (DanGuesser.__call__ Session.classification_guesser "city of light" 5
          = inr guesses) as H by exact classification_guesses.
  split; [reflexivity |]. split; [exact H |].
  exact (call_guesses Session.classification_guesser Session.labels "city of light" 5
           guesses eq_refl H).
Defined.

(** ** More guesses than stored questions *)

Lemma getitem_last {A} (xs : list A) (x : A) :
  getitem xs (-1) = inr x -> last xs = Some x.
Proof.
  unfold getitem. cbv zeta. change (-1 <? 0) with true. cbv iota.
  destruct (_ || _) eqn:Hb; [discriminate |].
  apply orb_false_iff in Hb as [Hb1 Hb2]. apply Z.ltb_ge in Hb1.
  replace (Z.to_nat (-1 + Z.of_nat (length xs))) with (length xs - 1)%nat by lia.
  destruct (nth_error xs (length xs - 1)) as [y |] eqn:Hy; [| discriminate].
  intros [= <-]. rewrite last_lookup, lookup_nth_error.
  replace (Nat.pred (length xs)) with (length xs - 1)%nat by lia. exact Hy.
Qed.

(** X23: asking for more guesses than there are stored questions.  In
    ranking mode the index fills the missing neighbours with the id -1,
    which [__call__] reads as a position counted from the end: when a call
    for [n_guesses] guesses on an index of fewer rows returns, every guess
    past the number of rows is the (reported) answer of the last stored
    question. *)
Theorem call_more_guesses_than_stored (g : DanGuesser.t) (td : QuestionData.t)
    (ix : IndexFlatL2.t) (question : string) (n_guesses : Z)
    (guesses : list (gmap string string)) :
  DanGuesser.training_data g = Some td ->
  QuestionData.use_contrastive_examples td = true ->
  QuestionData.lookup td = Some ix ->
  DanGuesser.__call__ g question n_guesses = inr guesses ->
  forall j, (length (IndexFlatL2.xb ix) <= j)%nat -> Z.of_nat j < n_guesses ->
    exists answer,
      last (guess_pool td) = Some answer /\
      guesses !! j = Some ({[ "guess" := reported answer ]} : gmap string string).
Proof.
  intros Htd Hc Hix H j Hj Hn.
  destruct (call_inr g td question n_guesses guesses Htd H)
    as (representation & first & raw & _ & Hraw & Hall).
  rewrite Hc in Hraw. apply get_nearest_inr in Hraw as (ix' & Hix' & Hk & ->).
  rewrite Hix in Hix'. injection Hix' as <-.
  destruct (search_one_spec ix first (Z.to_nat n_guesses)) as (Hlen & _ & _ & _ & Hdrop).
  set (ids := IndexFlatL2.search_one ix (Z.to_nat n_guesses) first) in *.
  set (found := Nat.min (Z.to_nat n_guesses) (length (IndexFlatL2.xb ix))) in *.
  assert (ids !! j = Some (-1)) as Hid.
  { replace j with (found + (j - found))%nat by (unfold found; lia).
    rewrite <- lookup_drop, Hdrop, lookup_nth_error.
    apply nth_error_repeat. unfold found. lia. }
  destruct (Forall2_lookup_l _ _ _ _ _ Hall Hid) as (d & Hd & guess & Hguess & ->).
  exists guess. split; [apply getitem_last, Hguess | exact Hd].
Qed.

Example ranking_guesses_padded :
  DanGuesser.__call__ Session.ranking_guesser "capital of france" 4
  = inr [{[ "guess" := "London" ]}; {[ "guess" := "Paris" ]};
         {[ "guess" := "Paris" ]}; {[ "guess" := "Paris" ]}].
Proof. vm_compute. reflexivity. Qed.

Lemma call_more_guesses_than_stored_witness :
  let guesses : list (gmap string string) :=
    [{[ "guess" := "London" ]}; {[ "guess" := "Paris" ]};
     {[ "guess" := "Paris" ]}; {[ "guess" := "Paris" ]}] in
  DanGuesser.training_data Session.ranking_guesser = Some Session.store /\
  QuestionData.use_contrastive_examples Session.store = true /\
  QuestionData.lookup Session.store
    = Some {| IndexFlatL2.d := 2; IndexFlatL2.xb := [[6; 4]; [14; 8]]%Q |} /\
  DanGuesser.__call__ Session.ranking_guesser "capital of france" 4 = inr guesses /\
  forall j, (2 <= j)%nat -> Z.of_nat j < 4 ->
    exists answer,
      last (guess_pool Session.store) = Some answer /\
      guesses !! j = Some ({[ "guess" := reported answer ]} : gmap string string).
Proof.
  intros guesses.
  assert (DanGuesser.__call__ Session.ranking_guesser "capital of france" 4 = inr guesses)
    as H by exact ranking_guesses_padded.
  split; [reflexivity |]. split; [reflexivity |]. split; [reflexivity |].
  split; [exact H |].
  exact (call_more_guesses_than_stored Session.ranking_guesser Session.store
           {| IndexFlatL2.d := 2; IndexFlatL2.xb := [[6; 4]; [14; 8]]%Q |}
           "capital of france" 4 guesses eq_refl eq_refl eq_refl H).
Defined.

(** ** The range of the accuracy ([evaluate], [number_errors]) *)

Lemma count_mismatches_range {A} (eqb : A -> A -> bool) (xs ys : list A) :
  0 <= count_mismatches eqb xs ys <= Z.of_nat (length ys).
Proof.
  unfold count_mismatches. split; [lia |]. apply Nat2Z.inj_le.
  transitivity (length (zip xs ys)).
  - generalize (zip xs ys). intros l.
    induction l as [| p l IH]; cbn; [lia |].
    destruct (negb (eqb (fst p) (snd p))); cbn; lia.
  - revert ys. induction xs as [| x xs IH]; intros [| y ys]; cbn; try lia.
    specialize (IH ys). lia.
Qed.

Lemma forward_eval_rows (m : DanModel.t) (mask : list (list bool))
    (input_text : list (list Z)) (text_len : list Z) (out : list (list Q)) :
  DanModel.training m = false ->
  length text_len = length input_text ->
  DanModel.forward m mask input_text text_len = inr out ->
  length out = length input_text.
Proof.
  intros Ht Hl H. unfold DanModel.forward in H.
  apply bind_inr in H as (emb & He & H).
  apply bind_inr in H as (avg & Ha & H).
  apply bind_inr in H as (rep & Hn & H). injection H as <-.
  apply mapM_inr_length in He.
  unfold DanModel.average, DanModel.broadcast_div in Ha.
  rewrite !length_map, He, Hl, Nat.eqb_refl in Ha. injection Ha as Ha.
  assert (length avg = length input_text) as Havg.
  { rewrite <- Ha. rewrite length_zip_with; rewrite !length_map; lia. }
  unfold DanModel.network in Hn. apply bind_inr in Hn as (h & Hh & Hn).
  rewrite Ht in Hn. unfold Dropout, ReLU in Hn.
  apply mapM_inr_length in Hh. apply mapM_inr_length in Hn.
  rewrite length_map in Hn.
  etransitivity; [exact Hn |]. etransitivity; [exact Hh | exact Havg].
Qed.

Lemma number_errors_range (question_text : list (list Z)) (question_len : list Z)
    (labels : list string) (train_data : QuestionData.t) (model : DanModel.t) (e : Z) :
  DanModel.training model = false ->
  length question_len = length question_text ->
  length labels = length question_text ->
  number_errors question_text question_len labels train_data model = inr e ->
  0 <= e <= Z.of_nat (length question_text).
Proof.
  intros Ht Hl Hlab H. unfold number_errors in H.
  destruct (DanModel.criterion model) as [margin | | name].
  - apply bind_inr in H as (reps & _ & H).
    apply bind_inr in H as (predictions & _ & H). injection H as <-.
    rewrite Z.add_0_l, <- Hlab. apply count_mismatches_range.
  - apply bind_inr in H as (logits & Hf & H).
    apply bind_inr in H as (predicted & Hp & H).
    apply bind_inr in H as (idx & _ & H).
    apply bind_inr in H as (gold & Hg & H).
    apply bind_inr in H as (differing & Hd & H). injection H as <-.
    apply forward_eval_rows in Hf; [| assumption ..].
    apply mapM_inr_length in Hp, Hg.
    assert (length predicted = length gold) as Hsame by congruence.
    unfold count_ne in Hd. rewrite Hsame, Nat.eqb_refl in Hd. injection Hd as <-.
    replace (length question_text) with (length gold) by congruence.
    apply count_mismatches_range.
  - injection H as <-. lia.
Qed.

Lemma evaluate_loop_range (data_loader : list Batch) (model : DanModel.t)
    (train_data : QuestionData.t) :
  DanModel.training model = false ->
  Forall coherent data_loader ->
  forall num_examples error totals,
    0 <= error <= num_examples ->
    evaluate_loop data_loader model train_data num_examples error = inr totals ->
    0 <= snd totals <= fst totals.
Proof.
  intros Ht Hall. induction Hall as [| b data_loader [Hl Hlab] _ IH];
    intros n err totals Hrange H; cbn in H.
  - injection H as <-. exact Hrange.
  - apply bind_inr in H as (e & He & H).
    apply (number_errors_range _ _ _ _ _ _ Ht Hl Hlab) in He.
    apply (IH _ _ totals) in H; [exact H | lia].
Qed.

(** X24: the accuracy is a proportion.  On a loader whose batches hold one
    true length and one answer per question row, as the collate functions
    build them, [evaluate] returns a number between 0 and 1 whenever it
    returns, in classification as in ranking mode and whatever mode the
    model was in before. *)
Theorem evaluate_accuracy_range (data_loader : list Batch) (model : DanModel.t)
    (train_data : QuestionData.t) (accuracy : Q) :
  Forall coherent data_loader ->
  evaluate data_loader model train_data = inr accuracy ->
  (0 <= accuracy <= 1)%Q.
Proof.
  intros Hall H. unfold evaluate in H.
  apply bind_inr in H as ([n e] & Hloop & H).
  apply (evaluate_loop_range data_loader (DanModel.eval model) train_data eq_refl Hall 0 0)
    in Hloop; [| lia].
  cbn [fst snd] in Hloop, H.
  apply bind_inr in H as (ratio & Hdiv & H). injection H as <-.
  unfold true_div in Hdiv. destruct (n =? 0) eqn:Hn; [discriminate |].
  injection Hdiv as <-. apply Z.eqb_neq in Hn.
  destruct n as [| p | p]; [lia | | lia].
  unfold Qle, Qminus, Qplus, Qopp, Qdiv, Qmult, Qinv, inject_Z. cbn.
  split; nia.
Qed.

Lemma evaluate_accuracy_range_witness :
  Forall coherent [Session.dev_batch] /\
  exists accuracy,
    evaluate [Session.dev_batch] Scenario.classifier Session.labels = inr accuracy /\
    (0 <= accuracy <= 1)%Q.
Proof.
  assert (Forall coherent [Session.dev_batch]) as Hall
    by (repeat constructor).
  split; [exact Hall |].
  eexists. split; [vm_compute; reflexivity |].
  apply (evaluate_accuracy_range [Session.dev_batch] Scenario.classifier Session.labels _ Hall).
  vm_compute; reflexivity.
Defined.

(** ** The set-up of a training session ([train_dan]) *)

Lemma kept_labels_in (answer_field : string) (idx : list string)
    (qs : list (gmap string string)) :
  Forall (fun a => In a idx)
    (omap (fun x : gmap string string => x !! answer_field)
          (QuestionData.kept answer_field idx qs)).
Proof.
  pose proof (kept_labels answer_field idx qs) as H.
  induction H as [| x a l l' [_ Ha] _ IH]; constructor; assumption.
Qed.

Lemma build_vocab_inr (self self' : QuestionData.t) (questions : list (gmap string string)) :
  QuestionData.build_vocab self questions = inr self' ->
  exists v,
    self' = QuestionData.set_vocab self v /\
    (0 < Vocab.len v)%nat /\
    (QuestionData.vocab_size self < 0 \/ Z.of_nat (Vocab.len v) <= QuestionData.vocab_size self).
Proof.
  unfold QuestionData.build_vocab. intros H.
  apply bind_inr in H as (texts & _ & H).
  apply bind_inr in H as (unk & _ & H).
  apply bind_inr in H as ([] & Ha & H). injection H as <-.
  eexists. split; [reflexivity |]. split.
  - unfold Vocab.len, Vocab.set_default_index, Vocab.build_vocab_from_iterator. cbn. lia.
  - unfold Py.assert in Ha.
    destruct (_ || _) eqn:Hor in Ha; [| discriminate].
    apply orb_true_iff in Hor as [Hneg | Hle]; [left | right]; lia.
Qed.

(** X25: the state that the set-up of [train_dan] establishes.  When the
    statements before the epoch loop succeed, the evaluation data shares the
    vocabulary and the answer list of the training data and holds answers of
    that list only; the answer list is no longer than the maximal class
    count and the vocabulary, which is not empty, no larger than the
    configured size; the model is built for that vocabulary, in training
    mode, with one class per answer in classification mode; and the training
    data holds one zero row of the hidden width per stored answer and no
    lookup index yet. *)
Theorem train_dan_setup_state (rng : DanModel.Init) (self g : DanGuesser.t)
    (raw_train raw_eval : list (gmap string string)) :
  train_dan_setup rng self raw_train raw_eval = inr g ->
  let params := DanGuesser.params self in
  exists td ed m vocab idx answers,
    DanGuesser.training_data g = Some td /\
    DanGuesser.eval_data g = Some ed /\
    DanGuesser.dan_model g = Some m /\
    QuestionData.vocab td = Some vocab /\
    QuestionData.vocab ed = Some vocab /\
    QuestionData.answer_indices td = Some idx /\
    QuestionData.answer_indices ed = Some idx /\
    Z.of_nat (length idx) <= dan_guesser_max_classes params /\
    (0 < Vocab.len vocab)%nat /\
    Z.of_nat (Vocab.len vocab) <= dan_guesser_vocab_size params /\
    DanModel.vocab_size m = Vocab.len vocab /\
    DanModel.training m = true /\
    (DanModel.criterion m = CrossEntropyLoss ->
     DanModel.num_answers m = Z.of_nat (length idx)) /\
    QuestionData.answers td = Some answers /\
    QuestionData.representations td
      = Some (Tensor.zeros2 (length answers) (dan_guesser_hidden_units params)) /\
    QuestionData.lookup td = None /\
    (forall evals a, QuestionData.answers ed = Some evals -> In a evals -> In a idx).
Proof.
  intros H params. unfold train_dan_setup in H. fold params in H.
  apply bind_inr in H as (td1 & Hbv & H).
  apply bind_inr in H as (vocab & Hv & H).
  apply bind_inr in H as (td2 & Hsd & H).
  apply bind_inr in H as (ed & Hed & H).
  apply bind_inr in H as (num_answers & Hna & H).
  apply bind_inr in H as ([] & Hmax & H).
  apply bind_inr in H as ([] & Hsize & H).
  apply bind_inr in H as (m & Hm & H).
  apply bind_inr in H as (td & Hlr & H). injection H as <-.
  apply build_vocab_inr in Hbv as (v & -> & Hpos & _).
  cbn in Hv. injection Hv as ->.
  destruct (set_data_inr _ _ _ _ _ Hsd)
    as (texts & _ & Hi & _ & Ha & Hvoc & Hrep & Hlook & _ & Hdim & _).
  destruct (set_data_inr _ _ _ _ _ Hed)
    as (etexts & _ & Hei & _ & Hea & Hevoc & _).
  rewrite Hi in Hei. cbn [answer_list] in Hei.
  unfold QuestionData.number_answers in Hna. rewrite Hi in Hna. injection Hna as <-.
  unfold Py.assert in Hmax, Hsize.
  destruct (_ <=? _) eqn:Hle1 in Hmax; [| discriminate].
  destruct (_ <=? _) eqn:Hle2 in Hsize; [| discriminate].
  unfold initialize_model in Hm. apply init_inr in Hm as (_ & out & na & Hsecond & ->).
  unfold QuestionData.initialize_lookup_representation in Hlr.
  rewrite Ha in Hlr. cbn [QuestionData.attr] in Hlr. rewrite bind_ret_l in Hlr.
  injection Hlr as <-.
  do 6 eexists.
  split; [reflexivity |]. split; [reflexivity |]. split; [reflexivity |].
  split; [cbn; rewrite Hvoc; reflexivity |].
  split; [rewrite Hevoc; reflexivity |].
  split; [cbn; exact Hi |]. split; [exact Hei |].
  split; [apply Z.leb_le; exact Hle1 |]. split; [exact Hpos |].
  split; [apply Z.leb_le; exact Hle2 |].
  split; [reflexivity |]. split; [reflexivity |].
  split.
  { cbn [DanModel.criterion constructed]. intros Hc. rewrite Hc in Hsecond.
    cbn in Hsecond. injection Hsecond as _ <-. reflexivity. }
  split; [cbn; exact Ha |].
  split; [cbn; rewrite Hdim; reflexivity |].
  split; [cbn; rewrite Hlook; reflexivity |].
  intros evals a Hev Hin. rewrite Hea in Hev. injection Hev as <-.
  rewrite Hi in Hin. cbn [answer_list] in Hin.
  pose proof (kept_labels_in "page"
                (answer_list (QuestionData.set_vocab
                                (QuestionData.__init__ (DanGuesser.word_tokenize self) params)
                                vocab)
                             raw_train "page" None) raw_eval) as Hall.
  rewrite Forall_forall in Hall. apply Hall, list_elem_of_In, Hin.
Qed.

Lemma train_dan_setup_state_witness :
  exists g,
    train_dan_setup Scenario.rng Setup.guesser Sample.train_questions Sample.eval_questions
      = inr g /\
    let params := DanGuesser.params Setup.guesser in
    exists td ed m vocab idx answers,
      DanGuesser.training_data g = Some td /\
      DanGuesser.eval_data g = Some ed /\
      DanGuesser.dan_model g = Some m /\
      QuestionData.vocab td = Some vocab /\
      QuestionData.vocab ed = Some vocab /\
      QuestionData.answer_indices td = Some idx /\
      QuestionData.answer_indices ed = Some idx /\
      Z.of_nat (length idx) <= dan_guesser_max_classes params /\
      (0 < Vocab.len vocab)%nat /\
      Z.of_nat (Vocab.len vocab) <= dan_guesser_vocab_size params /\
      DanModel.vocab_size m = Vocab.len vocab /\
      DanModel.training m = true /\
      (DanModel.criterion m = CrossEntropyLoss ->
       DanModel.num_answers m = Z.of_nat (length idx)) /\
      QuestionData.answers td = Some answers /\
      QuestionData.representations td
        = Some (Tensor.zeros2 (length answers) (dan_guesser_hidden_units params)) /\
      QuestionData.lookup td = None /\
      (forall evals a, QuestionData.answers ed = Some evals -> In a evals -> In a idx).
Proof.
  eexists. split; [vm_compute; reflexivity |].
  apply (train_dan_setup_state Scenario.rng Setup.guesser _ Sample.train_questions
           Sample.eval_questions).
  vm_compute; reflexivity.
Defined.

Example train_dan_setup_sample :
  exists g td ed,
    train_dan_setup Scenario.rng Setup.guesser Sample.train_questions Sample.eval_questions
      = inr g /\
    DanGuesser.training_data g = Some td /\ DanGuesser.eval_data g = Some ed /\
    QuestionData.answer_indices td = Some ["London"; "Paris"] /\
    QuestionData.answers td = Some ["London"; "Paris"; "London"; "Paris"] /\
    QuestionData.answers ed = Some ["London"; "Paris"] /\
    QuestionData.representations td = Some [[0; 0]; [0; 0]; [0; 0]; [0; 0]]%Q.
Proof. do 3 eexists. split; [vm_compute; reflexivity |]. repeat split. Qed.

(** X26: a negative vocabulary size, which [build_vocab] takes as "no
    bound" and accepts (it returns whenever every training record has a
    text), makes [train_dan] fail before the model is created: its check of
    the vocabulary against the configured size cannot hold, so the set-up
    raises whatever the data. *)
Theorem train_dan_negative_vocab_size (rng : DanModel.Init) (self : DanGuesser.t)
    (raw_train raw_eval : list (gmap string string)) :
  dan_guesser_vocab_size (DanGuesser.params self) < 0 ->
  (Forall (fun x : gmap string string => is_Some (x !! "text")) raw_train ->
   exists td,
     QuestionData.build_vocab
       (QuestionData.__init__ (DanGuesser.word_tokenize self) (DanGuesser.params self))
       raw_train = inr td) /\
  exists e, train_dan_setup rng self raw_train raw_eval = inl e.
Proof.
  intros Hneg. split.
  - intros Hall. unfold QuestionData.build_vocab.
    destruct (mapM_returns
                (fun x : gmap string string =>
                   match x !! "text" with
                   | Some s => Py.ret (QuestionData.tokenizer
                                 (QuestionData.__init__ (DanGuesser.word_tokenize self)
                                    (DanGuesser.params self)) s)
                   | None => Py.raise (Py.KeyError "text")
                   end) raw_train) as (texts & ->).
    { eapply Forall_impl; [exact Hall |]. cbn. intros x [s ->]. eauto. }
    rewrite bind_inr_l, specials_first, bind_inr_l.
    cbn [QuestionData.vocab_size QuestionData.__init__].
    rewrite (proj2 (Z.ltb_lt _ _) Hneg). cbn. eauto.
  - destruct (train_dan_setup rng self raw_train raw_eval) as [e | g] eqn:H; [eauto |].
    exfalso. unfold train_dan_setup in H.
    apply bind_inr in H as (td1 & _ & H).
    apply bind_inr in H as (vocab & _ & H).
    apply bind_inr in H as (td2 & _ & H).
    apply bind_inr in H as (ed & _ & H).
    apply bind_inr in H as (num_answers & _ & H).
    apply bind_inr in H as ([] & _ & H).
    apply bind_inr in H as ([] & Hsize & _).
    unfold Py.assert in Hsize.
    destruct (_ <=? _) eqn:Hle in Hsize; [| discriminate].
    apply Z.leb_le in Hle. lia.
Qed.

Lemma train_dan_negative_vocab_size_witness :
  let self := DanGuesser.__init__ Sample.word_tokenize Setup.unbounded in
  dan_guesser_vocab_size (DanGuesser.params self) < 0 /\
  (Forall (fun x : gmap string string => is_Some (x !! "text")) Sample.train_questions ->
   exists td,
     QuestionData.build_vocab
       (QuestionData.__init__ (DanGuesser.word_tokenize self) (DanGuesser.params self))
       Sample.train_questions = inr td) /\
  exists e,
    train_dan_setup Scenario.rng self Sample.train_questions Sample.eval_questions = inl e.
Proof.
  intros self. split; [reflexivity |].
  exact (train_dan_negative_vocab_size Scenario.rng self Sample.train_questions
           Sample.eval_questions eq_refl).
Defined.

Example train_dan_unbounded_vocabulary :
  train_dan_setup Scenario.rng (DanGuesser.__init__ Sample.word_tokenize Setup.unbounded)
    Sample.train_questions Sample.eval_questions = inl (Py.AssertionError "").
Proof. vm_compute. reflexivity. Qed.

(** ** Classification examples ([__getitem__], [vectorize], [__len__]) *)

Lemma vectorize_default (ex : string) (v : Vocab.t) (d : nat)
    (tokenizer : string -> list string) :
  Vocab.default_index v = Some d ->
  QuestionData.vectorize ex (Some v) tokenizer
  = inr [map (fun token => Z.of_nat (match Vocab.stoi v token with
                                     | Some i => i
                                     | None => d
                                     end)) (tokenizer ex)].
Proof.
  intros Hd. unfold QuestionData.vectorize.
  rewrite bool_decide_true by eauto. rewrite assert_true_bind.
  cbn [QuestionData.attr]. rewrite bind_ret_l.
  rewrite (mapM_map_inr _ (fun token => Z.of_nat (match Vocab.stoi v token with
                                                  | Some i => i
                                                  | None => d
                                                  end))).
  - reflexivity.
  - intros token _. unfold Vocab.get. destruct (Vocab.stoi v token); [reflexivity |].
    rewrite Hd. reflexivity.
Qed.

(** X27: the examples of a classification data set.  For a data set in
    classification mode whose vocabulary has a default index, once
    [set_data] has returned there is one stored answer per stored question,
    [len] is their number, and [__getitem__] at the position of a stored
    question returns, whatever the random draws, the example made of one id
    per token of the question (the index of the token, or the default index
    for an unknown token) and of the answer at that position, without
    positive and negative tensors; at a position past the end it raises
    [IndexError]. *)
Theorem getitem_classification_example (self self' : QuestionData.t)
    (questions : list (gmap string string)) (answer_field : string)
    (fix_answers : option (list string)) (v : Vocab.t) (d : nat)
    (texts answers : list string) (pick_pos pick_neg : nat) :
  QuestionData.use_contrastive_examples self = false ->
  QuestionData.vocab self = Some v ->
  Vocab.default_index v = Some d ->
  QuestionData.set_data self questions answer_field fix_answers = inr self' ->
  QuestionData.questions self' = Some texts ->
  QuestionData.answers self' = Some answers ->
  QuestionData.__len__ self' = inr (length texts) /\
  length answers = length texts /\
  (forall idx q, texts !! idx = Some q ->
     exists a,
       answers !! idx = Some a /\
       QuestionData.__getitem__ self' pick_pos pick_neg (Z.of_nat idx)
       = inr {| Example.tokens :=
                  map (fun token => Z.of_nat (match Vocab.stoi v token with
                                              | Some i => i
                                              | None => d
                                              end)) (QuestionData.tokenizer self q);
                Example.answer := a;
                Example.positive := None; Example.negative := None |}) /\
  (forall index, Z.of_nat (length texts) <= index ->
     QuestionData.__getitem__ self' pick_pos pick_neg index
     = inl (Py.IndexError "list index out of range")).
Proof.
  intros Hc Hv Hd H Hq Ha.
  destruct (set_data_inr _ _ _ _ _ H)
    as (texts0 & Ht & _ & Hq0 & Ha0 & Hvoc & _ & _ & Htok & _ & Hc' & _).
  rewrite Hq in Hq0. injection Hq0 as <-.
  pose proof (kept_labels answer_field (answer_list self questions answer_field fix_answers)
                questions) as Hlab.
  rewrite Ha in Ha0. injection Ha0 as Ha0. rewrite <- Ha0 in Hlab.
  assert (length answers = length texts) as Hlen
    by (apply Forall2_length in Ht, Hlab; congruence).
  split; [unfold QuestionData.__len__; rewrite Hq; reflexivity |].
  split; [exact Hlen |]. split.
  - intros idx q Hidx.
    destruct (lookup_lt_is_Some_2 answers idx) as (a & Hidx').
    { rewrite Hlen. eapply lookup_lt_Some, Hidx. }
    exists a. split; [exact Hidx' |].
    unfold QuestionData.__getitem__. rewrite Hq. cbn [QuestionData.attr].
    rewrite bind_ret_l, (getitem_lookup texts idx q Hidx), bind_inr_l.
    rewrite Hvoc, Hv, Htok, (vectorize_default q v d _ Hd), bind_inr_l.
    change (getitem [?row] 0) with (inr row : Py.t (list Z)). rewrite bind_inr_l.
    rewrite Hc', Hc, bind_ret_l, Ha. cbn [QuestionData.attr].
    rewrite bind_ret_l, (getitem_lookup answers idx a Hidx'), bind_inr_l.
    reflexivity.
  - intros index Hout. unfold QuestionData.__getitem__. rewrite Hq.
    cbn [QuestionData.attr]. rewrite bind_ret_l.
    rewrite (getitem_out_of_range texts index Hout). reflexivity.
Qed.

Lemma getitem_classification_example_witness :
  let self := QuestionData.set_vocab (Sample.data "CrossEntropyLoss") Contrast.vocab in
  let texts := ["capital of england"; "city of light"; "home of big ben";
                "capital of france"] in
  let answers := ["London"; "Paris"; "London"; "Paris"] in
  exists self',
    QuestionData.use_contrastive_examples self = false /\
    QuestionData.vocab self = Some Contrast.vocab /\
    Vocab.default_index Contrast.vocab = Some 0%nat /\
    QuestionData.set_data self Sample.train_questions "page" None = inr self' /\
    QuestionData.questions self' = Some texts /\
    QuestionData.answers self' = Some answers /\
    QuestionData.__getitem__ self' 0 0 1
    = inr {| Example.tokens := [3; 1; 5]; Example.answer := "Paris";
             Example.positive := None; Example.negative := None |} /\
    QuestionData.__getitem__ self' 0 0 4 = inl (Py.IndexError "list index out of range").
Proof.
  intros self texts answers. eexists.
  split; [reflexivity |]. split; [reflexivity |]. split; [reflexivity |].
  split; [vm_compute; reflexivity |].
  split; [reflexivity |]. split; [reflexivity |].
  pose proof (getitem_classification_example self _ Sample.train_questions "page" None
                Contrast.vocab 0 texts answers 0 0 eq_refl eq_refl eq_refl eq_refl
                eq_refl eq_refl) as (_ & _ & Hitem & Hout).
  split.
  - destruct (Hitem 1%nat "city of light" eq_refl) as (a & Ha & Hex).
    injection Ha as <-. exact Hex.
  - exact (Hout 4 ltac:(cbn; lia)).
Defined.
